(** * RAG-AND-KAG-BOT: the knowledge-graph service and its routes

    A shallow embedding of [app/services/kag_service.py] and of the text
    renderer of [app/api/routes/kag_routes.py], followed by the properties the
    specification states about them.

    Conventions of the embedding.
    - A Python [str] is a Rocq [string]; the case mappings, the whitespace
      class of [str.strip] and the regex class [\d] are the ASCII ones.
    - A value that came out of [json.loads] (or goes into a query parameter)
      is a [pyval]; a Python [dict] with string keys is an association list
      in insertion order.
    - Python exceptions are the [Raise] outcomes of [result].
    - The graph store is the log of the queries handed to [session.run]: a
      [session A] is the list of queries issued so far together with the
      outcome.  The store itself (Neo4j), the language model (OpenAI), the JSON
      parser and [float] are collaborators: they enter as section variables
      or as the outcome of the call.
    - The dynamic materializer is embedded twice: in [KagService] on a schema
      whose fields have their types, and in [Materializer] on the schema as
      [json.loads] returns it and on a store whose [session.run] can raise;
      the two are shown to send the same statements on a typed schema. *)

From Stdlib Require Import String Ascii List Bool Arith ZArith QArith Lia.
From Stdlib Require Import DecimalString DecimalNat.
Import ListNotations.

Local Close Scope Q_scope.
Local Open Scope string_scope.
Local Open Scope list_scope.

(* ===================================================================== *)
(** * Python primitives *)
(* ===================================================================== *)

Module Py.

(** ** Exceptions and outcomes *)

Record exn : Type := Exception { exn_class : string; exn_msg : string }.

Definition KeyError (k : string) : exn := Exception "KeyError" ("'" ++ k ++ "'").
Definition TypeError (m : string) : exn := Exception "TypeError" m.
Definition AttributeError (m : string) : exn := Exception "AttributeError" m.
Definition ValueError (m : string) : exn := Exception "ValueError" m.
Definition JSONDecodeError (m : string) : exn := Exception "JSONDecodeError" m.

(** [str(e)] *)
Definition str_exn (e : exn) : string := exn_msg e.

Inductive result (A : Type) : Type :=
| Ok (a : A)
| Raise (e : exn).
Arguments Ok {A} a.
Arguments Raise {A} e.

Definition bind {A B} (m : result A) (k : A -> result B) : result B :=
  match m with
  | Ok a => k a
  | Raise e => Raise e
  end.

(** [try: body except Exception as e: handler(e)] *)
Definition try_except {A} (body : result A) (handler : exn -> result A) : result A :=
  match body with
  | Ok a => Ok a
  | Raise e => handler e
  end.

(** ** Characters and strings *)

Definition code (c : ascii) : nat := nat_of_ascii c.

Definition between (lo hi : nat) (c : ascii) : bool :=
  (lo <=? code c)%nat && (code c <=? hi)%nat.

Definition is_upper (c : ascii) : bool := between 65 90 c.
Definition is_lower (c : ascii) : bool := between 97 122 c.
Definition is_digit (c : ascii) : bool := between 48 57 c.

(** The characters [str.strip()] removes: tab, LF, VT, FF, CR, FS, GS, RS, US
    and the space. *)
Definition is_space (c : ascii) : bool :=
  between 9 13 c || between 28 31 c || (code c =? 32)%nat.

Definition upper_char (c : ascii) : ascii :=
  if is_lower c then ascii_of_nat (code c - 32) else c.
Definition lower_char (c : ascii) : ascii :=
  if is_upper c then ascii_of_nat (code c + 32) else c.

Fixpoint map_str (f : ascii -> ascii) (s : string) : string :=
  match s with
  | EmptyString => EmptyString
  | String c r => String (f c) (map_str f r)
  end.

(** [s.upper()], [s.lower()] *)
Definition upper : string -> string := map_str upper_char.
Definition lower : string -> string := map_str lower_char.

(** [s.replace(old, new)] for a one-character [old]. *)
Fixpoint replace (old : ascii) (new : string) (s : string) : string :=
  match s with
  | EmptyString => EmptyString
  | String c r =>
      if Ascii.eqb c old then new ++ replace old new r
      else String c (replace old new r)
  end.

Fixpoint lstrip (s : string) : string :=
  match s with
  | EmptyString => EmptyString
  | String c r => if is_space c then lstrip r else s
  end.

Fixpoint rstrip (s : string) : string :=
  match s with
  | EmptyString => EmptyString
  | String c r =>
      let r' := rstrip r in
      if is_space c && (r' =? "") then "" else String c r'
  end.

(** [s.strip()] *)
Definition strip (s : string) : string := lstrip (rstrip s).

(** [needle in hay] on strings: substring test. *)
Fixpoint contains (needle hay : string) : bool :=
  String.prefix needle hay ||
  match hay with
  | EmptyString => false
  | String _ r => contains needle r
  end.

(** [any(term in s for term in terms)] *)
Definition any_in (terms : list string) (s : string) : bool :=
  existsb (fun term => contains term s) terms.

Fixpoint all_chars (p : ascii -> bool) (s : string) : bool :=
  match s with
  | EmptyString => true
  | String c r => p c && all_chars p r
  end.

(** [str(i)] for a non-negative integer. *)
Definition str_nat (i : nat) : string := NilEmpty.string_of_uint (Nat.to_uint i).

(** [sep.join(parts)] *)
Definition join (sep : string) (parts : list string) : string :=
  String.concat sep parts.

(** ** Regular expressions, matched by derivatives *)

Inductive regex : Type :=
| Void
| Eps
| Cls (p : ascii -> bool)
| Cat (r1 r2 : regex)
| Alt (r1 r2 : regex)
| Star (r : regex).

Definition Chr (c : ascii) : regex := Cls (Ascii.eqb c).
Definition Opt (r : regex) : regex := Alt Eps r.
Definition Plus (r : regex) : regex := Cat r (Star r).
(** [r{lo,lo+extra}] *)
Fixpoint Upto (extra : nat) (r : regex) : regex :=
  match extra with
  | O => Eps
  | S k => Opt (Cat r (Upto k r))
  end.
Fixpoint Times (n : nat) (r : regex) : regex :=
  match n with
  | O => Eps
  | S k => Cat r (Times k r)
  end.
Definition Range (lo extra : nat) (r : regex) : regex :=
  Cat (Times lo r) (Upto extra r).

Fixpoint nullable (r : regex) : bool :=
  match r with
  | Void => false
  | Eps => true
  | Cls _ => false
  | Cat r1 r2 => nullable r1 && nullable r2
  | Alt r1 r2 => nullable r1 || nullable r2
  | Star _ => true
  end.

Fixpoint deriv (c : ascii) (r : regex) : regex :=
  match r with
  | Void => Void
  | Eps => Void
  | Cls p => if p c then Eps else Void
  | Cat r1 r2 =>
      if nullable r1 then Alt (Cat (deriv c r1) r2) (deriv c r2)
      else Cat (deriv c r1) r2
  | Alt r1 r2 => Alt (deriv c r1) (deriv c r2)
  | Star r1 => Cat (deriv c r1) (Star r1)
  end.

Fixpoint fullmatch (r : regex) (s : string) : bool :=
  match s with
  | EmptyString => nullable r
  | String c s' => fullmatch (deriv c r) s'
  end.

(** [re.match('^' body '$', s)]: without [re.MULTILINE] the [$] also matches
    just before a final newline. *)
Definition re_match_anchored (body : regex) (s : string) : bool :=
  fullmatch (Cat body (Opt (Chr "010"))) s.

(** [re.sub(cls, repl, s)] for a one-character class and a one-character
    replacement. *)
Definition re_sub_class (cls : ascii -> bool) (repl : ascii) (s : string) : string :=
  map_str (fun c => if cls c then repl else c) s.

(** ** Values *)

(** A Python float: the rational it denotes, an infinity or a NaN. *)
Inductive pyfloat : Type :=
| FFinite (q : Q)
| FInf (negative : bool)
| FNaN.

#[warnings="-register-all"] Inductive pyval : Type :=
| PNone
| PBool (b : bool)
| PInt (z : Z)
| PFloat (f : pyfloat)
| PStr (s : string)
| PList (l : list pyval)
| PDict (d : list (string * pyval)).

Definition pydict : Type := list (string * pyval).

(** [d.get(k)] as an option; [k in d]; [d[k]]; [d.get(k, default)] *)
Fixpoint lookup (d : pydict) (k : string) : option pyval :=
  match d with
  | [] => None
  | (k', v) :: r => if k' =? k then Some v else lookup r k
  end.

Definition has_key (d : pydict) (k : string) : bool :=
  match lookup d k with Some _ => true | None => false end.

Definition getitem (d : pydict) (k : string) : result pyval :=
  match lookup d k with
  | Some v => Ok v
  | None => Raise (KeyError k)
  end.

Definition get (d : pydict) (k : string) (default : pyval) : pyval :=
  match lookup d k with
  | Some v => v
  | None => default
  end.

(** [d[k] = v]: overwrite in place or append. *)
Fixpoint setitem (d : pydict) (k : string) (v : pyval) : pydict :=
  match d with
  | [] => [(k, v)]
  | (k', v') :: r => if k' =? k then (k, v) :: r else (k', v') :: setitem r k v
  end.

(** [v[k]] on a value: a [TypeError] when [v] is not subscriptable by a
    string, a [KeyError] when the key is missing. *)
Definition subscript (v : pyval) (k : string) : result pyval :=
  match v with
  | PDict d => getitem d k
  | _ => Raise (TypeError "indices must be integers or the object is not subscriptable")
  end.

(** The numeric value Python's [==] and [hash] compare: booleans are the
    integers 0 and 1, and integers and floats compare by value. *)
Definition numeric (v : pyval) : option pyfloat :=
  match v with
  | PBool b => Some (FFinite (if b then 1%Q else 0%Q))
  | PInt z => Some (FFinite (inject_Z z))
  | PFloat f => Some f
  | _ => None
  end.

Definition float_eqb (a b : pyfloat) : bool :=
  match a, b with
  | FFinite x, FFinite y => Qeq_bool x y
  | FInf s, FInf t => Bool.eqb s t
  | _, _ => false
  end.

(** Lists and dicts are unhashable. *)
Definition hashable (v : pyval) : bool :=
  match v with
  | PList _ | PDict _ => false
  | _ => true
  end.

(** [a == b] on hashable values. *)
Definition py_eqb (a b : pyval) : bool :=
  match a, b with
  | PNone, PNone => true
  | PStr s, PStr t => s =? t
  | _, _ =>
      match numeric a, numeric b with
      | Some x, Some y => float_eqb x y
      | _, _ => false
      end
  end.

(** ** More of Python's built-ins *)

(** [bool(v)]: what [if v] and [not v] test. *)
Definition truthy (v : pyval) : bool :=
  match v with
  | PNone => false
  | PBool b => b
  | PInt z => negb (Z.eqb z 0)
  | PFloat (FFinite q) => negb (Qeq_bool q 0)
  | PFloat _ => true
  | PStr s => negb (s =? "")
  | PList l => match l with [] => false | _ => true end
  | PDict d => match d with [] => false | _ => true end
  end.

(** [len(v)] *)
Definition py_len (v : pyval) : result nat :=
  match v with
  | PStr s => Ok (String.length s)
  | PList l => Ok (length l)
  | PDict d => Ok (length d)
  | _ => Raise (TypeError "object has no len()")
  end.

(** [v == s] for a string literal [s]. *)
Definition is_str (v : pyval) (s : string) : bool :=
  match v with
  | PStr t => t =? s
  | _ => false
  end.

(** [v.get(k, default)] on a value: only a dict has [get]. *)
Definition dict_get (v : pyval) (k : string) (default : pyval) : result pyval :=
  match v with
  | PDict d => Ok (get d k default)
  | _ => Raise (AttributeError "object has no attribute 'get'")
  end.

(** [v[k] = x] on a value. *)
Definition assign (v : pyval) (k : string) (x : pyval) : result pyval :=
  match v with
  | PDict d => Ok (PDict (setitem d k x))
  | _ => Raise (TypeError "object does not support item assignment with a string key")
  end.

(** A loop whose body may raise, threading the state it updates. *)
Fixpoint fold_result {X S} (body : S -> X -> result S) (xs : list X) (s : S)
  : result S :=
  match xs with
  | [] => Ok s
  | x :: r => bind (body s x) (fold_result body r)
  end.

(** [[body(x) for x in xs]] *)
Fixpoint map_result {X Y} (body : X -> result Y) (xs : list X) : result (list Y) :=
  match xs with
  | [] => Ok []
  | x :: r => bind (body x) (fun y => bind (map_result body r) (fun ys => Ok (y :: ys)))
  end.

(** [s[:n]] *)
Definition take (n : nat) (s : string) : string := String.substring 0 n s.

End Py.

(* ===================================================================== *)
(** * app/services/kag_service.py *)
(* ===================================================================== *)

Module KagService.
Import Py.

(** ** The graph session *)

(** One call [session.run(cypher, **params)].  The query texts are the
    source's with runs of white space written as one space. *)
Record graph_query : Type := Query { cypher : string; params : pydict }.

(** The queries issued, oldest first, and how the code ended. *)
Definition session (A : Type) : Type := (list graph_query * result A)%type.

Definition ret {A} (a : A) : session A := ([], Ok a).
Definition raise {A} (e : exn) : session A := ([], Raise e).
Definition lift {A} (r : result A) : session A := ([], r).
Definition run (q : graph_query) : session unit := ([q], Ok tt).

Definition sbind {A B} (m : session A) (k : A -> session B) : session B :=
  match m with
  | (log, Ok a) => let (log', r) := k a in (log ++ log', r)
  | (log, Raise e) => (log, Raise e)
  end.

Notation "x <- m ;; k" := (sbind m (fun x => k))
  (at level 61, m at next level, right associativity).
Notation "m ;;; k" := (sbind m (fun _ => k))
  (at level 61, right associativity).

(** [for x in xs: body(x)] *)
Fixpoint for_each {X} (xs : list X) (body : X -> session unit) : session unit :=
  match xs with
  | [] => ret tt
  | x :: r => body x ;;; for_each r body
  end.

(** [range(n)] and [enumerate(xs)] *)
Definition range (n : nat) : list nat := seq 0 n.
Definition enumerate {X} (xs : list X) : list (nat * X) :=
  combine (seq 0 (length xs)) xs.

Definition issued {A} (m : session A) : list graph_query := fst m.
Definition outcome {A} (m : session A) : result A := snd m.

(** ** Identifier sanitization *)

(** The class [[a-zA-Z0-9_]]. *)
Definition is_identifier_char (c : ascii) : bool :=
  is_lower c || is_upper c || is_digit c || Ascii.eqb c "_".

(** [re.sub(r'[^a-zA-Z0-9_]', '_', s)] *)
Definition sanitize (s : string) : string :=
  re_sub_class (fun c => negb (is_identifier_char c)) "_" s.

(** ** normalize_value *)

(** [^\$?[\d,]+(\.\d+)?$] *)
Definition currency_pattern : regex :=
  Cat (Opt (Chr "$"))
      (Cat (Plus (Cls (fun c => is_digit c || Ascii.eqb c ",")))
           (Opt (Cat (Chr ".") (Plus (Cls is_digit))))).

(** [^\d{1,2}[/-]\d{1,2}[/-]\d{2,4}$] *)
Definition date_separator : regex := Cls (fun c => Ascii.eqb c "/" || Ascii.eqb c "-").
Definition date_pattern : regex :=
  Cat (Range 1 1 (Cls is_digit))
      (Cat date_separator
           (Cat (Range 1 1 (Cls is_digit))
                (Cat date_separator (Range 2 2 (Cls is_digit))))).

Section Extractor.

(** Python's [float(s)]. *)
Variable float : string -> result pyfloat.

Definition normalize_value (value : pyval) : pyval :=
  match value with
  | PStr s =>
      let as_number :=
        if re_match_anchored currency_pattern (strip s) then
          match float (replace "," "" (replace "$" "" (strip s))) with
          | Ok f => Some (PFloat f)
          | Raise _ => None
          end
        else None in
      match as_number with
      | Some number => number
      | None =>
          if re_match_anchored date_pattern (strip s) then PStr (strip s)
          else value
      end
  | _ => value
  end.

(** ** The dynamic materializer *)

(** The schema descriptor the Schema Inferencer asks the model for. *)
Record relationship : Type :=
  { related_to : string; relationship_type : string }.
Record entity_schema : Type :=
  { name : string;
    type : string;
    attributes : list string;
    relationships : list relationship }.
Record document_schema : Type :=
  { document_type : string;
    entities : list entity_schema;
    primary_identifiers : list string }.

(** [{k: self.normalize_value(v) for k, v in entity_data.items() if v is not None}] *)
Definition normalized (entity_data : pydict) : pydict :=
  map (fun kv => (fst kv, normalize_value (snd kv)))
      (filter (fun kv => match snd kv with PNone => false | _ => true end) entity_data).

Definition _create_entity_node (document_id entity_type : string)
    (entity_data : pyval) (node_id : string) : session unit :=
  match entity_data with
  | PDict d =>
      let normalized_data := setitem (normalized d) "node_id" (PStr node_id) in
      let sanitized_type := sanitize entity_type in
      run (Query ("MATCH (d:Document {id: $document_id}) CREATE (e:"
                    ++ sanitized_type
                    ++ " $properties) CREATE (d)-[:CONTAINS]->(e)")
                 [("document_id", PStr document_id);
                  ("properties", PDict normalized_data)])
  | _ => raise (AttributeError "object has no attribute 'items'")
  end.

(** The query [_create_relationship] builds: the relationship type is
    interpolated into the text, the three ids are parameters. *)
Definition relationship_query (document_id source_id target_id
    relationship_type : string) : graph_query :=
  Query ("MATCH (d:Document {id: $document_id}) "
           ++ "MATCH (source {node_id: $source_id})<-[:CONTAINS]-(d) "
           ++ "MATCH (target {node_id: $target_id})<-[:CONTAINS]-(d) "
           ++ "CREATE (source)-[:" ++ relationship_type ++ "]->(target)")
        [("document_id", PStr document_id);
         ("source_id", PStr source_id);
         ("target_id", PStr target_id)].

Definition _create_relationship (document_id source_id target_id
    relationship_type : string) : session unit :=
  run (relationship_query document_id source_id target_id relationship_type).

(** The relationship-type identifier of lines 234:
    [relationship['relationship_type'].upper().replace(' ', '_')] *)
Definition relationship_identifier (rel : relationship) : string :=
  replace " " "_" (upper (relationship_type rel)).

(** Body of the first loop (lines 213-227), for one schema entity. *)
Definition create_entity_nodes (document_id : string) (extracted_data : pydict)
    (entity : entity_schema) : session unit :=
  let entity_name := name entity in
  let entity_type := type entity in
  match lookup extracted_data entity_name with
  | Some (PList items) =>
      for_each (enumerate items) (fun '(i, item) =>
        _create_entity_node document_id entity_type item
                            (entity_name ++ "_" ++ str_nat i))
  | Some entity_data =>
      _create_entity_node document_id entity_type entity_data entity_name
  | None => ret tt
  end.

(** Body of the second loop (lines 232-269), for one declared relationship. *)
Definition create_relationships (document_id : string) (extracted_data : pydict)
    (entity : entity_schema) (rel : relationship) : session unit :=
  let source_entity := name entity in
  let target_entity := related_to rel in
  let relationship_type := relationship_identifier rel in
  match lookup extracted_data source_entity, lookup extracted_data target_entity with
  | Some source_data, Some target_data =>
      match source_data, target_data with
      | PList sources, PList targets =>
          for_each (range (length sources)) (fun i =>
            for_each (range (length targets)) (fun j =>
              _create_relationship document_id
                (source_entity ++ "_" ++ str_nat i)
                (target_entity ++ "_" ++ str_nat j) relationship_type))
      | PList sources, _ =>
          for_each (range (length sources)) (fun i =>
            _create_relationship document_id
              (source_entity ++ "_" ++ str_nat i) target_entity relationship_type)
      | _, PList targets =>
          for_each (range (length targets)) (fun j =>
            _create_relationship document_id
              source_entity (target_entity ++ "_" ++ str_nat j) relationship_type)
      | _, _ =>
          _create_relationship document_id source_entity target_entity
                               relationship_type
      end
  | _, _ => ret tt
  end.

Definition create_dynamic_knowledge_graph (document_id : string)
    (extracted_data : pydict) (schema : document_schema) : session unit :=
  run (Query "CREATE (d:Document {id: $document_id, type: $document_type})"
             [("document_id", PStr document_id);
              ("document_type", get extracted_data "document_type" (PStr "unknown"))]) ;;;
  for_each (entities schema) (create_entity_nodes document_id extracted_data) ;;;
  for_each (entities schema) (fun entity =>
    for_each (relationships entity)
             (create_relationships document_id extracted_data entity)).

End Extractor.

(** ** Schema inference *)

Section Model.

(** Python's [json.loads]. *)
Variable json_loads : string -> result pyval.

Definition unknown_schema : pyval :=
  PDict [("document_type", PStr "unknown");
         ("entities", PList []);
         ("primary_identifiers", PList [])].

(** [identify_document_type]: [completion] is how the chat-completion call
    ended, the text of [response.choices[0].message.content] or the exception
    raised on the way to it. *)
Definition identify_document_type (completion : result string) : result pyval :=
  try_except
    (bind completion (fun content => json_loads content))
    (fun e => Ok unknown_schema).

(** ** Intent classification *)

Definition intent (type : string) (fields : list string) : pyval :=
  PDict [("type", PStr type); ("fields", PList (map PStr fields))].

Definition price_terms : list string :=
  ["price"; "total"; "amount"; "cost"; "how much"].
Definition invoice_number_terms : list string :=
  ["invoice number"; "invoice id"; "invoice #"].
Definition date_terms : list string := ["date"; "when"; "time"; "issued"].
Definition product_terms : list string :=
  ["product"; "item"; "line item"; "details"; "what's included"].

Definition default_intent : pyval :=
  intent "general" ["total_amount"; "date"; "line_items"].

(** The [except] branch of the inner [try] (lines 634-644). *)
Definition rule_based_fallback (query_lower : string) : pyval :=
  if any_in price_terms query_lower then intent "price" ["total_amount"]
  else if any_in invoice_number_terms query_lower then intent "invoice_number" []
  else if any_in date_terms query_lower then intent "date" ["date"]
  else if any_in product_terms query_lower then intent "product_details" ["line_items"]
  else default_intent.

Definition analyze_query_intent (completion : result string) (query : string)
  : result pyval :=
  try_except
    (let query_lower := lower query in
     try_except
       (bind completion (fun content => json_loads content))
       (fun e => Ok (rule_based_fallback query_lower)))
    (fun e => Ok (intent "general" ["total_amount"; "date"; "line_items"])).

End Model.

(** ** Semantic search: compiling the search specification *)

Record attribute_condition : Type :=
  { entity : string; attribute : string; condition : string; value : string }.
Record traversal : Type :=
  { from_type : string; to_type : string; rel_type : string }.
(** [search_params]; a missing key reads as the empty list.  [value] is the
    text the f-string renders for the model-supplied value. *)
Record search_params : Type :=
  { entity_types : list string;
    search_attributes : list attribute_condition;
    search_relationships : list traversal }.

(** One iteration of the loop of lines 345-358. *)
Definition add_condition (where_conditions : list string) (attr : attribute_condition)
  : list string :=
  let entity_var := entity attr in
  let attribute_name := attribute attr in
  if condition attr =? "equals" then
    where_conditions ++ [(entity_var ++ "." ++ attribute_name ++ " = '" ++ value attr ++ "'")%string]
  else if condition attr =? "contains" then
    where_conditions ++ [(entity_var ++ "." ++ attribute_name ++ " CONTAINS '" ++ value attr ++ "'")%string]
  else if condition attr =? "greater_than" then
    where_conditions ++ [(entity_var ++ "." ++ attribute_name ++ " > " ++ value attr)%string]
  else if condition attr =? "less_than" then
    where_conditions ++ [(entity_var ++ "." ++ attribute_name ++ " < " ++ value attr)%string]
  else where_conditions.

(** Lines 332-377: the parts of the query, in the order they are appended.
    [document_type] is [None] or the filter; an empty filter is falsy. *)
Definition cypher_parts (search : search_params) (document_type : option string)
  : list string :=
  let cypher_parts := ["MATCH (d:Document)"] in
  let cypher_parts :=
    match document_type with
    | Some t => if t =? "" then cypher_parts
                else cypher_parts ++ [("WHERE d.type = '" ++ t ++ "'")%string]
    | None => cypher_parts
    end in
  let cypher_parts :=
    fold_left (fun parts '(i, entity_type) =>
                 let var_name := ("e" ++ str_nat i)%string in
                 parts ++ [("MATCH (d)-[:CONTAINS]->(" ++ var_name ++ ":" ++ entity_type ++ ")")%string])
              (enumerate (entity_types search)) cypher_parts in
  let where_conditions := fold_left add_condition (search_attributes search) [] in
  let cypher_parts :=
    match where_conditions with
    | [] => cypher_parts
    | _ => cypher_parts ++ [("WHERE " ++ join " AND " where_conditions)%string]
    end in
  let cypher_parts :=
    fold_left (fun parts rel =>
                 let rel_type := replace " " "_" (upper (rel_type rel)) in
                 parts ++ [("MATCH (" ++ from_type rel ++ ")-[:" ++ rel_type ++ "]->("
                             ++ to_type rel ++ ")")%string])
              (search_relationships search) cypher_parts in
  let return_vars := ["d.id as document_id"; "d.type as document_type"] in
  let return_vars :=
    fold_left (fun vars '(i, entity_type) =>
                 let var_name := ("e" ++ str_nat i)%string in
                 vars ++ [(var_name ++ " as " ++ entity_type)%string])
              (enumerate (entity_types search)) return_vars in
  cypher_parts ++ [("RETURN " ++ join ", " return_vars)%string].

(** Line 380: [" ".join(cypher_parts)] *)
Definition cypher_query (search : search_params) (document_type : option string)
  : string :=
  join " " (cypher_parts search document_type).

(** ** Ingestion: process_document *)

Definition session_try {A} (body : session A) (handler : exn -> session A)
  : session A :=
  match body with
  | (log, Ok a) => (log, Ok a)
  | (log, Raise e) => let (log', r) := handler e in (log ++ log', r)
  end.

(** What a [for] loop iterates over: the elements of a list, the keys of a
    dict, the characters of a string. *)
Fixpoint characters (s : string) : list pyval :=
  match s with
  | EmptyString => []
  | String c r => PStr (String c EmptyString) :: characters r
  end.

Definition iterate (v : pyval) : result (list pyval) :=
  match v with
  | PList l => Ok l
  | PDict d => Ok (map (fun kv => PStr (fst kv)) d)
  | PStr s => Ok (characters s)
  | _ => Raise (TypeError "object is not iterable")
  end.

Definition str_int (z : Z) : string := NilZero.string_of_int (Z.to_int z).

Section Ingestion.

Variable json_loads : string -> result pyval.
(** The text an f-string renders for a float, a list or a dict. *)
Variable repr : pyval -> string.
(** PyMuPDF: the concatenated page texts of the PDF at a path. *)
Variable fitz_text : string -> result string.
(** [s3_client]: [None] when the credentials are not configured, else
    [open(path, 'rb')] followed by [upload_fileobj] under a key. *)
Variable s3_client : option (string -> string -> result unit).

(** [f"{v}"] *)
Definition format_value (v : pyval) : string :=
  match v with
  | PStr s => s
  | PInt z => str_int z
  | PBool true => "True"
  | PBool false => "False"
  | PNone => "None"
  | _ => repr v
  end.

Definition preprocess_document (input_data input_type : string) : result string :=
  if input_type =? "text" then Ok input_data
  else if input_type =? "pdf" then
    try_except (fitz_text input_data) (fun e => Ok "")
  else Ok "".

(** Step 3 of [process_document] (lines 461-510): the graph writes. *)
Definition create_invoice_graph (document_id : string) (graph_structure : pyval)
  : session unit :=
  doc_props <- lift (bind (subscript graph_structure "document_node")
                          (fun node => subscript node "properties")) ;;
  doc_type <- lift (bind (subscript graph_structure "document_node")
                         (fun node => subscript node "type")) ;;
  run (Query "CREATE (d:Invoice $properties) SET d.id = $document_id"
             [("properties", doc_props); ("document_id", PStr document_id)]) ;;;
  entities <- lift (bind (subscript graph_structure "entities") iterate) ;;
  for_each (enumerate entities) (fun '(idx, entity) =>
    sanitized_label <- lift (bind (subscript entity "label") (fun label =>
      match label with
      | PStr s => Ok (sanitize s)
      | _ => Raise (TypeError "expected string or bytes-like object")
      end)) ;;
    properties <- lift (subscript entity "properties") ;;
    run (Query ("MATCH (d:Invoice {id: $document_id}) CREATE (e:"
                  ++ sanitized_label
                  ++ " $properties) CREATE (d)-[:CONTAINS]->(e) SET e.node_id = $node_id")
               [("document_id", PStr document_id);
                ("properties", properties);
                ("node_id", PStr ("node_" ++ str_nat idx))])) ;;;
  relationships <- lift (match graph_structure with
                         | PDict d => iterate (get d "relationships" (PList []))
                         | _ => Raise (AttributeError "object has no attribute 'get'")
                         end) ;;
  for_each relationships (fun rel =>
    from_node <- lift (subscript rel "from_node") ;;
    to_node <- lift (subscript rel "to_node") ;;
    rel_type <- lift (bind (subscript rel "type") (fun t =>
      match t with
      | PStr s => Ok (sanitize (upper s))
      | _ => Raise (AttributeError "object has no attribute 'upper'")
      end)) ;;
    let from_id := ("node_" ++ format_value from_node)%string in
    let to_id := ("node_" ++ format_value to_node)%string in
    let properties := match rel with
                      | PDict d => get d "properties" (PDict [])
                      | _ => PDict []
                      end in
    run (Query ("MATCH (d:Invoice {id: $document_id}) "
                  ++ "MATCH (source {node_id: $from_id})<-[:CONTAINS]-(d) "
                  ++ "MATCH (target {node_id: $to_id})<-[:CONTAINS]-(d) "
                  ++ "CREATE (source)-[r:" ++ rel_type ++ "]->(target) SET r = $properties")
               [("document_id", PStr document_id);
                ("from_id", PStr from_id);
                ("to_id", PStr to_id);
                ("properties", properties)])).

(** [process_document].  [file_uuid] and [document_uuid] are the two
    [uuid.uuid4()] draws and [completion] is how the chat-completion call
    ended. *)
Definition process_document (input_data input_type : string)
    (file_uuid document_uuid : string) (completion : result string)
  : session pyval :=
  session_try
    (s3_key <- lift (match s3_client with
                     | Some upload =>
                         if input_type =? "pdf" then
                           let file_name := ("documents/" ++ file_uuid ++ ".pdf")%string in
                           bind (upload input_data file_name)
                                (fun _ => Ok (PStr file_name))
                         else Ok PNone
                     | None => Ok PNone
                     end) ;;
     text <- lift (preprocess_document input_data input_type) ;;
     if text =? "" then
       ret (PDict [("error", PStr "Failed to extract text from PDF")])
     else
       graph_structure <- lift (bind completion (fun content => json_loads content)) ;;
       let document_id := document_uuid in
       create_invoice_graph document_id graph_structure ;;;
       ret (PDict [("document_id", PStr document_id);
                   ("s3_key", s3_key);
                   ("graph_structure", graph_structure)]))
    (fun e => ret (PDict [("error", PStr (str_exn e))])).

(** [DocumentExtractorAPI.process_input] *)
Definition process_input (input_data input_type : string)
    (file_uuid document_uuid : string) (completion : result string)
  : session pyval :=
  process_document input_data input_type file_uuid document_uuid completion.

End Ingestion.

(** ** DocumentExtractorAPI.search *)

Section Store.

(** The graph store: a state and what reading it with a query returns,
    [[dict(record) for record in session.run(q)]]. *)
Variable store : Type.
Variable execute : store -> graph_query -> result (list pydict).

Definition search_cypher : string :=
  "MATCH (i:Invoice)-[:CONTAINS]->(item) WHERE i.invoice_number IS NOT NULL "
  ++ "RETURN i.id as document_id, i.invoice_number as invoice_number, "
  ++ "i.date as date, i.total_amount as total_amount, "
  ++ "collect(properties(item)) as line_items".

(** The query [search] hands to [session.run]. *)
Definition search_issues (query : string) (document_type : option string) : graph_query :=
  Query search_cypher [].

Definition search (graph : store) (query : string) (document_type : option string)
  : result (list pydict) :=
  execute graph (search_issues query document_type).

End Store.

(** ** Structured extraction *)

(** [sep.join(v)]: every element must be a string. *)
Definition py_join (sep : string) (v : pyval) : result string :=
  bind (iterate v) (fun items =>
  bind (map_result (fun item => match item with
                                | PStr t => Ok t
                                | _ => Raise (TypeError "sequence item: expected str instance")
                                end) items)
       (fun texts => Ok (join sep texts))).

Section Extraction.

Variable json_loads : string -> result pyval.
Variable repr : pyval -> string.

(** One line of [entities_description] (line 146). *)
Definition entity_description (entity : pyval) : result string :=
  bind (subscript entity "name") (fun entity_name =>
  bind (subscript entity "type") (fun entity_type =>
  bind (bind (subscript entity "attributes") (py_join ", ")) (fun attributes =>
  Ok ("- " ++ format_value repr entity_name ++ ": " ++ format_value repr entity_type
        ++ " with attributes " ++ attributes)%string))).

(** Lines 145-166: the prompt, which is built before the [try]. *)
#[warnings="-abstract-large-number"] Definition extraction_prompt (text : string) (document_schema : pydict)
  : result string :=
  bind (bind (iterate (get document_schema "entities" (PList [])))
             (map_result entity_description)) (fun descriptions =>
  let entities_description := join (String "010" "") descriptions in
  bind (py_join ", " (get document_schema "primary_identifiers" (PList [])))
       (fun identifiers =>
  Ok ("Given the following document text and schema, extract all relevant "
        ++ "information according to the schema structure. Document Type: "
        ++ format_value repr (get document_schema "document_type" (PStr "unknown"))
        ++ " Primary Identifiers: " ++ identifiers
        ++ " Entities to Extract: " ++ entities_description
        ++ " Document Text: " ++ take 6000 text ++ " # Limit text length for API "
        ++ "Extract all information matching the schema above and provide a complete "
        ++ "JSON output with all identified entities, their attributes, and values. "
        ++ "Use null for missing values. Convert all monetary values to numbers, "
        ++ "dates to ISO format, and ensure consistent formatting. For lists of "
        ++ "items, extract all items found in the document.")%string)).

(** [extract_structured_information]: [completion] is how the
    chat-completion call on the prompt ended. *)
Definition extract_structured_information (text : string)
    (document_schema : pydict) (completion : result string) : result pyval :=
  bind (extraction_prompt text document_schema) (fun prompt =>
  try_except
    (bind (bind completion (fun content => json_loads content)) (fun extracted_data =>
     assign extracted_data "document_type"
            (get document_schema "document_type" (PStr "unknown"))))
    (fun e => Ok (PDict [("document_type",
                          get document_schema "document_type" (PStr "unknown"));
                         ("error", PStr (str_exn e))]))).

End Extraction.

(** ** Semantic search, on the model's answer as it comes *)

Definition empty_search_params : pyval :=
  PDict [("entity_types", PList []); ("attributes", PList []);
         ("relationships", PList [])].

Section SemanticSearch.

Variable json_loads : string -> result pyval.
Variable repr : pyval -> string.
Variable store : Type.
Variable execute : store -> graph_query -> result (list pydict).

(** One iteration of the loop of lines 345-358, on a model-supplied [attr]. *)
Definition add_attribute_condition (where_conditions : list string) (attr : pyval)
  : result (list string) :=
  bind (subscript attr "entity") (fun entity_var =>
  bind (subscript attr "attribute") (fun attribute_name =>
  bind (subscript attr "condition") (fun condition =>
  bind (subscript attr "value") (fun value =>
  let lhs := (format_value repr entity_var ++ "."
                ++ format_value repr attribute_name)%string in
  Ok (if is_str condition "equals" then
        where_conditions ++ [(lhs ++ " = '" ++ format_value repr value ++ "'")%string]
      else if is_str condition "contains" then
        where_conditions ++ [(lhs ++ " CONTAINS '" ++ format_value repr value ++ "'")%string]
      else if is_str condition "greater_than" then
        where_conditions ++ [(lhs ++ " > " ++ format_value repr value)%string]
      else if is_str condition "less_than" then
        where_conditions ++ [(lhs ++ " < " ++ format_value repr value)%string]
      else where_conditions))))).

(** One iteration of the loop of lines 364-369. *)
Definition add_traversal (cypher_parts : list string) (rel : pyval)
  : result (list string) :=
  bind (subscript rel "from") (fun from_type =>
  bind (subscript rel "to") (fun to_type =>
  bind (bind (subscript rel "type") (fun t =>
          match t with
          | PStr s => Ok (replace " " "_" (upper s))
          | _ => Raise (AttributeError "object has no attribute 'upper'")
          end)) (fun rel_type =>
  Ok (cypher_parts
        ++ [("MATCH (" ++ format_value repr from_type ++ ")-[:" ++ rel_type ++ "]->("
               ++ format_value repr to_type ++ ")")%string])))).

(** Lines 332-380 on [search_params] as [json.loads] returned it. *)
Definition semantic_search_cypher (search_params : pyval)
    (document_type : option string) : result string :=
  let cypher_parts := ["MATCH (d:Document)"] in
  let cypher_parts :=
    match document_type with
    | Some t => if t =? "" then cypher_parts
                else cypher_parts ++ [("WHERE d.type = '" ++ t ++ "'")%string]
    | None => cypher_parts
    end in
  bind (bind (dict_get search_params "entity_types" (PList [])) iterate)
       (fun entity_types =>
  let cypher_parts :=
    fold_left (fun parts '(i, entity_type) =>
                 let var_name := ("e" ++ str_nat i)%string in
                 parts ++ [("MATCH (d)-[:CONTAINS]->(" ++ var_name ++ ":"
                              ++ format_value repr entity_type ++ ")")%string])
              (enumerate entity_types) cypher_parts in
  bind (bind (dict_get search_params "attributes" (PList [])) iterate)
       (fun attributes =>
  bind (fold_result add_attribute_condition attributes []) (fun where_conditions =>
  let cypher_parts :=
    match where_conditions with
    | [] => cypher_parts
    | _ => cypher_parts ++ [("WHERE " ++ join " AND " where_conditions)%string]
    end in
  bind (bind (dict_get search_params "relationships" (PList [])) iterate)
       (fun relationships =>
  bind (fold_result add_traversal relationships cypher_parts) (fun cypher_parts =>
  let return_vars := ["d.id as document_id"; "d.type as document_type"] in
  bind (bind (dict_get search_params "entity_types" (PList [])) iterate)
       (fun entity_types =>
  let return_vars :=
    fold_left (fun vars '(i, entity_type) =>
                 let var_name := ("e" ++ str_nat i)%string in
                 vars ++ [(var_name ++ " as " ++ format_value repr entity_type)%string])
              (enumerate entity_types) return_vars in
  let cypher_parts := cypher_parts ++ [("RETURN " ++ join ", " return_vars)%string] in
  Ok (join " " cypher_parts))))))).

(** [semantic_search_graph]: [completion] is how the chat-completion call
    ended; a failure of the call or of [json.loads] gives the empty
    specification (lines 317-330). *)
Definition semantic_search_graph (graph : store) (completion : result string)
    (query : string) (document_type : option string) : result (list pydict) :=
  let search_params :=
    match bind completion (fun content => json_loads content) with
    | Ok v => v
    | Raise e => empty_search_params
    end in
  bind (semantic_search_cypher search_params document_type) (fun cypher_query =>
  execute graph (Query cypher_query [])).

(** ** get_document *)

(** [session.run(q).single()]: the one record, or [None] when there is none. *)
Variable single : store -> graph_query -> result (option pydict).

Definition get_document_query (document_id : string) : graph_query :=
  Query ("MATCH (d:Invoice {id: $document_id}) "
           ++ "OPTIONAL MATCH (d)-[:CONTAINS]->(item) "
           ++ "RETURN d.id as document_id, d.invoice_number as invoice_number, "
           ++ "d.date as date, d.total_amount as total_amount, d.s3_key as s3_key, "
           ++ "collect(properties(item)) as line_items")
        [("document_id", PStr document_id)].

(** [DynamicDocumentExtractor.get_document], which
    [DocumentExtractorAPI.get_document] calls. *)
Definition get_document (graph : store) (document_id : string) : result pydict :=
  bind (single graph (get_document_query document_id)) (fun record =>
  match record with
  | None => Ok [("error", PStr ("Document " ++ document_id ++ " not found"))]
  | Some r => Ok r
  end).

End SemanticSearch.

End KagService.

(* ===================================================================== *)
(** * The dynamic materializer, on the schema as [json.loads] returns it *)
(* ===================================================================== *)

Module Materializer.
Import Py KagService.

Section Session.

(** The state of the graph store, and [session.run] on it: the state the
    statement leaves, or the exception the driver raises. *)
Variable graph : Type.
Variable write : graph -> graph_query -> result graph.
(** Python's [float(s)]. *)
Variable float : string -> result pyfloat.

(** Code inside [with neo4j_driver.session() as session]: from the state of
    the store, the state it leaves, the statements sent (oldest first) and
    how the code ended. *)
Definition transaction (A : Type) : Type :=
  graph -> graph * list graph_query * result A.

Definition ret {A} (a : A) : transaction A := fun g => (g, [], Ok a).
Definition lift {A} (r : result A) : transaction A := fun g => (g, [], r).

(** [session.run(cypher, **params)]: nothing around it catches what it
    raises, and a statement that raises leaves the store as it was.  The
    texts are the source's with runs of white space written as one space. *)
Definition run (q : graph_query) : transaction unit :=
  fun g =>
    match write g q with
    | Ok g' => (g', [q], Ok tt)
    | Raise e => (g, [q], Raise e)
    end.

Definition tbind {A B} (m : transaction A) (k : A -> transaction B)
  : transaction B :=
  fun g =>
    match m g with
    | (g1, log, Ok a) => let '(g2, log', r) := k a g1 in (g2, log ++ log', r)
    | (g1, log, Raise e) => (g1, log, Raise e)
    end.

(** [for x in xs: body(x)] *)
Fixpoint for_each {X} (xs : list X) (body : X -> transaction unit)
  : transaction unit :=
  match xs with
  | [] => ret tt
  | x :: r => tbind (body x) (fun _ => for_each r body)
  end.

(** Lines 271-286. *)
Definition _create_entity_node (document_id : string)
    (entity_type entity_data : pyval) (node_id : string) : transaction unit :=
  tbind (lift (match entity_data with
               | PDict d => Ok (setitem (normalized float d) "node_id" (PStr node_id))
               | _ => Raise (AttributeError "object has no attribute 'items'")
               end)) (fun normalized_data =>
  tbind (lift (match entity_type with
               | PStr s => Ok (sanitize s)
               | _ => Raise (TypeError "expected string or bytes-like object")
               end)) (fun sanitized_type =>
  run (Query ("MATCH (d:Document {id: $document_id}) CREATE (e:"
                ++ sanitized_type
                ++ " $properties) CREATE (d)-[:CONTAINS]->(e)")
             [("document_id", PStr document_id);
              ("properties", PDict normalized_data)]))).

(** Lines 288-296. *)
Definition _create_relationship (document_id source_id target_id
    relationship_type : string) : transaction unit :=
  run (Query ("MATCH (d:Document {id: $document_id}) "
                ++ "MATCH (source {node_id: $source_id})<-[:CONTAINS]-(d) "
                ++ "MATCH (target {node_id: $target_id})<-[:CONTAINS]-(d) "
                ++ "CREATE (source)-[:" ++ relationship_type ++ "]->(target)")
             [("document_id", PStr document_id);
              ("source_id", PStr source_id);
              ("target_id", PStr target_id)]).

(** Body of the first loop (lines 213-227), for one element of the schema's
    [entities].  [name in extracted_data] holds of a text that is a key;
    a list or a dict is not hashable, and nothing else is a key of a JSON
    object. *)
Definition create_entity_nodes (document_id : string) (extracted_data : pydict)
    (entity_schema : pyval) : transaction unit :=
  tbind (lift (subscript entity_schema "name")) (fun entity_name =>
  tbind (lift (subscript entity_schema "type")) (fun entity_type =>
  match entity_name with
  | PStr name =>
      match lookup extracted_data name with
      | Some (PList items) =>
          for_each (enumerate items) (fun '(i, item) =>
            _create_entity_node document_id entity_type item
                                (name ++ "_" ++ str_nat i))
      | Some entity_data =>
          _create_entity_node document_id entity_type entity_data name
      | None => ret tt
      end
  | PList _ | PDict _ => lift (Raise (TypeError "unhashable type"))
  | _ => ret tt
  end)).

(** Body of the second loop (lines 232-269), for one element of an entity's
    [relationships]: the three reads come before the presence test. *)
Definition create_relationships (document_id : string) (extracted_data : pydict)
    (entity_schema relationship : pyval) : transaction unit :=
  tbind (lift (subscript entity_schema "name")) (fun source_entity =>
  tbind (lift (subscript relationship "related_to")) (fun target_entity =>
  tbind (lift (bind (subscript relationship "relationship_type") (fun t =>
                 match t with
                 | PStr s => Ok (replace " " "_" (upper s))
                 | _ => Raise (AttributeError "object has no attribute 'upper'")
                 end))) (fun relationship_type =>
  match source_entity with
  | PStr source =>
      match lookup extracted_data source with
      | Some source_data =>
          match target_entity with
          | PStr target =>
              match lookup extracted_data target with
              | Some target_data =>
                  match source_data, target_data with
                  | PList sources, PList targets =>
                      for_each (range (length sources)) (fun i =>
                        for_each (range (length targets)) (fun j =>
                          _create_relationship document_id
                            (source ++ "_" ++ str_nat i)
                            (target ++ "_" ++ str_nat j) relationship_type))
                  | PList sources, _ =>
                      for_each (range (length sources)) (fun i =>
                        _create_relationship document_id
                          (source ++ "_" ++ str_nat i) target relationship_type)
                  | _, PList targets =>
                      for_each (range (length targets)) (fun j =>
                        _create_relationship document_id
                          source (target ++ "_" ++ str_nat j) relationship_type)
                  | _, _ =>
                      _create_relationship document_id source target
                                           relationship_type
                  end
              | None => ret tt
              end
          | PList _ | PDict _ => lift (Raise (TypeError "unhashable type"))
          | _ => ret tt
          end
      | None => ret tt
      end
  | PList _ | PDict _ => lift (Raise (TypeError "unhashable type"))
  | _ => ret tt
  end))).

(** Lines 200-269. *)
Definition create_dynamic_knowledge_graph (document_id : string)
    (extracted_data : pydict) (document_schema : pyval) : transaction unit :=
  tbind (run (Query "CREATE (d:Document {id: $document_id, type: $document_type})"
                    [("document_id", PStr document_id);
                     ("document_type",
                      get extracted_data "document_type" (PStr "unknown"))]))
        (fun _ =>
  tbind (lift (bind (dict_get document_schema "entities" (PList [])) iterate))
        (fun entities =>
  tbind (for_each entities (create_entity_nodes document_id extracted_data))
        (fun _ =>
  tbind (lift (bind (dict_get document_schema "entities" (PList [])) iterate))
        (fun entities =>
  for_each entities (fun entity_schema =>
    tbind (lift (bind (dict_get entity_schema "relationships" (PList [])) iterate))
          (fun relationships =>
    for_each relationships
             (create_relationships document_id extracted_data entity_schema))))))).

End Session.

Arguments ret {graph A} a.
Arguments lift {graph A} r.
Arguments tbind {graph A B} m k.
Arguments for_each {graph X} xs body.

End Materializer.

(* ===================================================================== *)
(** * app/api/routes/kag_routes.py *)
(* ===================================================================== *)

Module KagRoutes.
Import Py.

(** [KagQueryRequest] *)
Record KagQueryRequest : Type :=
  { query : string;
    document_type : option string;
    limit : option Z;
    format_as_text : option bool }.

Section Routes.

Variable store : Type.
Variable execute : store -> KagService.graph_query -> result (list pydict).

(** Lines 107-110 of [query_kag] and 164-167 of [simplified_query_kag]. *)
Definition query_kag_results (graph : store) (request : KagQueryRequest)
  : result (list pydict) :=
  KagService.search store execute graph (query request) (document_type request).

End Routes.

(** [result.get("invoice_number", "")] *)
Definition invoice_number_of (result : pydict) : pyval :=
  get result "invoice_number" (PStr "").

(** The loop of lines 230-234 of [generate_text_response]: [seen] is
    [seen_invoice_numbers], a set, held as the list of its elements. *)
Fixpoint deduplicate (results : list pydict) (seen_invoice_numbers : list pyval)
    (unique_results : list pydict) : result (list pydict) :=
  match results with
  | [] => Ok unique_results
  | result :: rest =>
      let invoice_number := invoice_number_of result in
      if hashable invoice_number then
        if negb (existsb (py_eqb invoice_number) seen_invoice_numbers) then
          deduplicate rest (invoice_number :: seen_invoice_numbers)
                      (unique_results ++ [result])
        else deduplicate rest seen_invoice_numbers unique_results
      else Raise (TypeError "unhashable type")
  end.

(** Lines 226-234. *)
Definition unique_results (results : list pydict) : result (list pydict) :=
  deduplicate results [] [].

(** ** What a route answers *)

(** The value a route returns, or the [HTTPException] it raises. *)
Inductive response (A : Type) : Type :=
| Respond (a : A)
| HTTPException (status_code : nat) (detail : string).
Arguments Respond {A} a.
Arguments HTTPException {A} status_code detail.

(** [try: body except Exception as e: raise HTTPException(500, prefix + str(e))] *)
Definition or_500 {A} (prefix : string) (body : result A) : response A :=
  match body with
  | Ok a => Respond a
  | Raise e => HTTPException 500 (prefix ++ str_exn e)
  end.

Section Endpoints.

Variable json_loads : string -> result pyval.
Variable repr : pyval -> string.
Variable store : Type.
Variable execute : store -> KagService.graph_query -> result (list pydict).
Variable single : store -> KagService.graph_query -> result (option pydict).
(** [str(e)] of Starlette's [HTTPException]. *)
Variable str_http_exception : nat -> string -> string.

Definition fmt (v : pyval) : string := KagService.format_value repr v.

(** *** upload_kag_pdf *)

(** Lines 47-69: the answer built from the dict [process_input] returned;
    the [HTTPException] of line 50 is raised inside the outer [try], whose
    handler (lines 76-82) wraps it again. *)
Definition upload_response (result : pydict) : response pyval :=
  if has_key result "error" then
    HTTPException 500
      ("Error processing PDF: "
         ++ str_http_exception 500
              ("Error processing PDF: " ++ fmt (get result "error" PNone)))
  else
    or_500 "Error processing PDF: "
      (let graph_structure := get result "graph_structure" (PDict []) in
       bind (dict_get graph_structure "entities" (PList [])) (fun entities =>
       bind (dict_get graph_structure "relationships" (PList [])) (fun relationships =>
       bind (getitem result "document_id") (fun document_id =>
       bind (py_len entities) (fun entities_count =>
       bind (py_len relationships) (fun relationships_count =>
       Ok (PDict [("document_id", document_id);
                  ("status", PStr "success");
                  ("message", PStr "Document processed successfully");
                  ("entities_count", PInt (Z.of_nat entities_count));
                  ("relationships_count", PInt (Z.of_nat relationships_count));
                  ("graph_summary", graph_structure)]))))))).

(** [upload_kag_pdf], and [upload_kag_document] which forwards to it:
    [saved] is how writing the upload to the temporary file ended, its path
    or the exception; removing the file afterwards is not modelled.
    [process_input] returns a dict, so the branch of another value is never
    taken. *)
Definition upload_kag_pdf (fitz_text : string -> Py.result string)
    (s3_client : option (string -> string -> Py.result unit))
    (saved : Py.result string) (file_uuid document_uuid : string)
    (completion : Py.result string) : KagService.session (response pyval) :=
  match saved with
  | Raise e => KagService.ret (HTTPException 500 ("Error processing PDF: " ++ str_exn e))
  | Ok temp_file_path =>
      let ingestion :=
        KagService.process_input json_loads repr fitz_text s3_client
          temp_file_path "pdf" file_uuid document_uuid completion in
      (KagService.issued ingestion,
       match KagService.outcome ingestion with
       | Ok (PDict result) => Ok (upload_response result)
       | Ok _ => Ok (HTTPException 500 "Error processing PDF: not a dict")
       | Raise e => Ok (HTTPException 500 ("Error processing PDF: " ++ str_exn e))
       end)
  end.

(** *** simplified_query_kag *)

(** One iteration of the loop of lines 184-190. *)
Definition add_field (result : pydict) (result_item : pydict) (field : pyval)
  : pydict :=
  if is_str field "total_amount" && has_key result "total_amount" then
    setitem result_item "total_amount" (get result "total_amount" (PStr ""))
  else if is_str field "date" && has_key result "date" then
    setitem result_item "date" (get result "date" (PStr ""))
  else if is_str field "line_items" && has_key result "line_items" then
    setitem result_item "line_items" (get result "line_items" (PList []))
  else result_item.

(** Lines 181-190: the item kept of one search result. *)
Definition project (query_intent : pyval) (result : pydict) : Py.result pydict :=
  let result_item := [("invoice_number", get result "invoice_number" (PStr ""))] in
  bind (bind (subscript query_intent "fields") KagService.iterate) (fun fields =>
  Ok (fold_left (add_field result) fields result_item)).

(** The dict of lines 173-177, once the loop has filled its results. *)
Record simplified_response : Type :=
  { query_text : string;
    query_type : pyval;
    results : list pydict }.

(** Lines 172-192. *)
Definition simplify (request : KagQueryRequest) (query_intent : pyval)
    (found : list pydict) : Py.result simplified_response :=
  bind (subscript query_intent "type") (fun type =>
  bind (map_result (project query_intent) found) (fun items =>
  Ok {| query_text := query request; query_type := type; results := items |})).

(** *** generate_text_response *)

(** Lines 272-284: the line of one item. *)
Definition item_text (item : pyval) : Py.result string :=
  bind (dict_get item "description" (PStr "Unknown item")) (fun desc =>
  bind (dict_get item "quantity" (PStr "")) (fun qty =>
  bind (dict_get item "unit_price" (PStr "")) (fun price =>
  bind (dict_get item "total" (PStr "")) (fun total =>
  let item_text := ("- " ++ fmt desc)%string in
  let item_text :=
    if truthy qty && truthy price
    then (item_text ++ " (" ++ fmt qty ++ " x " ++ fmt price ++ ")")%string
    else item_text in
  let item_text :=
    if truthy total then (item_text ++ ", Total: " ++ fmt total)%string
    else item_text in
  Ok item_text)))).

Definition newline : string := String "010" "".

(** Lines 236-309: the sentence for the deduplicated results. *)
Definition render (query_type : pyval) (unique_results : list pydict)
  : Py.result string :=
  if is_str query_type "invoice_number" then
    match unique_results with
    | [only] =>
        bind (getitem only "invoice_number") (fun n =>
        Ok ("The invoice number is " ++ fmt n ++ ".")%string)
    | _ =>
        bind (map_result (fun r => getitem r "invoice_number") unique_results)
             (fun numbers =>
        bind (KagService.py_join ", " (PList numbers)) (fun invoice_numbers =>
        Ok ("I found the following invoice numbers: " ++ invoice_numbers ++ ".")%string))
    end
  else if is_str query_type "price" then
    match unique_results with
    | [result] =>
        bind (getitem result "invoice_number") (fun n =>
        Ok ("Invoice " ++ fmt n ++ " has a total amount of "
              ++ fmt (get result "total_amount" (PStr "unknown")) ++ ".")%string)
    | _ =>
        bind (map_result (fun result =>
                bind (getitem result "invoice_number") (fun n =>
                Ok ("Invoice " ++ fmt n ++ ": "
                      ++ fmt (get result "total_amount" (PStr "unknown")))%string))
                unique_results) (fun price_info =>
        Ok ("Here are the invoice amounts:" ++ newline ++ join newline price_info)%string)
    end
  else if is_str query_type "date" then
    match unique_results with
    | [result] =>
        bind (getitem result "invoice_number") (fun n =>
        Ok ("Invoice " ++ fmt n ++ " was issued on "
              ++ fmt (get result "date" (PStr "unknown date")) ++ ".")%string)
    | _ =>
        bind (map_result (fun result =>
                bind (getitem result "invoice_number") (fun n =>
                Ok ("Invoice " ++ fmt n ++ ": "
                      ++ fmt (get result "date" (PStr "unknown date")))%string))
                unique_results) (fun date_info =>
        Ok ("Here are the invoice dates:" ++ newline ++ join newline date_info)%string)
    end
  else if is_str query_type "product_details" then
    match unique_results with
    | [result] =>
        let line_items := get result "line_items" (PList []) in
        if negb (truthy line_items) then
          bind (getitem result "invoice_number") (fun n =>
          Ok ("Invoice " ++ fmt n ++ " doesn't have any line items.")%string)
        else
          bind (bind (KagService.iterate line_items) (map_result item_text))
               (fun items_text =>
          bind (getitem result "invoice_number") (fun n =>
          Ok ("Invoice " ++ fmt n ++ " contains the following items:" ++ newline
                ++ join newline items_text)%string))
    | _ =>
        Ok ("I found " ++ str_nat (length unique_results)
              ++ " invoices. Please specify which invoice you're interested in.")%string
    end
  else
    match unique_results with
    | [result] =>
        bind (getitem result "invoice_number") (fun n =>
        let response := ("Invoice " ++ fmt n)%string in
        let response :=
          if has_key result "date" && truthy (get result "date" PNone)
          then (response ++ " was issued on " ++ fmt (get result "date" PNone))%string
          else response in
        let response :=
          if has_key result "total_amount" && truthy (get result "total_amount" PNone)
          then (response ++ " with a total amount of "
                  ++ fmt (get result "total_amount" PNone))%string
          else response in
        let response := (response ++ ".")%string in
        let line_items := get result "line_items" (PList []) in
        if truthy line_items then
          bind (py_len line_items) (fun n_items =>
          Ok (response ++ " It contains " ++ str_nat n_items ++ " item(s).")%string)
        else Ok response)
    | _ =>
        Ok ("I found " ++ str_nat (length unique_results)
              ++ " invoices. Please specify which invoice you're interested in "
              ++ "or ask for specific information.")%string
    end.

(** [generate_text_response] on the dict [simplified_query_kag] built. *)
Definition generate_text_response (response_data : simplified_response)
  : Py.result string :=
  match results response_data with
  | [] => Ok "I couldn't find any information matching your query."
  | _ =>
      bind (unique_results (results response_data)) (fun unique =>
      render (query_type response_data) unique)
  end.

(** What [simplified_query_kag] returns: the dict, or the text. *)
Inductive simplified_answer : Type :=
| Structured (r : simplified_response)
| PlainText (content : string).

(** [simplified_query_kag]: [intent_completion] is how the chat-completion
    call of [analyze_query_intent] ended. *)
Definition simplified_query_kag (graph : store) (intent_completion : Py.result string)
    (request : KagQueryRequest) : response simplified_answer :=
  or_500 "Error processing simplified query: "
    (bind (KagService.search store execute graph (query request)
                             (document_type request)) (fun found =>
     bind (KagService.analyze_query_intent json_loads intent_completion
                                           (query request)) (fun query_intent =>
     bind (simplify request query_intent found) (fun simplified =>
     match format_as_text request with
     | Some true =>
         bind (generate_text_response simplified) (fun text_response =>
         Ok (PlainText text_response))
     | _ => Ok (Structured simplified)
     end)))).

(** [text_query_kag] *)
Definition text_query_kag (graph : store) (intent_completion : Py.result string)
    (request : KagQueryRequest) : response simplified_answer :=
  simplified_query_kag graph intent_completion
    {| query := query request;
       document_type := document_type request;
       limit := limit request;
       format_as_text := Some true |}.

(** *** get_kag_document *)

(** Lines 345-354: the entities of the line items that are not empty. *)
Definition line_item_entities (line_items : list pyval) : Py.result (list pydict) :=
  fold_result (fun entities '(idx, item) =>
                 if truthy item then
                   bind (dict_get item "description"
                                  (PStr ("Item " ++ str_nat idx))) (fun name =>
                   Ok (entities ++ [[("id", PStr ("item_" ++ str_nat idx));
                                     ("type", PStr "LineItem");
                                     ("name", name);
                                     ("properties", item)]]))
                 else Ok entities)
              (KagService.enumerate line_items) [].

Definition get_kag_document (graph : store) (document_id : string)
  : response pyval :=
  match KagService.get_document store single graph document_id with
  | Raise e => HTTPException 500 ("Error retrieving document: " ++ str_exn e)
  | Ok document =>
      if has_key document "error" then
        HTTPException 404 ("Document not found: " ++ fmt (get document "error" PNone))
      else
        or_500 "Error retrieving document: "
          (let document_item :=
             PDict [("id", get document "document_id" (PStr ""));
                    ("title", PStr ("Invoice "
                                      ++ fmt (get document "invoice_number" (PStr ""))));
                    ("content", PStr ("Date: " ++ fmt (get document "date" (PStr ""))
                                        ++ ", Amount: "
                                        ++ fmt (get document "total_amount" (PStr ""))));
                    ("metadata",
                     PDict [("invoice_number", get document "invoice_number" (PStr ""));
                            ("date", get document "date" (PStr ""));
                            ("total_amount", get document "total_amount" (PStr ""));
                            ("s3_key", get document "s3_key" (PStr ""))])] in
           bind (bind (KagService.iterate (get document "line_items" (PList [])))
                      line_item_entities) (fun entities =>
           Ok (PDict [("document", document_item);
                      ("entities", PList (map PDict entities));
                      ("relationships", PList [])])))
  end.

End Endpoints.

End KagRoutes.

(* ===================================================================== *)
(** * Vocabulary of the specification *)
(* ===================================================================== *)

Import Py KagService.

(** The characters of a string, as a list. *)
Definition chars (s : string) : list ascii := list_ascii_of_string s.

(** The alphabet [[A-Za-z0-9_]], written out. *)
Definition identifier_alphabet : list ascii :=
  chars "abcdefghijklmnopqrstuvwxyzABCDEFGHIJKLMNOPQRSTUVWXYZ0123456789_".

(** A string made of identifier characters only. *)
Definition safe_identifier (s : string) : Prop :=
  Forall (fun c => In c identifier_alphabet) (chars s).

(** [t] occurs in [s]. *)
Definition Substring (t s : string) : Prop :=
  exists before after : string, s = (before ++ t ++ after)%string.

(** Some term of a vocabulary occurs in the query. *)
Definition mentions (terms : list string) (q : string) : Prop :=
  exists t, In t terms /\ Substring t q.

(** A stand-in for Python's [float] on the texts [normalize_value] hands it
    (digits with an optional fraction): the exact decimal value; the empty
    text is a [ValueError].  Rounding to binary64 is not modelled. *)
Fixpoint decimal_digits (acc : Z) (s : string) : option Z :=
  match s with
  | EmptyString => Some acc
  | String c r =>
      if is_digit c then decimal_digits (10 * acc + Z.of_nat (code c - 48))%Z r
      else None
  end.

Fixpoint split_at_dot (s : string) : string * option string :=
  match s with
  | EmptyString => (EmptyString, None)
  | String c r =>
      if Ascii.eqb c "." then (EmptyString, Some r)
      else let (whole, fraction) := split_at_dot r in (String c whole, fraction)
  end.

Definition decimal_float (s : string) : result pyfloat :=
  let (whole, fraction) := split_at_dot s in
  let digits := (whole ++ match fraction with Some f => f | None => "" end)%string in
  let scale := match fraction with Some f => String.length f | None => 0 end in
  if digits =? "" then Raise (ValueError "could not convert string to float")
  else match decimal_digits 0 digits with
       | Some n => Ok (FFinite (Qred (n # Pos.of_nat (10 ^ scale))%Q))
       | None => Raise (ValueError "could not convert string to float")
       end.

(** An extracted entity instance is an object; an entity value is one
    instance or a list of instances (section 4.3 of the specification). *)
Definition is_object (v : pyval) : bool :=
  match v with PDict _ => true | _ => false end.


(** *** Sample inputs *)

Definition has_item : relationship :=
  {| related_to := "line_items"; relationship_type := "has item" |}.

(** A relationship type with a character outside the identifier alphabet. *)
Definition has_dash_item : relationship :=
  {| related_to := "line_items"; relationship_type := "has-item" |}.

Definition invoice_entity (rel : relationship) : entity_schema :=
  {| name := "invoice"; type := "Invoice";
     attributes := ["invoice_number"]; relationships := [rel] |}.

Definition line_items_entity : entity_schema :=
  {| name := "line_items"; type := "Line Item";
     attributes := ["description"; "quantity"; "unit_price"; "total"];
     relationships := [] |}.

Definition invoice_schema (rel : relationship) : document_schema :=
  {| document_type := "invoice";
     entities := [invoice_entity rel; line_items_entity];
     primary_identifiers := ["invoice_number"] |}.

Definition invoice_data : pydict :=
  [("invoice", PDict [("invoice_number", PStr "INV-100")]);
   ("line_items",
    PList [PDict [("description", PStr "Widget"); ("quantity", PInt 2);
                  ("unit_price", PStr "$5.00"); ("total", PStr "$10.00")];
           PDict [("description", PStr "Gadget"); ("quantity", PInt 1);
                  ("unit_price", PStr "$1,250.50"); ("total", PNone)]]);
   ("document_type", PStr "invoice")].

(** *** The compiled search query, clause by clause *)

Inductive comparison : Type := Equals | Contains | GreaterThan | LessThan.

(** The condition enum of the search specification. *)
Definition comparison_of (condition : string) : option comparison :=
  if condition =? "equals" then Some Equals
  else if condition =? "contains" then Some Contains
  else if condition =? "greater_than" then Some GreaterThan
  else if condition =? "less_than" then Some LessThan
  else None.

Definition operator (c : comparison) : string :=
  match c with
  | Equals => "="
  | Contains => "CONTAINS"
  | GreaterThan => ">"
  | LessThan => "<"
  end.

(** The right-hand side: text comparisons quote the value. *)
Definition operand (c : comparison) (value : string) : string :=
  match c with
  | Equals | Contains => "'" ++ value ++ "'"
  | GreaterThan | LessThan => value
  end.

Definition attribute_comparison (attr : attribute_condition) : list string :=
  match comparison_of (condition attr) with
  | Some c => [(entity attr ++ "." ++ attribute attr ++ " " ++ operator c ++ " "
                  ++ operand c (value attr))%string]
  | None => []
  end.

(** [f 0 x0; f 1 x1; ...] counted from [i]. *)
Fixpoint map_indexed {X Y} (f : nat -> X -> Y) (i : nat) (xs : list X) : list Y :=
  match xs with
  | [] => []
  | x :: r => f i x :: map_indexed f (S i) r
  end.

Definition entity_match (i : nat) (entity_type : string) : string :=
  "MATCH (d)-[:CONTAINS]->(e" ++ str_nat i ++ ":" ++ entity_type ++ ")".

Definition entity_column (i : nat) (entity_type : string) : string :=
  "e" ++ str_nat i ++ " as " ++ entity_type.

Definition type_filter (document_type : option string) : list string :=
  match document_type with
  | Some t => if t =? "" then [] else [("WHERE d.type = '" ++ t ++ "'")%string]
  | None => []
  end.

Definition conjunction (comparisons : list string) : list string :=
  match comparisons with
  | [] => []
  | _ => [("WHERE " ++ join " AND " comparisons)%string]
  end.

Definition relationship_match (rel : traversal) : string :=
  "MATCH (" ++ from_type rel ++ ")-[:" ++ replace " " "_" (upper (rel_type rel))
    ++ "]->(" ++ to_type rel ++ ")".

Definition projection (entity_types : list string) : string :=
  "RETURN " ++ join ", " (["d.id as document_id"; "d.type as document_type"]
                            ++ map_indexed entity_column 0 entity_types).

Definition widget_search : search_params :=
  {| entity_types := ["Invoice"; "LineItem"];
     search_attributes :=
       [ {| entity := "e0"; attribute := "total_amount";
            condition := "greater_than"; value := "100" |};
         {| entity := "e1"; attribute := "description";
            condition := "contains"; value := "Widget" |} ];
     search_relationships :=
       [ {| from_type := "e0"; to_type := "e1"; rel_type := "has item" |} ] |}.

(** *** Model failures *)

(** The chat-completion call raised, or its text is not JSON. *)
Definition model_failure (json_loads : string -> result pyval)
    (completion : result string) : Prop :=
  (exists e, completion = Raise e)
  \/ (exists content e, completion = Ok content /\ json_loads content = Raise e).

(** A parser that accepts nothing, and a call that failed. *)
Definition rejects_all (content : string) : result pyval :=
  Raise (JSONDecodeError "Expecting value").

Definition service_unavailable : result string :=
  Raise (Exception "APIConnectionError" "Connection error.").

(** *** First occurrences *)

(** Two results carry the same invoice number, as Python's [==] has it. *)
Definition same_invoice (a b : pydict) : bool :=
  py_eqb (KagRoutes.invoice_number_of a) (KagRoutes.invoice_number_of b).

(** No result before position [i] carries the invoice number of the [i]-th. *)
Definition is_first_occurrence (results : list pydict) (i : nat) : bool :=
  match nth_error results i with
  | Some r => negb (existsb (fun earlier => same_invoice earlier r)
                            (firstn i results))
  | None => false
  end.

(** The results at the positions of first occurrences, in their order. *)
Definition first_occurrences (results : list pydict) : list pydict :=
  map snd (filter (fun ir => is_first_occurrence results (fst ir))
                  (enumerate results)).

Definition hashable_invoice_numbers (results : list pydict) : bool :=
  forallb (fun r => hashable (KagRoutes.invoice_number_of r)) results.

(** The loop invariant: what the set remembers is what the results read so
    far carry. *)
Definition remembers (seen : list pyval) (earlier : list pydict) : Prop :=
  forall k, existsb (py_eqb k) seen
            = existsb (fun e => py_eqb k (KagRoutes.invoice_number_of e)) earlier.

Definition matched_invoices : list pydict :=
  [ [("invoice_number", PStr "INV-100"); ("total_amount", PStr "$10.00")];
    [("invoice_number", PStr "INV-200"); ("total_amount", PStr "$7.50")];
    [("invoice_number", PStr "INV-100"); ("total_amount", PStr "$99.00")];
    [("invoice_number", PInt 7)];
    [("invoice_number", PFloat (FFinite (14 # 2)))];
    [("invoice_number", PStr "INV-200")] ].

(** *** Ingestion *)

(** The document node of [process_document]: the label is part of the text. *)
Definition invoice_node_query (properties : pyval) (document_id : string)
  : graph_query :=
  Query "CREATE (d:Invoice $properties) SET d.id = $document_id"
        [("properties", properties); ("document_id", PStr document_id)].




(** A model answer that calls the document a contract. *)
Definition contract_structure : pyval :=
  PDict [("document_node",
          PDict [("type", PStr "Contract");
                 ("properties", PDict [("invoice_number", PStr "INV-100")])]);
         ("entities",
          PList [PDict [("label", PStr "Line Item");
                        ("properties", PDict [("description", PStr "Widget")])];
                 PDict [("label", PStr "Party");
                        ("properties", PDict [("name", PStr "ACME")])]]);
         ("relationships",
          PList [PDict [("from_node", PInt 0); ("to_node", PInt 1);
                        ("type", PStr "sold-by")]])].

(** *** Further vocabulary *)

Definition invoice_entity_cypher (label : string) : string :=
  "MATCH (d:Invoice {id: $document_id}) CREATE (e:" ++ label
    ++ " $properties) CREATE (d)-[:CONTAINS]->(e) SET e.node_id = $node_id".

Definition invoice_relationship_cypher (rel_type : string) : string :=
  "MATCH (d:Invoice {id: $document_id}) "
    ++ "MATCH (source {node_id: $from_id})<-[:CONTAINS]-(d) "
    ++ "MATCH (target {node_id: $to_id})<-[:CONTAINS]-(d) "
    ++ "CREATE (source)-[r:" ++ rel_type ++ "]->(target) SET r = $properties".

(** The text of a query is fixed up to one identifier made of identifier
    characters. *)
Definition interpolates_identifier_only (q : graph_query) : Prop :=
  cypher q = "CREATE (d:Invoice $properties) SET d.id = $document_id"
  \/ exists identifier,
       safe_identifier identifier
       /\ (cypher q = invoice_entity_cypher identifier
           \/ cypher q = invoice_relationship_cypher identifier).

(** The [node_id] parameter of a query. *)
Definition node_id_of (q : graph_query) : option pyval := lookup (params q) "node_id".

(** The three fields an intent may ask for. *)
Definition projectable (k : string) : bool :=
  (k =? "total_amount") || (k =? "date") || (k =? "line_items").

(** The intent's field list names [k]. *)
Definition requested (fields : list pyval) (k : string) : bool :=
  existsb (fun field => is_str field k) fields.

(** A typed search specification, as the JSON object the model sends. *)
Definition attribute_object (attr : attribute_condition) : pyval :=
  PDict [("entity", PStr (entity attr)); ("attribute", PStr (attribute attr));
         ("condition", PStr (condition attr)); ("value", PStr (value attr))].

Definition relationship_object (rel : traversal) : pyval :=
  PDict [("from", PStr (from_type rel)); ("to", PStr (to_type rel));
         ("type", PStr (rel_type rel))].

Definition search_object (search : search_params) : pyval :=
  PDict [("entity_types", PList (map PStr (entity_types search)));
         ("attributes", PList (map attribute_object (search_attributes search)));
         ("relationships",
          PList (map relationship_object (search_relationships search)))].

(** *** More sample inputs *)

(** A line item with a missing value. *)
Definition widget_item : pydict :=
  [("description", PStr "Widget"); ("total", PStr "$10.00"); ("note", PNone)].

(** A search result that carries every field. *)
Definition priced_invoice : pydict :=
  [("invoice_number", PStr "INV-100"); ("date", PStr "2025-03-10");
   ("total_amount", PStr "$10.00")].

Definition price_request : KagRoutes.KagQueryRequest :=
  {| KagRoutes.query := "How much does it cost?";
     KagRoutes.document_type := None;
     KagRoutes.limit := None;
     KagRoutes.format_as_text := None |}.

(** A store whose every query matches [matched_invoices], and one that
    answers with the text of the query it was sent. *)
Definition finds_matched_invoices (graph : unit) (q : graph_query)
  : result (list pydict) :=
  Ok matched_invoices.

Definition echo_query (graph : unit) (q : graph_query) : result (list pydict) :=
  Ok [[("cypher", PStr (cypher q))]].

(** Line items as [collect(properties(item))] returns them, one empty. *)
Definition line_items_with_gap : list pyval :=
  [PDict [("description", PStr "Widget")]; PDict [];
   PDict [("quantity", PInt 1)]].

(** An attribute condition without its [value], outside the enum. *)
Definition incomplete_condition : pydict :=
  [("entity", PStr "e0"); ("attribute", PStr "total_amount");
   ("condition", PStr "near")].

(** A document type that closes the quote it is put in. *)
Definition quoted_filter : string := "invoice' OR '1'='1".

(** The schema of an invoice, as [identify_document_type] returns it. *)
Definition invoice_schema_object : pydict :=
  [("document_type", PStr "invoice");
   ("entities",
    PList [PDict [("name", PStr "invoice"); ("type", PStr "Invoice");
                  ("attributes", PList [PStr "invoice_number"; PStr "date"]);
                  ("relationships", PList [])]]);
   ("primary_identifiers", PList [PStr "invoice_number"])].

(** A schema entity without its [attributes]. *)
Definition incomplete_entity : pydict :=
  [("name", PStr "invoice"); ("type", PStr "Invoice")].

(** A model answer to the intent prompt that names no type. *)
Definition intent_without_type : pyval := PDict [("fields", PList [PStr "date"])].

(** Two matched invoices, one of them without a number. *)
Definition numbered_and_unnumbered : list pydict :=
  [ [("invoice_number", PStr "INV-100")]; [("invoice_number", PNone)] ].


(** *** A reference graph store *)

(** The graph store is outside the repository.  This is what the three
    statements of the dynamic materializer mean in the query language they
    are written in, on a property graph reduced to what they touch: the
    Document nodes, for each the nodes it CONTAINS, and the relationships
    created between those.  [MATCH] scopes a statement to the Documents of
    the given id, and [CREATE] runs once per match.  A statement that is
    none of the three, a label or relationship type that is no name, and a
    property value that is a map are errors. *)
Record entity_node : Type :=
  Node { node_label : string; node_properties : pydict }.

Record document_node : Type :=
  Document { document_key : string;
             document_kind : pyval;
             contained : list entity_node;
             related : list (entity_node * entity_node * string) }.

Definition property_graph : Type := list document_node.

(** [s] without the text [p] it starts with. *)
Fixpoint strip_prefix (p s : string) : option string :=
  match p with
  | EmptyString => Some s
  | String a p' =>
      match s with
      | String b s' => if Ascii.eqb a b then strip_prefix p' s' else None
      | EmptyString => None
      end
  end.

(** [s] without the text [suffix] it ends with. *)
Fixpoint strip_suffix (suffix s : string) : option string :=
  if s =? suffix then Some EmptyString
  else match s with
       | String c r => option_map (String c) (strip_suffix suffix r)
       | EmptyString => None
       end.

Definition between_texts (before after s : string) : option string :=
  match strip_prefix before s with
  | Some r => strip_suffix after r
  | None => None
  end.

(** A name that can stand unquoted in a statement: identifier characters,
    the first not a digit. *)
Definition symbolic_name (s : string) : bool :=
  match s with
  | EmptyString => false
  | String c _ => negb (is_digit c) && all_chars is_identifier_char s
  end.

(** The kinds of value a property holds, and the values it takes: one of
    these, a list of one kind of them, or nothing. *)
Definition property_kind (v : pyval) : option nat :=
  match v with
  | PBool _ => Some 0
  | PInt _ => Some 1
  | PFloat _ => Some 2
  | PStr _ => Some 3
  | _ => None
  end.

Definition storable (v : pyval) : bool :=
  match v with
  | PDict _ => false
  | PList [] => true
  | PList (x :: r) =>
      match property_kind x with
      | Some k => forallb (fun y => match property_kind y with
                                    | Some k' => Nat.eqb k k'
                                    | None => false
                                    end) r
      | None => false
      end
  | _ => true
  end.

Definition has_node_id (id : string) (n : entity_node) : bool :=
  match lookup (node_properties n) "node_id" with
  | Some (PStr s) => s =? id
  | _ => false
  end.

(** What a statement that starts with [MATCH (d:Document {id: $document_id})]
    does: its effect on every Document of that id. *)
Definition on_documents (id : string) (f : document_node -> document_node)
    (g : property_graph) : property_graph :=
  map (fun d => if document_key d =? id then f d else d) g.

Definition contain (label : string) (properties : pydict) (d : document_node)
  : document_node :=
  Document (document_key d) (document_kind d)
           (contained d ++ [Node label properties]) (related d).

(** One relationship per pair of a contained node with the source id and a
    contained node with the target id. *)
Definition relate (source_id target_id type : string) (d : document_node)
  : document_node :=
  Document (document_key d) (document_kind d) (contained d)
           (related d
              ++ map (fun st => (fst st, snd st, type))
                     (list_prod (filter (has_node_id source_id) (contained d))
                                (filter (has_node_id target_id) (contained d)))).

Definition syntax_error : exn := Exception "CypherSyntaxError" "Invalid input".
Definition type_error : exn :=
  Exception "CypherTypeError" "Property values can only be of primitive types".
Definition parameter_error : exn :=
  Exception "ParameterMissing" "Expected parameter(s)".

Definition create_document_text : string :=
  "CREATE (d:Document {id: $document_id, type: $document_type})".

Definition reference_run (g : property_graph) (q : graph_query)
  : result property_graph :=
  if cypher q =? create_document_text then
    match lookup (params q) "document_id", lookup (params q) "document_type" with
    | Some (PStr id), Some type =>
        if storable type then Ok (g ++ [Document id type [] []])
        else Raise type_error
    | _, _ => Raise parameter_error
    end
  else
    match between_texts "MATCH (d:Document {id: $document_id}) CREATE (e:"
                        " $properties) CREATE (d)-[:CONTAINS]->(e)" (cypher q) with
    | Some label =>
        if symbolic_name label then
          match lookup (params q) "document_id", lookup (params q) "properties" with
          | Some (PStr id), Some (PDict properties) =>
              if forallb (fun kv => storable (snd kv)) properties
              then Ok (on_documents id (contain label properties) g)
              else Raise type_error
          | _, _ => Raise parameter_error
          end
        else Raise syntax_error
    | None =>
        match between_texts
                ("MATCH (d:Document {id: $document_id}) "
                   ++ "MATCH (source {node_id: $source_id})<-[:CONTAINS]-(d) "
                   ++ "MATCH (target {node_id: $target_id})<-[:CONTAINS]-(d) "
                   ++ "CREATE (source)-[:")
                "]->(target)" (cypher q) with
        | Some type =>
            if symbolic_name type then
              match lookup (params q) "document_id",
                    lookup (params q) "source_id",
                    lookup (params q) "target_id" with
              | Some (PStr id), Some (PStr source_id), Some (PStr target_id) =>
                  Ok (on_documents id (relate source_id target_id type) g)
              | _, _, _ => Raise parameter_error
              end
            else Raise syntax_error
        | None => Raise syntax_error
        end
    end.

(** The materializer on the reference store. *)
Definition materialize (float : string -> result pyfloat) (document_id : string)
    (extracted_data : pydict) (document_schema : pyval)
  : Materializer.transaction property_graph unit :=
  Materializer.create_dynamic_knowledge_graph property_graph reference_run float
    document_id extracted_data document_schema.

(** *** Instances and the relationships between them *)




(** The [node_id] of a node, and the ends and type of a relationship. *)
Definition node_id_text (n : entity_node) : option string :=
  match lookup (node_properties n) "node_id" with
  | Some (PStr s) => Some s
  | _ => None
  end.





(** *** Steps of a materialization *)






(** *** The typed schema as the JSON object it stands for *)

Definition relationship_json (rel : relationship) : pyval :=
  PDict [("related_to", PStr (related_to rel));
         ("relationship_type", PStr (relationship_type rel))].

Definition entity_json (entity : entity_schema) : pyval :=
  PDict [("name", PStr (name entity));
         ("type", PStr (type entity));
         ("attributes", PList (map PStr (attributes entity)));
         ("relationships", PList (map relationship_json (relationships entity)))].

Definition schema_json (schema : document_schema) : pyval :=
  PDict [("document_type", PStr (document_type schema));
         ("entities", PList (map entity_json (entities schema)));
         ("primary_identifiers", PList (map PStr (primary_identifiers schema)))].

(** A transaction that, in a store taking every statement, sends the
    statements of a session and ends as it ends. *)
Definition alike {graph A : Type} (m : Materializer.transaction graph A)
    (s : session A) : Prop :=
  forall g, exists g', m g = (g', issued s, outcome s).

(** *** Sample inputs of the materializer *)

(** The schema of an invoice as the model sends it, its one relationship
    going from the invoice to [related_to]. *)
Definition invoice_schema_json (related_to relationship_type : string) : pydict :=
  [("document_type", PStr "invoice");
   ("entities",
    PList [PDict [("name", PStr "invoice"); ("type", PStr "Invoice");
                  ("attributes", PList [PStr "invoice_number"]);
                  ("relationships",
                   PList [PDict [("related_to", PStr related_to);
                                 ("relationship_type", PStr relationship_type)]])];
           PDict [("name", PStr "line_items"); ("type", PStr "Line Item");
                  ("attributes", PList [PStr "description"; PStr "quantity";
                                        PStr "unit_price"; PStr "total"]);
                  ("relationships", PList [])]]);
   ("primary_identifiers", PList [PStr "invoice_number"])].

(** A store that already holds another document. *)
Definition other_document : property_graph :=
  [Document "doc-0" (PStr "invoice")
            [Node "Invoice" [("invoice_number", PStr "INV-099");
                             ("node_id", PStr "invoice")]]
            []].

(* ===================================================================== *)
(** * Properties *)
(* ===================================================================== *)

(** ** Strings *)

Lemma is_identifier_char_alphabet (c : ascii) :
  is_identifier_char c = true <-> In c identifier_alphabet.
Proof.
  destruct c as [[] [] [] [] [] [] [] []]; vm_compute;
    (split; [ intros H; first [ discriminate H | intuition congruence ]
            | intros H; first [ reflexivity | intuition discriminate ] ]).
Qed.

Lemma all_chars_Forall (p : ascii -> bool) (s : string) :
  all_chars p s = true <-> Forall (fun c => p c = true) (chars s).
Proof.
  induction s as [| c r IH]; simpl.
  - split; auto.
  - rewrite andb_true_iff, IH. split.
    + intros [Hc Hr]. constructor; assumption.
    + intros H. inversion H; subst. split; assumption.
Qed.

Lemma safe_identifier_all_chars (s : string) :
  safe_identifier s <-> all_chars is_identifier_char s = true.
Proof.
  rewrite all_chars_Forall. unfold safe_identifier.
  split; intros H; eapply Forall_impl; try exact H;
    intros c Hc; apply is_identifier_char_alphabet; exact Hc.
Qed.

Lemma sanitize_all_chars (s : string) :
  all_chars is_identifier_char (sanitize s) = true.
Proof.
  unfold sanitize, re_sub_class.
  induction s as [| c r IH]; simpl; [reflexivity |].
  rewrite IH, andb_true_r.
  destruct (is_identifier_char c) eqn:Hc; simpl; [exact Hc | reflexivity].
Qed.

Lemma sanitize_fixpoint (s : string) :
  all_chars is_identifier_char s = true -> sanitize s = s.
Proof.
  unfold sanitize, re_sub_class.
  induction s as [| c r IH]; simpl; [reflexivity |].
  intros H. apply andb_true_iff in H as [Hc Hr].
  rewrite Hc, IH by exact Hr. reflexivity.
Qed.

(** C5. Sanitization: for every candidate label or relationship-type string
    the output of [re.sub(r'[^a-zA-Z0-9_]', '_', s)] contains only characters
    of [[A-Za-z0-9_]]; a string already made of such characters is returned
    unchanged; hence sanitizing twice is sanitizing once. *)
Theorem sanitize_safe_and_idempotent (s : string) :
  safe_identifier (sanitize s)
  /\ (safe_identifier s -> sanitize s = s)
  /\ sanitize (sanitize s) = sanitize s.
Proof.
  split; [| split].
  - apply safe_identifier_all_chars, sanitize_all_chars.
  - intros H. apply sanitize_fixpoint, safe_identifier_all_chars, H.
  - apply sanitize_fixpoint, sanitize_all_chars.
Qed.

Lemma sanitize_safe_and_idempotent_witness :
  safe_identifier "Line_Item_1" /\ sanitize "Line_Item_1" = "Line_Item_1".
Proof.
  assert (H : safe_identifier "Line_Item_1").
  { apply safe_identifier_all_chars. reflexivity. }
  split; [exact H |].
  exact (proj1 (proj2 (sanitize_safe_and_idempotent "Line_Item_1")) H).
Defined.

(** ** Stripping white space *)

Lemma lstrip_idempotent (s : string) : lstrip (lstrip s) = lstrip s.
Proof.
  induction s as [| c r IH]; simpl; [reflexivity |].
  destruct (is_space c) eqn:Hc; [exact IH |].
  simpl. rewrite Hc. reflexivity.
Qed.

Lemma rstrip_idempotent (s : string) : rstrip (rstrip s) = rstrip s.
Proof.
  induction s as [| c r IH]; simpl; [reflexivity |].
  destruct (is_space c && (rstrip r =? ""))%bool eqn:Hc; [reflexivity |].
  simpl. rewrite IH, Hc. reflexivity.
Qed.

(** Stripping on the left keeps a string that has nothing to strip on the
    right that way. *)
Lemma rstrip_lstrip_fixed (s : string) :
  rstrip s = s -> rstrip (lstrip s) = lstrip s.
Proof.
  induction s as [| c r IH]; simpl; [reflexivity |].
  intros H.
  destruct (is_space c) eqn:Hc; simpl in *.
  - destruct (rstrip r =? "") eqn:Hr; [discriminate H |].
    apply IH. congruence.
  - rewrite Hc. simpl. exact H.
Qed.

Lemma strip_idempotent (s : string) : strip (strip s) = strip s.
Proof.
  unfold strip.
  rewrite (rstrip_lstrip_fixed (rstrip s)) by apply rstrip_idempotent.
  apply lstrip_idempotent.
Qed.

(** ** Normalization *)

Section NormalizeValue.

Variable float : string -> result pyfloat.

Lemma normalize_value_not_a_string (v : pyval) :
  (forall s, v <> PStr s) -> normalize_value float v = v.
Proof.
  destruct v; intros H; try reflexivity. contradiction (H s eq_refl).
Qed.

(** C4. Normalization is idempotent: for every extracted value, a string, a
    number, null or anything else, normalizing the normalized value gives it
    back; and a value that is already a number is left as it is. *)
Theorem normalize_value_idempotent :
  (forall value : pyval,
      normalize_value float (normalize_value float value)
      = normalize_value float value)
  /\ (forall z : Z, normalize_value float (PInt z) = PInt z)
  /\ (forall f : pyfloat, normalize_value float (PFloat f) = PFloat f).
Proof.
  split; [| split; reflexivity].
  intros value. destruct value as [| b | z | f | s | l | d]; try reflexivity.
  remember (normalize_value float (PStr s)) as once eqn:Honce.
  unfold normalize_value in Honce.
  destruct (re_match_anchored currency_pattern (strip s)) eqn:Hcur;
    [ destruct (float (replace "," "" (replace "$" "" (strip s))))
        as [x | e] eqn:Hfl; [subst once; reflexivity |] |];
    (destruct (re_match_anchored date_pattern (strip s)) eqn:Hdate;
     subst once; unfold normalize_value;
     rewrite ?strip_idempotent, Hcur, ?Hfl, Hdate; reflexivity).
Qed.

End NormalizeValue.

(** ** The session log *)

Lemma issued_pair {A} (log : list graph_query) (r : result A) :
  issued (log, r) = log.
Proof. reflexivity. Qed.

Lemma sbind_ok {A B} (log : list graph_query) (a : A) (k : A -> session B) :
  sbind (log, Ok a) k = (log ++ issued (k a), outcome (k a)).
Proof. unfold sbind, issued, outcome. destruct (k a). reflexivity. Qed.

Lemma for_each_ok {X} (xs : list X) (body : X -> session unit) :
  (forall x, In x xs -> outcome (body x) = Ok tt) ->
  for_each xs body = (flat_map (fun x => issued (body x)) xs, Ok tt).
Proof.
  induction xs as [| x r IH]; intros H; simpl; [reflexivity |].
  assert (Hx : outcome (body x) = Ok tt) by (apply H; left; reflexivity).
  destruct (body x) as [log o] eqn:Hb. simpl in Hx. subst o.
  rewrite sbind_ok, IH by (intros y Hy; apply H; right; exact Hy).
  reflexivity.
Qed.

Lemma for_each_completes {X} (xs : list X) (body : X -> session unit) :
  outcome (for_each xs body) = Ok tt ->
  forall x, In x xs -> outcome (body x) = Ok tt.
Proof.
  induction xs as [| y r IH]; intros Hok x Hin; [contradiction Hin |].
  simpl in Hok. destruct (body y) as [log [[] | e]] eqn:Hy;
    [| discriminate Hok].
  rewrite sbind_ok in Hok. simpl in Hok.
  destruct Hin as [<- | Hin].
  - rewrite Hy. reflexivity.
  - apply IH; assumption.
Qed.

Lemma for_each_run {X} (xs : list X) (q : X -> graph_query) :
  for_each xs (fun x => run (q x)) = (map q xs, Ok tt).
Proof.
  rewrite for_each_ok by reflexivity. reflexivity.
Qed.

(** ** Relationship types in the dynamic materializer *)

(** C1, at the relationship type ["has-item"].  The dynamic materializer
    upper-cases it and replaces spaces, and interpolates the outcome
    ["HAS-ITEM"], which is not made of identifier characters, into the
    relationship-creation queries; the same text sanitized as labels are, as
    [process_document] does for its relationship types, is ["HAS_ITEM"]. *)
Theorem relationship_type_interpolated_unsanitized :
  relationship_identifier has_dash_item = "HAS-ITEM"
  /\ ~ safe_identifier (relationship_identifier has_dash_item)
  /\ In (Query ("MATCH (d:Document {id: $document_id}) "
                  ++ "MATCH (source {node_id: $source_id})<-[:CONTAINS]-(d) "
                  ++ "MATCH (target {node_id: $target_id})<-[:CONTAINS]-(d) "
                  ++ "CREATE (source)-[:HAS-ITEM]->(target)")
               [("document_id", PStr "doc-1");
                ("source_id", PStr "invoice");
                ("target_id", PStr "line_items_0")])
        (issued (create_dynamic_knowledge_graph decimal_float "doc-1" invoice_data
                   (invoice_schema has_dash_item)))
  /\ sanitize (upper (relationship_type has_dash_item)) = "HAS_ITEM".
Proof.
  split; [reflexivity |]. split.
  { intros H. apply safe_identifier_all_chars in H. discriminate H. }
  split; [| reflexivity].
  vm_compute. do 4 right. left. reflexivity.
Qed.

(** ** Semantic search: the compiled query *)

Lemma fold_left_appends {X} (g : X -> string)
    (step : list string -> X -> list string) :
  (forall acc x, step acc x = acc ++ [g x]) ->
  forall xs acc, fold_left step xs acc = acc ++ map g xs.
Proof.
  intros Hstep xs. induction xs as [| x r IH]; intros acc; simpl.
  - rewrite app_nil_r. reflexivity.
  - rewrite IH, Hstep, <- app_assoc. reflexivity.
Qed.

Lemma fold_left_enumerated {X} (g : nat -> X -> string)
    (step : list string -> nat * X -> list string) :
  (forall acc i x, step acc (i, x) = acc ++ [g i x]) ->
  forall xs k acc,
    fold_left step (combine (seq k (length xs)) xs) acc
    = acc ++ map_indexed g k xs.
Proof.
  intros Hstep xs. induction xs as [| x r IH]; intros k acc; simpl.
  - rewrite app_nil_r. reflexivity.
  - rewrite IH, Hstep, <- app_assoc. reflexivity.
Qed.

Lemma add_condition_comparison (acc : list string) (attr : attribute_condition) :
  add_condition acc attr = acc ++ attribute_comparison attr.
Proof.
  unfold add_condition, attribute_comparison, comparison_of.
  destruct (condition attr =? "equals"); [reflexivity |].
  destruct (condition attr =? "contains"); [reflexivity |].
  destruct (condition attr =? "greater_than"); [reflexivity |].
  destruct (condition attr =? "less_than"); [reflexivity |].
  rewrite app_nil_r. reflexivity.
Qed.

Lemma fold_left_add_condition (attrs : list attribute_condition) (acc : list string) :
  fold_left add_condition attrs acc = acc ++ flat_map attribute_comparison attrs.
Proof.
  revert acc. induction attrs as [| a r IH]; intros acc; simpl.
  - rewrite app_nil_r. reflexivity.
  - rewrite IH, add_condition_comparison, <- app_assoc. reflexivity.
Qed.

Lemma length_map_indexed {X Y} (f : nat -> X -> Y) (xs : list X) (k : nat) :
  length (map_indexed f k xs) = length xs.
Proof.
  revert k. induction xs as [| x r IH]; intros k; simpl; [reflexivity |].
  rewrite IH. reflexivity.
Qed.

Lemma nth_error_map_indexed {X Y} (f : nat -> X -> Y) (xs : list X) (k i : nat) (x : X) :
  nth_error xs i = Some x ->
  nth_error (map_indexed f k xs) i = Some (f (k + i) x).
Proof.
  revert k i. induction xs as [| y r IH]; intros k i H.
  - destruct i; discriminate H.
  - destruct i as [| i]; simpl in *.
    + injection H as ->. rewrite Nat.add_0_r. reflexivity.
    + rewrite (IH (S k) i H). f_equal. f_equal. lia.
Qed.

(** C3. For every search specification and optional document-type filter
    the compiled query is, in this order and joined by single spaces: the
    Document match; the type filter when one is given; one match clause per
    declared entity type, the i-th binding the variable [e<i>] to the i-th
    type of the list; when at least one attribute condition belongs to the
    enum, one [WHERE] clause joining with [AND] the comparisons of those
    conditions ([equals] as [=], [contains] as [CONTAINS], [greater_than] as
    [>], [less_than] as [<]); one match clause per declared relationship;
    and the projection of the Document's id and type followed by one column
    per entity-type variable. *)
Theorem cypher_query_structure (search : search_params)
    (document_type : option string) :
  let entity_clauses := map_indexed entity_match 0 (entity_types search) in
  let relationship_clauses := map relationship_match (search_relationships search) in
  let clauses :=
    ["MATCH (d:Document)"]
      ++ type_filter document_type
      ++ entity_clauses
      ++ conjunction (flat_map attribute_comparison (search_attributes search))
      ++ relationship_clauses
      ++ [projection (entity_types search)] in
  cypher_parts search document_type = clauses
  /\ cypher_query search document_type = join " " clauses
  /\ length entity_clauses = length (entity_types search)
  /\ (forall i entity_type,
        nth_error (entity_types search) i = Some entity_type ->
        nth_error entity_clauses i
        = Some ("MATCH (d)-[:CONTAINS]->(e" ++ str_nat i ++ ":" ++ entity_type ++ ")")%string
        /\ nth_error (map_indexed entity_column 0 (entity_types search)) i
          = Some ("e" ++ str_nat i ++ " as " ++ entity_type)%string)
  /\ length relationship_clauses = length (search_relationships search).
Proof.
  cbv zeta.
  assert (Hparts :
    cypher_parts search document_type
    = ["MATCH (d:Document)"]
        ++ type_filter document_type
        ++ map_indexed entity_match 0 (entity_types search)
        ++ conjunction (flat_map attribute_comparison (search_attributes search))
        ++ map relationship_match (search_relationships search)
        ++ [projection (entity_types search)]).
  { unfold cypher_parts, enumerate.
    rewrite (fold_left_enumerated entity_match) by (intros; reflexivity).
    rewrite (fold_left_enumerated entity_column) by (intros; reflexivity).
    rewrite (fold_left_appends relationship_match) by (intros; reflexivity).
    rewrite fold_left_add_condition, app_nil_l.
    unfold projection, type_filter.
    destruct document_type as [t |]; [destruct (t =? "") |];
      (destruct (flat_map attribute_comparison (search_attributes search))
         as [| c cs];
       cbn [conjunction app]; repeat rewrite <- app_assoc; reflexivity). }
  split; [exact Hparts |]. split.
  { unfold cypher_query. rewrite Hparts. reflexivity. }
  split; [apply length_map_indexed |]. split.
  { intros i entity_type H. split.
    - apply (nth_error_map_indexed entity_match _ 0 i _ H).
    - apply (nth_error_map_indexed entity_column _ 0 i _ H). }
  apply length_map.
Qed.

Lemma cypher_query_structure_witness :
  nth_error (map_indexed entity_match 0 (entity_types widget_search)) 1
  = Some "MATCH (d)-[:CONTAINS]->(e1:LineItem)".
Proof.
  exact (proj1 (proj1 (proj2 (proj2 (proj2
           (cypher_query_structure widget_search (Some "invoice")))))
           1 "LineItem" eq_refl)).
Defined.

(** ** Schema inference *)

(** C6. Whatever the model call does, [identify_document_type] returns a
    value and raises nothing; when the call raised or its text is not JSON,
    the value is the default {document_type: "unknown", entities: [],
    primary_identifiers: []}. *)
Theorem identify_document_type_safe_default
    (json_loads : string -> result pyval) (completion : result string) :
  (exists schema, identify_document_type json_loads completion = Ok schema)
  /\ (model_failure json_loads completion ->
      identify_document_type json_loads completion
      = Ok (PDict [("document_type", PStr "unknown");
                   ("entities", PList []);
                   ("primary_identifiers", PList [])])).
Proof.
  unfold identify_document_type, try_except, bind. split.
  - destruct completion as [content | e]; [| eexists; reflexivity].
    destruct (json_loads content); eexists; reflexivity.
  - intros [[e ->] | (content & e & -> & ->)]; reflexivity.
Qed.

Lemma identify_document_type_safe_default_witness :
  identify_document_type rejects_all (Ok "Sure! Here is the analysis: {")
  = Ok unknown_schema.
Proof.
  apply (proj2 (identify_document_type_safe_default rejects_all
                  (Ok "Sure! Here is the analysis: {"))).
  right. exists "Sure! Here is the analysis: {", (JSONDecodeError "Expecting value").
  split; reflexivity.
Defined.

(** ** Intent classification *)

Lemma prefix_spec (t s : string) :
  String.prefix t s = true <-> exists after, s = (t ++ after)%string.
Proof.
  revert s. induction t as [| c t IH]; intros s; simpl.
  - split; [intros _; exists s; reflexivity | intros _; destruct s; reflexivity].
  - destruct s as [| d s]; simpl.
    + split; [discriminate | intros [after H]; discriminate H].
    + destruct (ascii_dec c d) as [-> | Hne].
      * rewrite IH. split; intros [after H]; exists after.
        -- rewrite H. reflexivity.
        -- injection H as H. exact H.
      * split; [discriminate |].
        intros [after H]. injection H as Hc _. congruence.
Qed.

Lemma contains_spec (t s : string) :
  contains t s = true <-> Substring t s.
Proof.
  unfold Substring. induction s as [| c s IH].
  - change (contains t "") with (String.prefix t "" || false).
    rewrite orb_false_r, prefix_spec. split.
    + intros [after H]. exists "", after. exact H.
    + intros (before & after & H). destruct before; [| discriminate H].
      exists after. exact H.
  - change (contains t (String c s))
      with (String.prefix t (String c s) || contains t s).
    rewrite orb_true_iff, prefix_spec, IH. split.
    + intros [[after H] | (before & after & H)].
      * exists "", after. exact H.
      * exists (String c before), after. rewrite H. reflexivity.
    + intros (before & after & H). destruct before as [| d before].
      * left. exists after. exact H.
      * right. exists before, after. injection H as _ H. exact H.
Qed.

Lemma any_in_spec (terms : list string) (s : string) :
  any_in terms s = true <-> mentions terms s.
Proof.
  unfold any_in, mentions. rewrite existsb_exists.
  split; intros (t & Hin & H); exists t; (split; [exact Hin |]);
    apply contains_spec; exact H.
Qed.

Lemma any_in_false (terms : list string) (s : string) :
  any_in terms s = false <-> ~ mentions terms s.
Proof.
  rewrite <- any_in_spec. destruct (any_in terms s); split; congruence.
Qed.

(** C7. When the model call fails, the intent of a query is decided by
    which vocabulary has a term occurring in the lower-cased query, in the
    order price, invoice number, date, product, and the fields are the fixed
    ones of the category: [total_amount] for price, none for invoice_number,
    [date] for date, [line_items] for product_details, and all three for
    general, when no vocabulary occurs. *)
Theorem rule_based_fallback_priority
    (json_loads : string -> result pyval) (completion : result string)
    (query : string) :
  model_failure json_loads completion ->
  let q := lower query in
  let answer := analyze_query_intent json_loads completion query in
  (mentions price_terms q ->
   answer = Ok (PDict [("type", PStr "price");
                       ("fields", PList [PStr "total_amount"])]))
  /\ (~ mentions price_terms q -> mentions invoice_number_terms q ->
      answer = Ok (PDict [("type", PStr "invoice_number"); ("fields", PList [])]))
  /\ (~ mentions price_terms q -> ~ mentions invoice_number_terms q ->
      mentions date_terms q ->
      answer = Ok (PDict [("type", PStr "date"); ("fields", PList [PStr "date"])]))
  /\ (~ mentions price_terms q -> ~ mentions invoice_number_terms q ->
      ~ mentions date_terms q -> mentions product_terms q ->
      answer = Ok (PDict [("type", PStr "product_details");
                          ("fields", PList [PStr "line_items"])]))
  /\ (~ mentions price_terms q -> ~ mentions invoice_number_terms q ->
      ~ mentions date_terms q -> ~ mentions product_terms q ->
      answer = Ok (PDict [("type", PStr "general");
                          ("fields", PList [PStr "total_amount"; PStr "date";
                                            PStr "line_items"])])).
Proof.
  intros Hfail; cbv zeta.
  assert (Hfallback : analyze_query_intent json_loads completion query
                      = Ok (rule_based_fallback (lower query))).
  { unfold analyze_query_intent, try_except, bind.
    destruct Hfail as [[e ->] | (content & e & -> & ->)]; reflexivity. }
  rewrite Hfallback. unfold rule_based_fallback.
  repeat split.
  - intros H. apply any_in_spec in H. rewrite H. reflexivity.
  - intros H1 H2. apply any_in_false in H1. apply any_in_spec in H2.
    rewrite H1, H2. reflexivity.
  - intros H1 H2 H3. apply any_in_false in H1, H2. apply any_in_spec in H3.
    rewrite H1, H2, H3. reflexivity.
  - intros H1 H2 H3 H4. apply any_in_false in H1, H2, H3.
    apply any_in_spec in H4. rewrite H1, H2, H3, H4. reflexivity.
  - intros H1 H2 H3 H4. apply any_in_false in H1, H2, H3, H4.
    rewrite H1, H2, H3, H4. reflexivity.
Qed.

Lemma rule_based_fallback_priority_witness :
  analyze_query_intent rejects_all service_unavailable "What is the total amount?"
  = Ok (PDict [("type", PStr "price"); ("fields", PList [PStr "total_amount"])]).
Proof.
  apply (proj1 (rule_based_fallback_priority rejects_all service_unavailable
                  "What is the total amount?"
                  (or_introl (ex_intro _ _ eq_refl)))).
  exists "total". split.
  - right. left. reflexivity.
  - exists "what is the ", " amount?". reflexivity.
Defined.

(** ** Deduplication of results *)

Lemma float_eqb_sym (a b : pyfloat) : float_eqb a b = float_eqb b a.
Proof.
  destruct a, b; simpl; try reflexivity.
  - apply Qeq_bool_comm.
  - destruct negative, negative0; reflexivity.
Qed.

Lemma float_eqb_trans (a b c : pyfloat) :
  float_eqb a b = true -> float_eqb b c = true -> float_eqb a c = true.
Proof.
  destruct a, b, c; simpl; try discriminate.
  - apply Qeq_bool_trans.
  - destruct negative, negative0, negative1; simpl; congruence.
Qed.

Lemma py_eqb_sym (a b : pyval) : py_eqb a b = py_eqb b a.
Proof.
  destruct a as [| [] | | | | |], b as [| [] | | | | |]; simpl;
    try reflexivity; try apply Qeq_bool_comm;
    try apply float_eqb_sym; try apply String.eqb_sym;
    try (symmetry; apply float_eqb_sym).
Qed.

Lemma py_eqb_numeric (a b : pyval) :
  py_eqb a b = true ->
  (a = PNone /\ b = PNone)
  \/ (exists s, a = PStr s /\ b = PStr s)
  \/ (exists x y, numeric a = Some x /\ numeric b = Some y /\ float_eqb x y = true).
Proof.
  destruct a, b; simpl; try discriminate; intros H;
    try (left; split; reflexivity);
    try (right; left; apply String.eqb_eq in H; subst; eexists; split; reflexivity);
    right; right; eexists; eexists; (split; [reflexivity |]);
    (split; [reflexivity |]); exact H.
Qed.

Lemma py_eqb_of_numeric (a b : pyval) (x y : pyfloat) :
  numeric a = Some x -> numeric b = Some y -> py_eqb a b = float_eqb x y.
Proof.
  destruct a, b; simpl; intros Ha Hb; try discriminate;
    injection Ha as <-; injection Hb as <-; reflexivity.
Qed.

Lemma py_eqb_trans (a b c : pyval) :
  py_eqb a b = true -> py_eqb b c = true -> py_eqb a c = true.
Proof.
  intros Hab Hbc.
  destruct (py_eqb_numeric _ _ Hab)
    as [[-> ->] | [(s & -> & ->) | (x & y & Hx & Hy & Hxy)]]; try exact Hbc.
  destruct (py_eqb_numeric _ _ Hbc)
    as [[-> _] | [(s & -> & _) | (y' & z & Hy' & Hz & Hyz)]]; try discriminate Hy.
  rewrite Hy in Hy'. injection Hy' as <-.
  rewrite (py_eqb_of_numeric a c x z Hx Hz).
  exact (float_eqb_trans x y z Hxy Hyz).
Qed.

Lemma remembers_new (seen : list pyval) (earlier : list pydict) (r : pydict) :
  remembers seen earlier ->
  remembers (KagRoutes.invoice_number_of r :: seen) (earlier ++ [r]).
Proof.
  intros Hinv k. rewrite existsb_app. simpl. rewrite Hinv, orb_false_r.
  apply orb_comm.
Qed.

Lemma remembers_known (seen : list pyval) (earlier : list pydict) (r : pydict) :
  remembers seen earlier ->
  existsb (py_eqb (KagRoutes.invoice_number_of r)) seen = true ->
  remembers seen (earlier ++ [r]).
Proof.
  intros Hinv Hseen k. rewrite existsb_app. simpl. rewrite orb_false_r.
  destruct (py_eqb k (KagRoutes.invoice_number_of r)) eqn:Hk.
  - rewrite orb_true_r.
    apply existsb_exists in Hseen as (e & Hin & He).
    apply existsb_exists. exists e. split; [exact Hin |].
    exact (py_eqb_trans _ _ _ Hk He).
  - rewrite orb_false_r. apply Hinv.
Qed.

Lemma is_first_occurrence_at (earlier rest : list pydict) (r : pydict) :
  is_first_occurrence (earlier ++ r :: rest) (length earlier)
  = negb (existsb (fun e => py_eqb (KagRoutes.invoice_number_of r)
                                   (KagRoutes.invoice_number_of e)) earlier).
Proof.
  unfold is_first_occurrence.
  rewrite nth_error_app2, Nat.sub_diag by lia. simpl.
  rewrite firstn_app, Nat.sub_diag, firstn_all. simpl. rewrite app_nil_r.
  f_equal. induction earlier as [| e l IH]; simpl; [reflexivity |].
  unfold same_invoice at 1. rewrite py_eqb_sym, IH. reflexivity.
Qed.

Lemma deduplicate_first_occurrences (rest earlier : list pydict)
    (seen : list pyval) (unique : list pydict) :
  hashable_invoice_numbers rest = true ->
  remembers seen earlier ->
  KagRoutes.deduplicate rest seen unique
  = Ok (unique
          ++ map snd (filter (fun ir => is_first_occurrence (earlier ++ rest) (fst ir))
                             (combine (seq (length earlier) (length rest)) rest))).
Proof.
  revert earlier seen unique.
  induction rest as [| r rest IH]; intros earlier seen unique Hhash Hinv.
  - simpl. rewrite app_nil_r. reflexivity.
  - simpl in Hhash. apply andb_true_iff in Hhash as [Hr Hrest].
    cbn [KagRoutes.deduplicate length seq combine filter fst].
    rewrite Hr, is_first_occurrence_at, <- (Hinv (KagRoutes.invoice_number_of r)).
    assert (Hshift : earlier ++ r :: rest = (earlier ++ [r]) ++ rest)
      by (rewrite <- app_assoc; reflexivity).
    assert (Hlen : S (length earlier) = length (earlier ++ [r]))
      by (rewrite length_app; simpl; lia).
    destruct (existsb (py_eqb (KagRoutes.invoice_number_of r)) seen) eqn:Hseen;
      cbn [negb].
    + rewrite (IH (earlier ++ [r]) seen unique Hrest
                 (remembers_known seen earlier r Hinv Hseen)).
      rewrite Hshift, Hlen. reflexivity.
    + rewrite (IH (earlier ++ [r]) _ (unique ++ [r]) Hrest
                 (remembers_new seen earlier r Hinv)).
      rewrite Hshift, Hlen. cbn [map snd]. rewrite <- app_assoc. reflexivity.
Qed.

Lemma deduplicate_unhashable (results : list pydict) (seen : list pyval)
    (unique : list pydict) :
  hashable_invoice_numbers results = false ->
  exists e, KagRoutes.deduplicate results seen unique = Raise e.
Proof.
  revert seen unique. induction results as [| r rest IH];
    intros seen unique Hhash; [discriminate Hhash |].
  simpl in Hhash. cbn [KagRoutes.deduplicate].
  destruct (hashable (KagRoutes.invoice_number_of r)); simpl in Hhash.
  - destruct (negb (existsb (py_eqb (KagRoutes.invoice_number_of r)) seen));
      apply IH; exact Hhash.
  - eexists. reflexivity.
Qed.

(** C8. For every result list, what the deduplication before text rendering
    returns is the results standing at the positions of first occurrences, in
    the order of the list: a result is kept exactly when no earlier result
    carries the same invoice number.  It returns whenever the invoice numbers
    are hashable (strings, numbers, null) and raises otherwise. *)
Theorem deduplication_keeps_first_occurrences (results : list pydict) :
  (forall kept,
      KagRoutes.unique_results results = Ok kept ->
      kept = first_occurrences results)
  /\ (hashable_invoice_numbers results = true ->
      KagRoutes.unique_results results = Ok (first_occurrences results))
  /\ (hashable_invoice_numbers results = false ->
      exists e, KagRoutes.unique_results results = Raise e).
Proof.
  assert (Hreturns : hashable_invoice_numbers results = true ->
            KagRoutes.unique_results results = Ok (first_occurrences results)).
  { intros Hhash. unfold KagRoutes.unique_results.
    rewrite (deduplicate_first_occurrences results [] [] [] Hhash)
      by (intros k; reflexivity).
    reflexivity. }
  assert (Hraises : hashable_invoice_numbers results = false ->
            exists e, KagRoutes.unique_results results = Raise e).
  { intros Hhash. apply deduplicate_unhashable, Hhash. }
  split; [| split; assumption].
  intros kept Hkept.
  destruct (hashable_invoice_numbers results) eqn:Hhash.
  - rewrite (Hreturns eq_refl) in Hkept. injection Hkept as <-. reflexivity.
  - destruct (Hraises eq_refl) as [e He]. rewrite He in Hkept. discriminate Hkept.
Qed.

Lemma deduplication_keeps_first_occurrences_witness :
  KagRoutes.unique_results matched_invoices
  = Ok [ [("invoice_number", PStr "INV-100"); ("total_amount", PStr "$10.00")];
         [("invoice_number", PStr "INV-200"); ("total_amount", PStr "$7.50")];
         [("invoice_number", PInt 7)] ].
Proof.
  exact (proj1 (proj2 (deduplication_keeps_first_occurrences matched_invoices))
           eq_refl).
Defined.

(** ** Search *)

(** C9. [DocumentExtractorAPI.search] does not look at its inputs: for
    any two query strings and any two document-type filters it hands the
    session the same fixed query, all Invoice nodes with a non-null invoice
    number and their contained items, and so returns the same results over
    the same store; the same holds for the retrieval of the query routes. *)
Theorem search_ignores_query_and_filter
    (store : Type) (execute : store -> graph_query -> result (list pydict))
    (graph : store) (query1 query2 : string) (filter1 filter2 : option string) :
  search_issues query1 filter1
  = Query ("MATCH (i:Invoice)-[:CONTAINS]->(item) "
             ++ "WHERE i.invoice_number IS NOT NULL "
             ++ "RETURN i.id as document_id, i.invoice_number as invoice_number, "
             ++ "i.date as date, i.total_amount as total_amount, "
             ++ "collect(properties(item)) as line_items") []
  /\ search_issues query1 filter1 = search_issues query2 filter2
  /\ search store execute graph query1 filter1
     = search store execute graph query2 filter2
  /\ (forall request1 request2 : KagRoutes.KagQueryRequest,
        KagRoutes.query_kag_results store execute graph request1
        = KagRoutes.query_kag_results store execute graph request2).
Proof. repeat split. Qed.

(** ** Ingestion *)

Lemma lookup_setitem_eq (d : pydict) (k : string) (v : pyval) :
  lookup (setitem d k v) k = Some v.
Proof.
  induction d as [| [k' v'] r IH]; simpl.
  - rewrite String.eqb_refl. reflexivity.
  - destruct (k' =? k) eqn:Hk; simpl.
    + rewrite String.eqb_refl. reflexivity.
    + rewrite Hk. exact IH.
Qed.

Lemma lookup_setitem_ne (d : pydict) (k k' : string) (v : pyval) :
  k <> k' -> lookup (setitem d k v) k' = lookup d k'.
Proof.
  intros Hne. induction d as [| [k0 v0] r IH]; simpl.
  - apply String.eqb_neq in Hne. rewrite Hne. reflexivity.
  - destruct (k0 =? k) eqn:Hk; simpl.
    + apply String.eqb_eq in Hk. subst k0.
      apply String.eqb_neq in Hne. rewrite Hne. reflexivity.
    + rewrite IH. reflexivity.
Qed.





Lemma sbind_lift_ok {A B} (a : A) (k : A -> session B) :
  sbind (lift (Ok a)) k = k a.
Proof. unfold sbind, lift. destruct (k a). reflexivity. Qed.

Lemma session_eq {A} (log : list graph_query) (m1 m2 : session A) :
  m1 = m2 -> (log ++ issued m1, outcome m1) = (log ++ issued m2, outcome m2).
Proof. intros ->. reflexivity. Qed.

Lemma issued_sbind {A B} (m : session A) (k : A -> session B) (P : graph_query -> Prop) :
  Forall P (issued m) -> (forall a, Forall P (issued (k a))) ->
  Forall P (issued (sbind m k)).
Proof.
  intros Hm Hk. destruct m as [log [a | e]]; simpl in *.
  - specialize (Hk a). destruct (k a) as [log' r]. simpl in *.
    apply Forall_app. split; assumption.
  - exact Hm.
Qed.

Lemma issued_for_each {X} (xs : list X) (body : X -> session unit)
    (P : graph_query -> Prop) :
  (forall x, Forall P (issued (body x))) ->
  Forall P (issued (for_each xs body)).
Proof.
  intros Hbody. induction xs as [| x r IH]; simpl.
  - constructor.
  - apply issued_sbind; [apply Hbody | intros _; exact IH].
Qed.


Section Ingest.
Variable json_loads : string -> result pyval.
Variable repr : pyval -> string.
Variable fitz_text : string -> result string.
Variable s3_client : option (string -> string -> result unit).




Lemma process_document_log (input_data input_type file_uuid document_uuid : string)
    (completion : result string) :
  let ingestion := process_document json_loads repr fitz_text s3_client
                     input_data input_type file_uuid document_uuid completion in
  (issued ingestion = []
   /\ exists message, outcome ingestion = Ok (PDict [("error", PStr message)]))
  \/ (exists graph_structure,
        issued ingestion
        = issued (create_invoice_graph repr document_uuid graph_structure)
        /\ ((exists message,
               outcome ingestion = Ok (PDict [("error", PStr message)]))
            \/ (exists s3_key,
                  outcome (create_invoice_graph repr document_uuid graph_structure)
                  = Ok tt
                  /\ outcome ingestion
                     = Ok (PDict [("document_id", PStr document_uuid);
                                  ("s3_key", s3_key);
                                  ("graph_structure", graph_structure)])))).
Proof.
  cbv zeta. unfold process_document.
  destruct (match s3_client with
            | Some upload =>
                if input_type =? "pdf"
                then bind (upload input_data ("documents/" ++ file_uuid ++ ".pdf")%string)
                          (fun _ => Ok (PStr ("documents/" ++ file_uuid ++ ".pdf")%string))
                else Ok PNone
            | None => Ok PNone
            end) as [s3_key | e].
  2:{ left. split; [reflexivity | eexists; reflexivity]. }
  rewrite sbind_lift_ok.
  destruct (preprocess_document fitz_text input_data input_type) as [text | e].
  2:{ left. split; [reflexivity | eexists; reflexivity]. }
  rewrite sbind_lift_ok.
  destruct (text =? "").
  { left. split; [reflexivity | eexists; reflexivity]. }
  destruct (bind completion (fun content => json_loads content)) as [gs | e].
  2:{ left. split; [reflexivity | eexists; reflexivity]. }
  rewrite sbind_lift_ok.
  right. exists gs.
  destruct (create_invoice_graph repr document_uuid gs) as [log [[] | e]];
    unfold sbind, session_try, ret, issued, outcome; cbn [fst snd];
    rewrite ?app_nil_r.
  - split; [reflexivity |]. right. exists s3_key. split; reflexivity.
  - split; [reflexivity |]. left. eexists. reflexivity.
Qed.

End Ingest.


(** ** Soft failures *)

(** The text extractor raises nothing: raw text is returned as it is, a PDF
    that cannot be read gives the empty text, and so does any other input
    type. *)
Theorem preprocess_document_fails_softly
    (fitz_text : string -> result string) (input_data input_type : string) :
  exists text,
    preprocess_document fitz_text input_data input_type = Ok text
    /\ (input_type = "text" -> text = input_data)
    /\ (input_type = "pdf" ->
        forall e, fitz_text input_data = Raise e -> text = "")
    /\ (input_type <> "text" -> input_type <> "pdf" -> text = "").
Proof.
  unfold preprocess_document.
  destruct (input_type =? "text") eqn:Htext.
  - apply String.eqb_eq in Htext. subst input_type.
    exists input_data. repeat split; try reflexivity; try discriminate.
    intros H. contradiction H. reflexivity.
  - apply String.eqb_neq in Htext.
    destruct (input_type =? "pdf") eqn:Hpdf.
    + destruct (fitz_text input_data) as [text | e] eqn:Hfitz.
      * exists text. repeat split; try contradiction; try discriminate.
        apply String.eqb_eq in Hpdf. intros _ H. contradiction H.
      * exists "". repeat split; try contradiction; reflexivity.
    + apply String.eqb_neq in Hpdf.
      exists "". repeat split; try contradiction; reflexivity.
Qed.

Lemma preprocess_document_fails_softly_witness :
  preprocess_document (fun _ => Raise (Exception "FileDataError" "cannot open"))
    "/tmp/broken.pdf" "pdf"
  = Ok "".
Proof.
  destruct (preprocess_document_fails_softly
              (fun _ => Raise (Exception "FileDataError" "cannot open"))
              "/tmp/broken.pdf" "pdf") as (text & Hok & _ & Hpdf & _).
  rewrite Hok. f_equal.
  exact (Hpdf eq_refl (Exception "FileDataError" "cannot open") eq_refl).
Defined.

(** ** The scenarios of the specification, evaluated *)

Example normalize_currency :
  normalize_value decimal_float (PStr "$5.00") = PFloat (FFinite 5)
  /\ normalize_value decimal_float (PStr " $1,250.50 ") = PFloat (FFinite (2501 # 2))
  /\ normalize_value decimal_float (PStr " 03/10/2025 ") = PStr "03/10/2025"
  /\ normalize_value decimal_float (PStr ",,,") = PStr ",,,"
  /\ normalize_value decimal_float (PStr "Widget") = PStr "Widget".
Proof. repeat split; reflexivity. Qed.

Example line_item_node :
  _create_entity_node decimal_float "doc-1" "Line Item"
    (PDict [("description", PStr "Widget"); ("quantity", PInt 2);
            ("unit_price", PStr "$5.00"); ("total", PStr "$10.00")])
    "line_items_0"
  = ([Query ("MATCH (d:Document {id: $document_id}) CREATE (e:Line_Item $properties) "
               ++ "CREATE (d)-[:CONTAINS]->(e)")
            [("document_id", PStr "doc-1");
             ("properties",
              PDict [("description", PStr "Widget"); ("quantity", PInt 2);
                     ("unit_price", PFloat (FFinite 5));
                     ("total", PFloat (FFinite 10));
                     ("node_id", PStr "line_items_0")])]],
     Ok tt).
Proof. reflexivity. Qed.

(** An entity value that is not an object stops the materialization in the
    first loop, before any relationship is created. *)
Example scalar_text_entity_raises :
  create_dynamic_knowledge_graph decimal_float "doc-1"
    [("invoice", PStr "INV-100"); ("line_items", PList [])]
    (invoice_schema has_item)
  = ([Query "CREATE (d:Document {id: $document_id, type: $document_type})"
            [("document_id", PStr "doc-1"); ("document_type", PStr "unknown")]],
     Raise (AttributeError "object has no attribute 'items'")).
Proof. reflexivity. Qed.

Example widget_search_query :
  cypher_query widget_search (Some "invoice")
  = ("MATCH (d:Document) WHERE d.type = 'invoice' "
       ++ "MATCH (d)-[:CONTAINS]->(e0:Invoice) MATCH (d)-[:CONTAINS]->(e1:LineItem) "
       ++ "WHERE e0.total_amount > 100 AND e1.description CONTAINS 'Widget' "
       ++ "MATCH (e0)-[:HAS_ITEM]->(e1) "
       ++ "RETURN d.id as document_id, d.type as document_type, "
       ++ "e0 as Invoice, e1 as LineItem")%string.
Proof. reflexivity. Qed.

Example empty_search_matches_all_documents :
  cypher_query {| entity_types := []; search_attributes := [];
                  search_relationships := [] |} None
  = "MATCH (d:Document) RETURN d.id as document_id, d.type as document_type".
Proof. reflexivity. Qed.

Example contract_is_ingested_as_invoice :
  issued (process_input (fun _ => Ok contract_structure)
            (fun _ => "") (fun _ => Ok "Contract between ACME and ...") None
            "/tmp/contract.pdf" "pdf" "uuid-1" "uuid-2" (Ok "{...}"))
  = [ invoice_node_query (PDict [("invoice_number", PStr "INV-100")]) "uuid-2";
      Query ("MATCH (d:Invoice {id: $document_id}) CREATE (e:Line_Item $properties) "
               ++ "CREATE (d)-[:CONTAINS]->(e) SET e.node_id = $node_id")
            [("document_id", PStr "uuid-2");
             ("properties", PDict [("description", PStr "Widget")]);
             ("node_id", PStr "node_0")];
      Query ("MATCH (d:Invoice {id: $document_id}) CREATE (e:Party $properties) "
               ++ "CREATE (d)-[:CONTAINS]->(e) SET e.node_id = $node_id")
            [("document_id", PStr "uuid-2");
             ("properties", PDict [("name", PStr "ACME")]);
             ("node_id", PStr "node_1")];
      Query ("MATCH (d:Invoice {id: $document_id}) "
               ++ "MATCH (source {node_id: $from_id})<-[:CONTAINS]-(d) "
               ++ "MATCH (target {node_id: $to_id})<-[:CONTAINS]-(d) "
               ++ "CREATE (source)-[r:SOLD_BY]->(target) SET r = $properties")
            [("document_id", PStr "uuid-2");
             ("from_id", PStr "node_0");
             ("to_id", PStr "node_1");
             ("properties", PDict [])] ].
Proof. reflexivity. Qed.

Example unhashable_invoice_number_raises :
  KagRoutes.unique_results [[("invoice_number", PList [PStr "INV-100"])]]
  = Raise (TypeError "unhashable type").
Proof. reflexivity. Qed.

(* ===================================================================== *)
(** * Further properties of the service and its routes *)
(* ===================================================================== *)

(** ** Entity nodes *)

Lemma lookup_absent (d : pydict) (k : string) :
  ~ In k (map fst d) -> lookup d k = None.
Proof.
  induction d as [| [k0 v0] r IH]; simpl; intros Hnot; [reflexivity |].
  destruct (k0 =? k) eqn:Hk.
  - apply String.eqb_eq in Hk. contradiction Hnot. left. exact Hk.
  - apply IH. intros Hin. apply Hnot. right. exact Hin.
Qed.

Lemma lookup_normalized (float : string -> result pyfloat) (d : pydict) (k : string) :
  NoDup (map fst d) ->
  lookup (normalized float d) k
  = match lookup d k with
    | Some PNone | None => None
    | Some v => Some (normalize_value float v)
    end.
Proof.
  unfold normalized.
  induction d as [| [k0 v0] r IH]; simpl; intros Hnodup; [reflexivity |].
  inversion Hnodup as [| ? ? Hfresh Hrest]; subst.
  specialize (IH Hrest).
  destruct (k0 =? k) eqn:Hk.
  - apply String.eqb_eq in Hk. subst k0.
    destruct v0; simpl; rewrite ?String.eqb_refl; try reflexivity.
    rewrite IH, (lookup_absent r k Hfresh). reflexivity.
  - destruct v0; simpl; rewrite ?Hk; exact IH.
Qed.

Lemma issued_sbind_lift {A B} (r : result A) (k : A -> session B)
    (P : graph_query -> Prop) :
  (forall a, r = Ok a -> Forall P (issued (k a))) ->
  Forall P (issued (sbind (lift r) k)).
Proof.
  intros Hk. destruct r as [a | e]; [| constructor].
  rewrite sbind_lift_ok. apply Hk. reflexivity.
Qed.

Lemma create_invoice_graph_identifiers (repr : pyval -> string)
    (document_id : string) (graph_structure : pyval) :
  Forall interpolates_identifier_only
         (issued (create_invoice_graph repr document_id graph_structure)).
Proof.
  unfold create_invoice_graph.
  apply issued_sbind_lift. intros doc_props _.
  apply issued_sbind_lift. intros doc_type _.
  apply issued_sbind.
  { constructor; [left; reflexivity | constructor]. }
  intros _. apply issued_sbind_lift. intros entities _.
  apply issued_sbind.
  - apply issued_for_each. intros [idx entity].
    apply issued_sbind_lift. intros label Hlabel.
    apply issued_sbind_lift. intros properties _.
    constructor; [| constructor].
    right. exists label. split; [| left; reflexivity].
    destruct (subscript entity "label") as [[] |]; simpl in Hlabel;
      try discriminate Hlabel.
    injection Hlabel as <-.
    apply safe_identifier_all_chars, sanitize_all_chars.
  - intros _. apply issued_sbind_lift. intros rels _.
    apply issued_for_each. intros rel.
    apply issued_sbind_lift. intros from_node _.
    apply issued_sbind_lift. intros to_node _.
    apply issued_sbind_lift. intros rel_type Htype.
    constructor; [| constructor].
    right. exists rel_type. split; [| right; reflexivity].
    destruct (subscript rel "type") as [[] |]; simpl in Htype;
      try discriminate Htype.
    injection Htype as <-.
    apply safe_identifier_all_chars, sanitize_all_chars.
Qed.

(** Whatever the model answers, every query [process_document] issues has
    one of three fixed texts: the creation of the Invoice node, or the
    creation of an entity or of a relationship, in which the only part that
    varies is a label or relationship type made of identifier characters
    only (the sanitized text of the model's answer).  All other values
    travel as query parameters. *)
Theorem ingestion_interpolates_identifiers_only
    (json_loads : string -> result pyval) (repr : pyval -> string)
    (fitz_text : string -> result string)
    (s3_client : option (string -> string -> result unit))
    (input_data input_type file_uuid document_uuid : string)
    (completion : result string) :
  Forall interpolates_identifier_only
    (issued (process_document json_loads repr fitz_text s3_client
               input_data input_type file_uuid document_uuid completion)).
Proof.
  pose proof (process_document_log json_loads repr fitz_text s3_client
                input_data input_type file_uuid document_uuid completion) as Hlog.
  cbv zeta in Hlog.
  destruct Hlog as [[-> _] | (gs & -> & _)]; [constructor |].
  apply create_invoice_graph_identifiers.
Qed.


Lemma str_nat_injective (a b : nat) : str_nat a = str_nat b -> a = b.
Proof.
  unfold str_nat. intros H.
  apply (f_equal NilEmpty.uint_of_string) in H.
  rewrite !NilEmpty.usu in H. injection H as H.
  apply (f_equal Nat.of_uint) in H.
  rewrite !DecimalNat.Unsigned.of_to in H. exact H.
Qed.

Lemma sbind_completes {A B} (m : session A) (k : A -> session B) (b : B) :
  outcome (sbind m k) = Ok b ->
  exists a, outcome m = Ok a /\ outcome (k a) = Ok b
            /\ issued (sbind m k) = issued m ++ issued (k a).
Proof.
  destruct m as [log [a | e]]; simpl; [| discriminate].
  destruct (k a) as [log' r] eqn:Hk. simpl. intros ->.
  exists a. rewrite Hk. repeat split.
Qed.

Lemma sbind_lift_completes {A B} (r : result A) (k : A -> session B) (b : B) :
  outcome (sbind (lift r) k) = Ok b ->
  exists a, r = Ok a /\ outcome (k a) = Ok b
            /\ issued (sbind (lift r) k) = issued (k a).
Proof.
  intros H. destruct (sbind_completes _ _ _ H) as (a & Ha & Hk & Hlog).
  exists a. destruct r as [a' | e]; simpl in Ha; [| discriminate Ha].
  injection Ha as ->. repeat split; assumption.
Qed.

Lemma for_each_issued {X} (xs : list X) (body : X -> session unit) :
  outcome (for_each xs body) = Ok tt ->
  issued (for_each xs body) = flat_map (fun x => issued (body x)) xs.
Proof.
  intros Hok. rewrite for_each_ok; [reflexivity |].
  apply for_each_completes. exact Hok.
Qed.

Lemma flat_map_singletons {X Y} (f : X -> list Y) (g : X -> Y) (xs : list X) :
  (forall x, In x xs -> f x = [g x]) -> flat_map f xs = map g xs.
Proof.
  induction xs as [| x r IH]; intros H; simpl; [reflexivity |].
  rewrite H by (left; reflexivity). rewrite IH by (intros y Hy; apply H; right; exact Hy).
  reflexivity.
Qed.

Lemma map_enumerate_fst {X Y} (f : nat -> Y) (xs : list X) (k : nat) :
  map (fun ix : nat * X => f (fst ix)) (combine (seq k (length xs)) xs)
  = map f (seq k (length xs)).
Proof.
  revert k. induction xs as [| x r IH]; intros k; simpl; [reflexivity |].
  rewrite IH. reflexivity.
Qed.

Section CompletedIngestion.
Variable repr : pyval -> string.

(** The queries of a completed [create_invoice_graph]. *)
Lemma create_invoice_graph_completed (document_id : string) (graph_structure : pyval) :
  outcome (create_invoice_graph repr document_id graph_structure) = Ok tt ->
  exists properties entities relationships entity_queries relationship_queries,
    issued (create_invoice_graph repr document_id graph_structure)
    = invoice_node_query properties document_id
        :: entity_queries ++ relationship_queries
    /\ bind (subscript graph_structure "entities") iterate = Ok entities
    /\ match graph_structure with
       | PDict d => iterate (get d "relationships" (PList []))
       | _ => Raise (AttributeError "object has no attribute 'get'")
       end = Ok relationships
    /\ map node_id_of entity_queries
       = map (fun i => Some (PStr ("node_" ++ str_nat i))) (seq 0 (length entities))
    /\ length relationship_queries = length relationships.
Proof.
  unfold create_invoice_graph. intros Hok.
  apply sbind_lift_completes in Hok as (props & _ & Hok & ->).
  apply sbind_lift_completes in Hok as (doc_type & _ & Hok & ->).
  apply sbind_completes in Hok as ([] & _ & Hok & ->).
  apply sbind_lift_completes in Hok as (entities & Hentities & Hok & ->).
  apply sbind_completes in Hok as ([] & Hloop1 & Hok & ->).
  apply sbind_lift_completes in Hok as (rels & Hrels & Hloop2 & ->).
  exists props, entities, rels.
  rewrite (for_each_issued _ _ Hloop1), (for_each_issued _ _ Hloop2).
  match goal with
  | |- exists eq rq, _ ++ ?a ++ ?b = _ /\ _ => exists a, b
  end.
  split; [reflexivity |].
  split; [exact Hentities |]. split; [exact Hrels |]. split.
  - pose proof (for_each_completes _ _ Hloop1) as Hbodies.
    erewrite flat_map_singletons with
      (g := fun ix : nat * pyval =>
              Query (invoice_entity_cypher
                       (match bind (subscript (snd ix) "label") (fun label =>
                                match label with
                                | PStr s => Ok (sanitize s)
                                | _ => Raise (TypeError "expected string or bytes-like object")
                                end) with Ok l => l | Raise _ => "" end))
                    [("document_id", PStr document_id);
                     ("properties",
                      match subscript (snd ix) "properties" with
                      | Ok p => p | Raise _ => PNone end);
                     ("node_id", PStr ("node_" ++ str_nat (fst ix)))]).
    + rewrite map_map. unfold node_id_of. cbn [params lookup String.eqb].
      unfold enumerate.
      exact (map_enumerate_fst (fun i => Some (PStr ("node_" ++ str_nat i))) entities 0).
    + intros [idx entity] Hin. specialize (Hbodies _ Hin). cbn beta iota in Hbodies.
      apply sbind_lift_completes in Hbodies as (label & Hlabel & Hbodies & ->).
      apply sbind_lift_completes in Hbodies as (p & Hp & _ & ->).
      cbn [fst snd]. rewrite Hlabel, Hp. reflexivity.
  - pose proof (for_each_completes _ _ Hloop2) as Hbodies.
    rewrite (flat_map_constant_length) with (c := 1); [lia |].
    intros rel Hin. specialize (Hbodies _ Hin).
    apply sbind_lift_completes in Hbodies as (f & _ & Hbodies & ->).
    apply sbind_lift_completes in Hbodies as (t & _ & Hbodies & ->).
    apply sbind_lift_completes in Hbodies as (ty & _ & _ & ->).
    reflexivity.
Qed.
End CompletedIngestion.

Lemma NoDup_map_injective {X Y} (f : X -> Y) (xs : list X) :
  (forall a b, f a = f b -> a = b) -> NoDup xs -> NoDup (map f xs).
Proof.
  intros Hinj Hnodup. induction Hnodup as [| x r Hfresh _ IH]; simpl; constructor.
  - intros Hin. apply in_map_iff in Hin as (y & Hy & Hin).
    apply Hinj in Hy. subst y. contradiction.
  - exact IH.
Qed.

Lemma node_ids_distinct (n : nat) :
  NoDup (map (fun i => Some (PStr ("node_" ++ str_nat i))) (seq 0 n)).
Proof.
  apply NoDup_map_injective; [| apply seq_NoDup].
  intros a b H. injection H as H. apply str_nat_injective. exact H.
Qed.

Lemma length_characters (s : string) : length (characters s) = String.length s.
Proof. induction s as [| c r IH]; simpl; congruence. Qed.

Lemma iterate_py_len (v : pyval) (items : list pyval) :
  iterate v = Ok items -> py_len v = Ok (length items).
Proof.
  destruct v; simpl; intros H; try discriminate H; injection H as <-.
  - rewrite length_characters. reflexivity.
  - reflexivity.
  - rewrite length_map. reflexivity.
Qed.

Section CompletedIngestion2.
Variable json_loads : string -> result pyval.
Variable repr : pyval -> string.
Variable fitz_text : string -> result string.
Variable s3_client : option (string -> string -> result unit).

Lemma process_document_completed
    (input_data input_type file_uuid document_uuid : string)
    (completion : result string) (s3_key graph_structure : pyval) :
  outcome (process_document json_loads repr fitz_text s3_client
             input_data input_type file_uuid document_uuid completion)
  = Ok (PDict [("document_id", PStr document_uuid);
               ("s3_key", s3_key);
               ("graph_structure", graph_structure)]) ->
  issued (process_document json_loads repr fitz_text s3_client
            input_data input_type file_uuid document_uuid completion)
  = issued (create_invoice_graph repr document_uuid graph_structure)
  /\ outcome (create_invoice_graph repr document_uuid graph_structure) = Ok tt.
Proof.
  intros Hok.
  pose proof (process_document_log json_loads repr fitz_text s3_client
                input_data input_type file_uuid document_uuid completion) as Hlog.
  cbv zeta in Hlog.
  destruct Hlog as [[_ [m Hm]] | (gs & Hissued & [[m Hm] | (k & Hgraph & Hret)])];
    try (rewrite Hm in Hok; discriminate Hok).
  rewrite Hret in Hok. injection Hok as _ <-.
  split; assumption.
Qed.

(** Every outcome of [process_document] is a dict. *)
Lemma process_document_returns_dict
    (input_data input_type file_uuid document_uuid : string)
    (completion : result string) :
  (exists message,
      outcome (process_document json_loads repr fitz_text s3_client
                 input_data input_type file_uuid document_uuid completion)
      = Ok (PDict [("error", PStr message)]))
  \/ (exists s3_key graph_structure,
        outcome (process_document json_loads repr fitz_text s3_client
                   input_data input_type file_uuid document_uuid completion)
        = Ok (PDict [("document_id", PStr document_uuid);
                     ("s3_key", s3_key);
                     ("graph_structure", graph_structure)])).
Proof.
  pose proof (process_document_log json_loads repr fitz_text s3_client
                input_data input_type file_uuid document_uuid completion) as Hlog.
  cbv zeta in Hlog.
  destruct Hlog as [[_ Hm] | (gs & _ & [Hm | (k & _ & Hret)])];
    [left; exact Hm | left; exact Hm | right; exists k, gs; exact Hret].
Qed.

(** When [process_document] returns the dict of a completed ingestion, the
    queries it issued are, in this order: the creation of the Invoice node,
    one query per entity of the graph structure, one query per
    relationship; and the i-th entity query carries the node id [node_<i>],
    so that the node ids of a document are pairwise distinct. *)
Theorem completed_ingestion_node_ids
    (input_data input_type file_uuid document_uuid : string)
    (completion : result string) (s3_key graph_structure : pyval) :
  outcome (process_document json_loads repr fitz_text s3_client
             input_data input_type file_uuid document_uuid completion)
  = Ok (PDict [("document_id", PStr document_uuid);
               ("s3_key", s3_key);
               ("graph_structure", graph_structure)]) ->
  exists properties entities relationships entity_queries relationship_queries,
    issued (process_document json_loads repr fitz_text s3_client
              input_data input_type file_uuid document_uuid completion)
    = invoice_node_query properties document_uuid
        :: entity_queries ++ relationship_queries
    /\ bind (subscript graph_structure "entities") iterate = Ok entities
    /\ bind (dict_get graph_structure "relationships" (PList [])) iterate
       = Ok relationships
    /\ length entity_queries = length entities
    /\ length relationship_queries = length relationships
    /\ map node_id_of entity_queries
       = map (fun i => Some (PStr ("node_" ++ str_nat i))) (seq 0 (length entities))
    /\ NoDup (map node_id_of entity_queries).
Proof.
  intros Hok.
  destruct (process_document_completed _ _ _ _ _ _ _ Hok) as [-> Hgraph].
  destruct (create_invoice_graph_completed repr _ _ Hgraph)
    as (props & entities & rels & eqs & rqs & -> & Hents & Hrels & Hids & Hlen).
  exists props, entities, rels, eqs, rqs.
  split; [reflexivity |]. split; [exact Hents |]. split.
  { destruct graph_structure; try discriminate Hrels. exact Hrels. }
  split.
  { rewrite <- (length_map node_id_of), Hids, length_map, length_seq. reflexivity. }
  split; [exact Hlen |]. split; [exact Hids |].
  rewrite Hids. apply node_ids_distinct.
Qed.
End CompletedIngestion2.

Lemma completed_ingestion_node_ids_witness :
  exists properties entity_queries relationship_queries,
    issued (process_document (fun _ => Ok contract_structure) (fun _ => "")
              (fun _ => Ok "Contract between ACME and ...") None
              "/tmp/contract.pdf" "pdf" "uuid-1" "uuid-2" (Ok "{...}"))
    = invoice_node_query properties "uuid-2"
        :: entity_queries ++ relationship_queries
    /\ map node_id_of entity_queries
       = [Some (PStr "node_0"); Some (PStr "node_1")]
    /\ length relationship_queries = 1.
Proof.
  destruct (completed_ingestion_node_ids
              (fun _ => Ok contract_structure) (fun _ => "")
              (fun _ => Ok "Contract between ACME and ...") None
              "/tmp/contract.pdf" "pdf" "uuid-1" "uuid-2" (Ok "{...}")
              PNone contract_structure eq_refl)
    as (properties & entities & relationships & entity_queries
        & relationship_queries & Hlog & Hentities & Hrelationships
        & _ & Hlength & Hids & _).
  cbv in Hentities, Hrelationships.
  injection Hentities as <-. injection Hrelationships as <-.
  exists properties, entity_queries, relationship_queries.
  split; [exact Hlog |]. split; [exact Hids | exact Hlength].
Defined.

(** [upload_kag_pdf] either raises an [HTTPException] with status 500, or
    answers with status "success"; in that case the [entities_count] and
    [relationships_count] of the answer add up, with the one Invoice node,
    to the number of queries the ingestion issued. *)
Theorem upload_counts_match_queries
    (json_loads : string -> result pyval) (repr : pyval -> string)
    (str_http_exception : nat -> string -> string)
    (fitz_text : string -> result string)
    (s3_client : option (string -> string -> result unit))
    (saved : result string) (file_uuid document_uuid : string)
    (completion : result string) :
  let upload := KagRoutes.upload_kag_pdf json_loads repr str_http_exception
                  fitz_text s3_client saved file_uuid document_uuid completion in
  (exists detail, outcome upload = Ok (KagRoutes.HTTPException 500 detail))
  \/ (exists (n m : nat) (graph_structure : pyval),
        outcome upload
        = Ok (KagRoutes.Respond
                (PDict [("document_id", PStr document_uuid);
                        ("status", PStr "success");
                        ("message", PStr "Document processed successfully");
                        ("entities_count", PInt (Z.of_nat n));
                        ("relationships_count", PInt (Z.of_nat m));
                        ("graph_summary", graph_structure)]))
        /\ length (issued upload) = 1 + n + m).
Proof.
  cbv zeta. unfold KagRoutes.upload_kag_pdf.
  destruct saved as [temp_file_path | e]; [| left; eexists; reflexivity].
  unfold process_input. rewrite issued_pair. unfold outcome at 1 3. cbn [snd].
  destruct (process_document_returns_dict json_loads repr fitz_text s3_client
              temp_file_path "pdf" file_uuid document_uuid completion)
    as [[message Herror] | (s3_key & gs & Hok)].
  - rewrite Herror. left. eexists. reflexivity.
  - destruct (process_document_completed _ _ _ _ _ _ _ _ _ _ _ Hok) as [Hissued Hgraph].
    destruct (create_invoice_graph_completed repr _ _ Hgraph)
      as (props & entities & rels & eqs & rqs & Hlog & Hents & Hrels & Hids & Hlen).
    rewrite Hok, Hissued, Hlog.
    destruct gs as [| | | | | | d]; try discriminate Hrels.
    right. exists (length entities), (length rels), (PDict d). split.
    + unfold KagRoutes.upload_response. cbn [has_key lookup String.eqb Ascii.eqb Bool.eqb get].
      unfold KagRoutes.or_500, dict_get.
      simpl in Hents. unfold getitem in Hents. unfold get.
      destruct (lookup d "entities") as [ev |] eqn:Hev; [| discriminate Hents].
      simpl in Hents.
      cbn [bind getitem lookup String.eqb Ascii.eqb Bool.eqb].
      rewrite (iterate_py_len _ _ Hents). cbn [bind].
      unfold get in Hrels. rewrite (iterate_py_len _ _ Hrels). reflexivity.
    + simpl. rewrite length_app, Hlen.
      rewrite <- (length_map node_id_of eqs), Hids, length_map, length_seq.
      reflexivity.
Qed.


(** ** Projection by intent *)

Lemma is_str_eq (v : pyval) (s : string) : is_str v s = true <-> v = PStr s.
Proof.
  destruct v; simpl; split; intros H; try discriminate H.
  - apply String.eqb_eq in H. subst. reflexivity.
  - injection H as ->. apply String.eqb_refl.
Qed.

Lemma get_present (d : pydict) (k : string) (default : pyval) :
  has_key d k = true -> Some (get d k default) = lookup d k.
Proof. unfold has_key, get. destruct (lookup d k); [reflexivity | discriminate]. Qed.

Lemma lookup_missing (d : pydict) (k : string) :
  has_key d k = false -> lookup d k = None.
Proof. unfold has_key. destruct (lookup d k); [discriminate | reflexivity]. Qed.

Lemma lookup_add_field (result item : pydict) (field : pyval) (k : string) :
  lookup (KagRoutes.add_field result item field) k
  = if projectable k && is_str field k && has_key result k
    then lookup result k else lookup item k.
Proof.
  unfold KagRoutes.add_field.
  destruct field as [| b | z | f | s | l | d];
    try (cbn [is_str andb]; rewrite andb_false_r; reflexivity).
  cbn [is_str].
  destruct (String.eqb_spec s k) as [-> | Hne].
  - (* the field names [k] *)
    rewrite andb_true_r. unfold projectable.
    destruct (String.eqb_spec k "total_amount") as [-> | H1]; cbn [andb orb].
    { destruct (has_key result "total_amount") eqn:Hkey.
      - rewrite lookup_setitem_eq. apply get_present, Hkey.
      - reflexivity. }
    destruct (String.eqb_spec k "date") as [-> | H2]; cbn [andb orb].
    { destruct (has_key result "date") eqn:Hkey.
      - rewrite lookup_setitem_eq. apply get_present, Hkey.
      - reflexivity. }
    destruct (String.eqb_spec k "line_items") as [-> | H3]; cbn [andb orb].
    { destruct (has_key result "line_items") eqn:Hkey.
      - rewrite lookup_setitem_eq. apply get_present, Hkey.
      - reflexivity. }
    reflexivity.
  - (* another key is left as it was *)
    rewrite andb_false_r. cbn [andb].
    destruct ((s =? "total_amount") && has_key result "total_amount") eqn:H1.
    { apply andb_true_iff in H1 as [H1 _]. apply String.eqb_eq in H1. subst s.
      apply lookup_setitem_ne, Hne. }
    destruct ((s =? "date") && has_key result "date") eqn:H2.
    { apply andb_true_iff in H2 as [H2 _]. apply String.eqb_eq in H2. subst s.
      apply lookup_setitem_ne, Hne. }
    destruct ((s =? "line_items") && has_key result "line_items") eqn:H3.
    { apply andb_true_iff in H3 as [H3 _]. apply String.eqb_eq in H3. subst s.
      apply lookup_setitem_ne, Hne. }
    reflexivity.
Qed.

Lemma lookup_fold_add_field (result : pydict) (fields : list pyval)
    (item : pydict) (k : string) :
  lookup (fold_left (KagRoutes.add_field result) fields item) k
  = if projectable k && requested fields k && has_key result k
    then lookup result k else lookup item k.
Proof.
  revert item. induction fields as [| f r IH]; intros item; simpl.
  - rewrite andb_false_r. reflexivity.
  - rewrite IH, lookup_add_field. unfold requested at 2. cbn [existsb].
    fold (requested r k).
    destruct (projectable k), (is_str f k), (requested r k), (has_key result k);
      reflexivity.
Qed.

Lemma lookup_project (query_intent : pyval) (fields : list pyval)
    (result item : pydict) :
  bind (subscript query_intent "fields") iterate = Ok fields ->
  KagRoutes.project query_intent result = Ok item ->
  forall k,
    lookup item k
    = if k =? "invoice_number" then Some (get result "invoice_number" (PStr ""))
      else if projectable k && requested fields k then lookup result k
      else None.
Proof.
  unfold KagRoutes.project. intros -> Hitem k. cbn [bind] in Hitem.
  injection Hitem as <-.
  rewrite lookup_fold_add_field. cbn [lookup].
  destruct (String.eqb_spec k "invoice_number") as [-> | Hne].
  - reflexivity.
  - rewrite (String.eqb_sym "invoice_number" k).
    apply String.eqb_neq in Hne. rewrite Hne.
    destruct (projectable k && requested fields k); [| reflexivity].
    cbn [andb]. destruct (has_key result k) eqn:Hkey; [reflexivity |].
    symmetry. apply lookup_missing, Hkey.
Qed.

(** The item [simplified_query_kag] keeps of a search result, for an intent
    whose [fields] can be iterated: it always carries [invoice_number] (the
    empty string when the result has none); it carries [total_amount],
    [date] or [line_items] exactly when the intent asks for the field and
    the result has it, with the result's value; and it carries no other
    key, whatever else the intent names. *)
Theorem projection_keeps_requested_fields (query_intent : pyval)
    (fields : list pyval) (result : pydict) :
  bind (subscript query_intent "fields") iterate = Ok fields ->
  exists item,
    KagRoutes.project query_intent result = Ok item
    /\ lookup item "invoice_number" = Some (get result "invoice_number" (PStr ""))
    /\ (forall k, In k ["total_amount"; "date"; "line_items"] ->
          lookup item k = if requested fields k then lookup result k else None)
    /\ (forall k, ~ In k ["invoice_number"; "total_amount"; "date"; "line_items"] ->
          lookup item k = None).
Proof.
  intros Hfields.
  assert (Hitem : exists item, KagRoutes.project query_intent result = Ok item).
  { unfold KagRoutes.project. rewrite Hfields. eexists. reflexivity. }
  destruct Hitem as [item Hitem]. exists item.
  pose proof (lookup_project _ _ _ _ Hfields Hitem) as Hlookup.
  split; [exact Hitem |]. split; [apply Hlookup |]. split.
  - intros k Hk. rewrite Hlookup.
    destruct Hk as [<- | [<- | [<- | []]]]; reflexivity.
  - intros k Hk. rewrite Hlookup.
    destruct (String.eqb_spec k "invoice_number") as [-> | _].
    { contradiction Hk. left. reflexivity. }
    unfold projectable.
    destruct (String.eqb_spec k "total_amount") as [-> | _].
    { contradiction Hk. right. left. reflexivity. }
    destruct (String.eqb_spec k "date") as [-> | _].
    { contradiction Hk. right. right. left. reflexivity. }
    destruct (String.eqb_spec k "line_items") as [-> | _].
    { contradiction Hk. right. right. right. left. reflexivity. }
    reflexivity.
Qed.

Lemma projection_keeps_requested_fields_witness :
  exists item,
    KagRoutes.project (intent "price" ["total_amount"; "s3_key"]) priced_invoice
    = Ok item
    /\ lookup item "invoice_number" = Some (PStr "INV-100")
    /\ lookup item "total_amount" = Some (PStr "$10.00")
    /\ lookup item "date" = None
    /\ lookup item "s3_key" = None.
Proof.
  destruct (projection_keeps_requested_fields
              (intent "price" ["total_amount"; "s3_key"])
              [PStr "total_amount"; PStr "s3_key"] priced_invoice eq_refl)
    as (item & Hitem & Hnumber & Hfields & Hothers).
  exists item. split; [exact Hitem |]. split; [exact Hnumber |]. split.
  - apply (Hfields "total_amount"). left. reflexivity.
  - split.
    + apply (Hfields "date"). right. left. reflexivity.
    + apply Hothers. cbn. intuition discriminate.
Defined.

(** ** The structured answer *)

Lemma map_result_Forall2 {X Y} (body : X -> result Y) (xs : list X) (ys : list Y) :
  map_result body xs = Ok ys -> Forall2 (fun x y => body x = Ok y) xs ys.
Proof.
  revert ys. induction xs as [| x r IH]; intros ys H; simpl in H.
  - injection H as <-. constructor.
  - destruct (body x) as [y |] eqn:Hx; [| discriminate H]. simpl in H.
    destruct (map_result body r) as [ys' |]; [| discriminate H]. simpl in H.
    injection H as <-. constructor; [exact Hx | apply IH; reflexivity].
Qed.

Lemma project_invoice_number (query_intent : pyval) (result item : pydict) :
  KagRoutes.project query_intent result = Ok item ->
  lookup item "invoice_number" = Some (KagRoutes.invoice_number_of result).
Proof.
  intros Hitem.
  destruct (bind (subscript query_intent "fields") iterate) as [fields |] eqn:Hf.
  - rewrite (lookup_project _ _ _ _ Hf Hitem). reflexivity.
  - unfold KagRoutes.project in Hitem. rewrite Hf in Hitem. discriminate Hitem.
Qed.

(** When [simplified_query_kag] answers with the structured response, the
    search succeeded, the response echoes the query of the request, and its
    results are the search results one for one and in order: as many
    items, the i-th carrying the invoice number of the i-th result. *)
Theorem structured_answer_has_one_item_per_result
    (json_loads : string -> result pyval) (repr : pyval -> string)
    (store : Type) (execute : store -> graph_query -> result (list pydict))
    (graph : store) (intent_completion : result string)
    (request : KagRoutes.KagQueryRequest) (answer : KagRoutes.simplified_response) :
  KagRoutes.simplified_query_kag json_loads repr store execute graph
    intent_completion request
  = KagRoutes.Respond (KagRoutes.Structured answer) ->
  exists found,
    search store execute graph (KagRoutes.query request)
           (KagRoutes.document_type request) = Ok found
    /\ KagRoutes.query_text answer = KagRoutes.query request
    /\ length (KagRoutes.results answer) = length found
    /\ Forall2 (fun result item =>
                  lookup item "invoice_number"
                  = Some (KagRoutes.invoice_number_of result))
               found (KagRoutes.results answer).
Proof.
  unfold KagRoutes.simplified_query_kag, KagRoutes.or_500.
  destruct (search store execute graph (KagRoutes.query request)
                   (KagRoutes.document_type request)) as [found | e];
    [| discriminate].
  cbn [bind].
  destruct (analyze_query_intent json_loads intent_completion
              (KagRoutes.query request)) as [query_intent | e]; [| discriminate].
  cbn [bind]. unfold KagRoutes.simplify.
  destruct (subscript query_intent "type") as [type |]; [| discriminate].
  cbn [bind].
  destruct (map_result (KagRoutes.project query_intent) found) as [items |] eqn:Hitems;
    [| discriminate].
  cbn [bind].
  intros H. exists found. split; [reflexivity |].
  assert (Hanswer : answer = {| KagRoutes.query_text := KagRoutes.query request;
                                KagRoutes.query_type := type;
                                KagRoutes.results := items |}).
  { destruct (KagRoutes.format_as_text request) as [[] |].
    - destruct (KagRoutes.generate_text_response repr _); discriminate H.
    - injection H as <-. reflexivity.
    - injection H as <-. reflexivity. }
  subst answer. cbn.
  apply map_result_Forall2 in Hitems.
  split; [reflexivity |]. split.
  - symmetry. eapply Forall2_length. exact Hitems.
  - eapply Forall2_impl; [| exact Hitems].
    intros result item Hp. cbn beta in Hp. eapply project_invoice_number. exact Hp.
Qed.

Lemma structured_answer_has_one_item_per_result_witness :
  exists answer,
    KagRoutes.simplified_query_kag rejects_all (fun _ => "") unit
      finds_matched_invoices tt service_unavailable price_request
    = KagRoutes.Respond (KagRoutes.Structured answer)
    /\ length (KagRoutes.results answer) = length matched_invoices.
Proof.
  eexists. split; [reflexivity |].
  destruct (structured_answer_has_one_item_per_result rejects_all (fun _ => "")
              unit finds_matched_invoices tt service_unavailable price_request
              _ eq_refl) as (found & Hfound & _ & Hlength & _).
  injection Hfound as <-. exact Hlength.
Defined.

(** ** Repeated results and the rendered text *)

Lemma deduplicate_repeated (xs earlier : list pydict) (seen : list pyval)
    (unique : list pydict) (r : pydict) :
  remembers seen earlier ->
  hashable (KagRoutes.invoice_number_of r) = true ->
  existsb (fun e => same_invoice e r) (earlier ++ xs) = true ->
  KagRoutes.deduplicate (xs ++ [r]) seen unique
  = KagRoutes.deduplicate xs seen unique.
Proof.
  revert earlier seen unique.
  induction xs as [| x xs IH]; intros earlier seen unique Hinv Hhash Hrep.
  - rewrite app_nil_r in Hrep. cbn [app KagRoutes.deduplicate].
    rewrite Hhash, (Hinv (KagRoutes.invoice_number_of r)).
    assert (Hseen : existsb (fun e => py_eqb (KagRoutes.invoice_number_of r)
                                             (KagRoutes.invoice_number_of e)) earlier
                    = true).
    { rewrite <- Hrep. clear. induction earlier as [| e l IH]; simpl; [reflexivity |].
      unfold same_invoice at 1. rewrite py_eqb_sym, IH. reflexivity. }
    rewrite Hseen. reflexivity.
  - cbn [app KagRoutes.deduplicate].
    destruct (hashable (KagRoutes.invoice_number_of x)); [| reflexivity].
    assert (Hshift : earlier ++ x :: xs = (earlier ++ [x]) ++ xs)
      by (rewrite <- app_assoc; reflexivity).
    rewrite Hshift in Hrep.
    destruct (existsb (py_eqb (KagRoutes.invoice_number_of x)) seen) eqn:Hseen;
      cbn [negb].
    + apply (IH (earlier ++ [x])); try assumption.
      apply remembers_known; assumption.
    + apply (IH (earlier ++ [x])); try assumption.
      apply remembers_new; assumption.
Qed.

(** A result whose invoice number already occurs among the results before
    it changes nothing of the text [generate_text_response] renders: the
    text is that of the results without it, whatever the query type and
    whatever else the repeated result carries. *)
Theorem repeated_result_changes_no_text (repr : pyval -> string)
    (query_text : string) (query_type : pyval)
    (results : list pydict) (repeated : pydict) :
  hashable (KagRoutes.invoice_number_of repeated) = true ->
  existsb (fun earlier => same_invoice earlier repeated) results = true ->
  KagRoutes.generate_text_response repr
    {| KagRoutes.query_text := query_text; KagRoutes.query_type := query_type;
       KagRoutes.results := results ++ [repeated] |}
  = KagRoutes.generate_text_response repr
      {| KagRoutes.query_text := query_text; KagRoutes.query_type := query_type;
         KagRoutes.results := results |}.
Proof.
  intros Hhash Hrep. unfold KagRoutes.generate_text_response. cbn [KagRoutes.results
    KagRoutes.query_type].
  destruct results as [| first rest]; [discriminate Hrep |].
  cbn [app]. unfold KagRoutes.unique_results.
  change (first :: rest ++ [repeated]) with ((first :: rest) ++ [repeated]).
  rewrite (deduplicate_repeated (first :: rest) [] [] [] repeated);
    [reflexivity | intros k; reflexivity | exact Hhash | exact Hrep].
Qed.

Lemma repeated_result_changes_no_text_witness :
  KagRoutes.generate_text_response (fun _ => "")
    {| KagRoutes.query_text := "How much does it cost?";
       KagRoutes.query_type := PStr "price";
       KagRoutes.results :=
         [priced_invoice]
           ++ [[("invoice_number", PStr "INV-100"); ("total_amount", PStr "$99.00")]] |}
  = Ok "Invoice INV-100 has a total amount of $10.00.".
Proof.
  apply (eq_trans
           (repeated_result_changes_no_text (fun _ => "") "How much does it cost?"
              (PStr "price") [priced_invoice]
              [("invoice_number", PStr "INV-100"); ("total_amount", PStr "$99.00")]
              eq_refl eq_refl)).
  reflexivity.
Defined.

(** ** Looking a document up *)

(** [get_kag_document] and the status of its error: when the store has no
    record of the document the route raises 404 with the detail
    "Document not found: Document <id> not found"; when the lookup raises,
    it raises 500 with the text of the exception; it raises no other
    status; and a 404 means that the store had no record, or a record with
    a column named [error]. *)
Theorem document_lookup_status (repr : pyval -> string) (store : Type)
    (single : store -> graph_query -> result (option pydict))
    (graph : store) (document_id : string) :
  let answer := KagRoutes.get_kag_document repr store single graph document_id in
  (single graph (get_document_query document_id) = Ok None ->
   answer = KagRoutes.HTTPException 404
              ("Document not found: Document " ++ document_id ++ " not found"))
  /\ (forall e, single graph (get_document_query document_id) = Raise e ->
        answer = KagRoutes.HTTPException 500
                   ("Error retrieving document: " ++ str_exn e))
  /\ (forall status detail, answer = KagRoutes.HTTPException status detail ->
        status = 404 \/ status = 500)
  /\ (forall detail, answer = KagRoutes.HTTPException 404 detail ->
        single graph (get_document_query document_id) = Ok None
        \/ exists record, single graph (get_document_query document_id) = Ok (Some record)
                          /\ has_key record "error" = true).
Proof.
  cbv zeta. unfold KagRoutes.get_kag_document, get_document.
  destruct (single graph (get_document_query document_id)) as [[record |] | e];
    cbn [bind].
  - split; [discriminate |]. split; [discriminate |].
    destruct (has_key record "error") eqn:Hkey.
    + split.
      * intros status detail H. injection H as <- _. left. reflexivity.
      * intros detail _. right. exists record. split; reflexivity || exact Hkey.
    + unfold KagRoutes.or_500.
      destruct (bind (bind (iterate (get record "line_items" (PList [])))
                           KagRoutes.line_item_entities) _) as [v | e].
      * split; discriminate.
      * split.
        -- intros status detail H. injection H as <- _. right. reflexivity.
        -- discriminate.
  - split; [intros _; reflexivity |]. split; [discriminate |]. split.
    + intros status detail H. cbn in H. injection H as <- _. left. reflexivity.
    + intros detail _. left. reflexivity.
  - split; [discriminate |]. split.
    + intros e' H. injection H as <-. reflexivity.
    + split.
      * intros status detail H. injection H as <- _. right. reflexivity.
      * discriminate.
Qed.

Lemma line_item_entities_from (items : list pyval) (k : nat) (acc : list pydict) :
  Forall (fun item => is_object item = true) items ->
  exists entities,
    fold_result (fun entities '(idx, item) =>
                   if truthy item then
                     bind (dict_get item "description"
                                    (PStr ("Item " ++ str_nat idx))) (fun name =>
                     Ok (entities ++ [[("id", PStr ("item_" ++ str_nat idx));
                                       ("type", PStr "LineItem");
                                       ("name", name);
                                       ("properties", item)]]))
                   else Ok entities)
                (combine (seq k (length items)) items) acc
    = Ok (acc ++ entities)
    /\ map (fun e => lookup e "id") entities
       = map (fun ix : nat * pyval => Some (PStr ("item_" ++ str_nat (fst ix))))
             (filter (fun ix => truthy (snd ix)) (combine (seq k (length items)) items))
    /\ map (fun e => lookup e "properties") entities
       = map Some (filter truthy items).
Proof.
  intros Hdicts. revert k acc.
  induction Hdicts as [| item items Hitem _ IH]; intros k acc.
  - exists []. cbn. rewrite app_nil_r. repeat split.
  - cbn [length seq combine fold_result filter snd fst].
    destruct item as [| | | | | | d]; try discriminate Hitem.
    destruct (truthy (PDict d)) eqn:Htruthy.
    + cbn [dict_get bind].
      destruct (IH (S k) (acc ++ [[("id", PStr ("item_" ++ str_nat k));
                                   ("type", PStr "LineItem");
                                   ("name", get d "description"
                                              (PStr ("Item " ++ str_nat k)));
                                   ("properties", PDict d)]]))
        as (entities & Hfold & Hids & Hprops).
      exists ([("id", PStr ("item_" ++ str_nat k)); ("type", PStr "LineItem");
               ("name", get d "description" (PStr ("Item " ++ str_nat k)));
               ("properties", PDict d)] :: entities).
      split; [| split].
      * rewrite <- app_assoc in Hfold. exact Hfold.
      * cbn [map lookup String.eqb Ascii.eqb Bool.eqb fst]. rewrite Hids. reflexivity.
      * cbn [map lookup String.eqb Ascii.eqb Bool.eqb]. rewrite Hprops. reflexivity.
    + cbn [bind]. apply IH.
Qed.

Lemma filter_enumerate_NoDup {X} (p : nat * X -> bool) (xs : list X) (k : nat) :
  NoDup (map fst (filter p (combine (seq k (length xs)) xs))).
Proof.
  assert (H : NoDup (map fst (combine (seq k (length xs)) xs))).
  { replace (map fst (combine (seq k (length xs)) xs)) with (seq k (length xs)).
    - apply seq_NoDup.
    - revert k. induction xs as [| x r IH]; intros k; simpl; [reflexivity |].
      rewrite <- IH. reflexivity. }
  revert H. generalize (combine (seq k (length xs)) xs) as l.
  induction l as [| a l IH]; simpl; intros H; [constructor |].
  inversion H as [| ? ? Hfresh Hrest]; subst.
  destruct (p a); simpl; [constructor |]; try (apply IH; exact Hrest).
  intros Hin. apply Hfresh.
  apply in_map_iff in Hin as (b & Hb & Hin). apply filter_In in Hin as [Hin _].
  apply in_map_iff. exists b. split; assumption.
Qed.

(** The entities [get_kag_document] makes of line items that are objects:
    one per non-empty item, in order, with the item as its properties; the
    id of an entity is [item_<i>] for the position [i] of its item among
    all line items, the empty ones counted, so that ids are pairwise
    distinct. *)
Theorem line_item_entity_ids (line_items : list pyval) :
  Forall (fun item => is_object item = true) line_items ->
  exists entities,
    KagRoutes.line_item_entities line_items = Ok entities
    /\ map (fun e => lookup e "properties") entities
       = map Some (filter truthy line_items)
    /\ map (fun e => lookup e "id") entities
       = map (fun ix : nat * pyval => Some (PStr ("item_" ++ str_nat (fst ix))))
             (filter (fun ix => truthy (snd ix)) (enumerate line_items))
    /\ NoDup (map (fun e => lookup e "id") entities).
Proof.
  intros Hdicts.
  destruct (line_item_entities_from line_items 0 [] Hdicts)
    as (entities & Hfold & Hids & Hprops).
  exists entities. unfold KagRoutes.line_item_entities, enumerate.
  split; [exact Hfold |]. split; [exact Hprops |]. split; [exact Hids |].
  rewrite Hids.
  rewrite <- (map_map fst (fun i => Some (PStr ("item_" ++ str_nat i)))).
  apply NoDup_map_injective; [| apply filter_enumerate_NoDup].
  intros a b H. injection H as H. apply str_nat_injective. exact H.
Qed.

Lemma line_item_entity_ids_witness :
  exists entities,
    KagRoutes.line_item_entities line_items_with_gap = Ok entities
    /\ map (fun e => lookup e "id") entities
       = [Some (PStr "item_0"); Some (PStr "item_2")].
Proof.
  destruct (line_item_entity_ids line_items_with_gap) as (entities & Hok & _ & Hids & _).
  { repeat constructor. }
  exists entities. split; [exact Hok | exact Hids].
Defined.

(** ** Semantic search on the model's answer *)


Section DynamicSearch.

Variable json_loads : string -> result pyval.
Variable repr : pyval -> string.

Lemma string_append_assoc (a b c : string) :
  ((a ++ b) ++ c = a ++ b ++ c)%string.
Proof.
  induction a as [| x a IH]; simpl; [reflexivity |]. rewrite IH. reflexivity.
Qed.

Lemma fold_left_entity_texts (g : nat -> string -> string) (xs : list string) :
  forall k acc,
    fold_left (fun parts '(i, entity_type) =>
                 parts ++ [g i (format_value repr entity_type)])
              (combine (seq k (length (map PStr xs))) (map PStr xs)) acc
    = fold_left (fun parts '(i, entity_type) => parts ++ [g i entity_type])
                (combine (seq k (length xs)) xs) acc.
Proof.
  induction xs as [| x r IH]; intros k acc; simpl; [reflexivity |].
  apply IH.
Qed.

Lemma fold_result_attribute_objects (attrs : list attribute_condition) :
  forall acc,
    fold_result (add_attribute_condition repr) (map attribute_object attrs) acc
    = Ok (fold_left add_condition attrs acc).
Proof.
  induction attrs as [| a r IH]; intros acc; [reflexivity |].
  cbn [map fold_result fold_left].
  replace (add_attribute_condition repr acc (attribute_object a))
    with (Ok (add_condition acc a)); [apply IH |].
  unfold add_attribute_condition, add_condition, attribute_object.
  cbn [subscript getitem lookup String.eqb Ascii.eqb Bool.eqb bind
       format_value is_str].
  rewrite !string_append_assoc. reflexivity.
Qed.

Lemma fold_result_relationship_objects (rels : list traversal) :
  forall parts,
    fold_result (add_traversal repr) (map relationship_object rels) parts
    = Ok (fold_left (fun parts rel =>
                       parts ++ [("MATCH (" ++ from_type rel ++ ")-[:"
                                    ++ replace " " "_" (upper (rel_type rel))
                                    ++ "]->(" ++ to_type rel ++ ")")%string])
                    rels parts).
Proof.
  induction rels as [| a r IH]; intros parts; [reflexivity |].
  cbn [map fold_result fold_left]. cbn [add_traversal relationship_object].
  unfold add_traversal, relationship_object. cbn. apply IH.
Qed.

(** On a model answer that is well formed (an object whose entity types
    are texts, whose attribute conditions and relationships are objects of
    texts with all their keys) the query building of
    [semantic_search_graph] raises nothing, and the query is the one the
    typed search specification compiles to. *)
Theorem well_formed_search_compiles (search : search_params)
    (document_type : option string) :
  semantic_search_cypher repr (search_object search) document_type
  = Ok (cypher_query search document_type).
Proof.
  unfold semantic_search_cypher, search_object, cypher_query, cypher_parts, enumerate.
  cbn [dict_get get lookup String.eqb Ascii.eqb Bool.eqb bind iterate].
  rewrite fold_result_attribute_objects. cbn [bind].
  rewrite fold_result_relationship_objects. cbn [bind].
  rewrite (fold_left_entity_texts
             (fun i t => ("MATCH (d)-[:CONTAINS]->(" ++ ("e" ++ str_nat i) ++ ":"
                            ++ t ++ ")")%string)).
  rewrite (fold_left_entity_texts
             (fun i t => (("e" ++ str_nat i) ++ " as " ++ t)%string)).
  reflexivity.
Qed.


Variable store : Type.
Variable execute : store -> graph_query -> result (list pydict).

(** When the chat-completion call fails, or its text is not JSON,
    [semantic_search_graph] still queries the store: with the query that
    matches every Document, filtered by the document type when one is
    given, and that returns the id and type of each; the search text plays
    no part in it. *)
Theorem search_without_model_reads_all_documents (graph : store)
    (completion : result string) (query : string)
    (document_type : option string) :
  model_failure json_loads completion ->
  semantic_search_graph json_loads repr store execute graph completion query
                        document_type
  = execute graph
      (Query (join " " (["MATCH (d:Document)"]
                          ++ type_filter document_type
                          ++ ["RETURN d.id as document_id, d.type as document_type"]))
             []).
Proof.
  intros [[e ->] | (content & e & -> & Hparse)];
    unfold semantic_search_graph; cbn [bind]; try rewrite Hparse;
    (destruct document_type as [t |]; [destruct (t =? "") eqn:Ht |];
     unfold semantic_search_cypher, empty_search_params, type_filter;
     try rewrite Ht; reflexivity).
Qed.

(** The [try] of [semantic_search_graph] covers the model call and the
    parsing only: an answer that parses as JSON but is not an object (a
    list, a text, a number, [null]) makes the search raise. *)
Theorem search_answer_must_be_an_object (graph : store)
    (content query : string) (answer : pyval) (document_type : option string) :
  json_loads content = Ok answer ->
  is_object answer = false ->
  exists e,
    semantic_search_graph json_loads repr store execute graph (Ok content) query
                          document_type
    = Raise e.
Proof.
  intros Hparse Hshape. unfold semantic_search_graph. cbn [bind]. rewrite Hparse.
  unfold semantic_search_cypher.
  destruct answer; try discriminate Hshape; cbn [dict_get bind]; eexists; reflexivity.
Qed.

Lemma fold_result_raises {X S} (body : S -> X -> result S) (xs : list X) (x : X) :
  (forall s, exists e, body s x = Raise e) ->
  In x xs ->
  forall s, exists e, fold_result body xs s = Raise e.
Proof.
  intros Hraise. induction xs as [| y r IH]; intros Hin s; [destruct Hin |].
  cbn [fold_result]. destruct Hin as [-> | Hin].
  - destruct (Hraise s) as [e ->]. exists e. reflexivity.
  - destruct (body s y) as [s' | e]; cbn [bind]; [apply (IH Hin) | eexists; reflexivity].
Qed.

Lemma bind_raises {A B} (m : result A) (k : A -> result B) :
  (forall a, m = Ok a -> exists e, k a = Raise e) ->
  exists e, bind m k = Raise e.
Proof.
  intros H. destruct m as [a | e]; cbn [bind]; [apply H; reflexivity |].
  eexists; reflexivity.
Qed.

(** The four keys of an attribute condition are read before its condition
    is looked at: a condition object that lacks [entity], [attribute],
    [condition] or [value] makes the query building raise, also when its
    condition is none of the four the code knows. *)
Theorem incomplete_attribute_condition_raises
    (search_params attr : pydict) (attributes : list pyval) (key : string)
    (document_type : option string) :
  get search_params "attributes" (PList []) = PList attributes ->
  In (PDict attr) attributes ->
  In key ["entity"; "attribute"; "condition"; "value"] ->
  lookup attr key = None ->
  exists e, semantic_search_cypher repr (PDict search_params) document_type = Raise e.
Proof.
  intros Hattrs Hin Hkey Hmissing. unfold semantic_search_cypher.
  cbn [dict_get]. apply bind_raises. intros entity_types _.
  rewrite Hattrs. cbn [bind iterate]. apply bind_raises. intros conditions Hfold.
  destruct (fold_result_raises (add_attribute_condition repr) attributes (PDict attr))
    with (s := @nil string) as [e He]; [| exact Hin | congruence].
  intros s. unfold add_attribute_condition. cbn [subscript]. unfold getitem.
  cbn [In] in Hkey.
  destruct Hkey as [<- | [<- | [<- | [<- | []]]]]; rewrite Hmissing;
    repeat (cbn [bind];
            first [eexists; reflexivity | apply bind_raises; intros ? _]).
Qed.

Lemma fold_result_traversals (rels : list pyval) :
  forall parts parts',
    fold_result (add_traversal repr) rels parts = Ok parts' ->
    exists clauses, parts' = parts ++ clauses.
Proof.
  induction rels as [| rel r IH]; intros parts parts' H.
  - injection H as <-. exists []. rewrite app_nil_r. reflexivity.
  - cbn [fold_result] in H.
    destruct (add_traversal repr parts rel) as [next |] eqn:Hstep; [| discriminate H].
    cbn [bind] in H. destruct (IH _ _ H) as [clauses ->].
    unfold add_traversal in Hstep.
    destruct (subscript rel "from"); [| discriminate Hstep].
    destruct (subscript rel "to"); [| discriminate Hstep].
    destruct (bind (subscript rel "type") _); [| discriminate Hstep].
    cbn [bind] in Hstep. injection Hstep as <-.
    eexists. rewrite <- app_assoc. reflexivity.
Qed.

Lemma join_three (sep a b c : string) (rest : list string) :
  join sep (a :: b :: c :: rest)
  = (a ++ sep ++ b ++ sep ++ join sep (c :: rest))%string.
Proof. reflexivity. Qed.

Lemma fold_left_entities_extend (g : nat -> pyval -> string) (xs : list (nat * pyval)) :
  forall acc,
    exists clauses,
      fold_left (fun parts '(i, entity_type) => parts ++ [g i entity_type]) xs acc
      = acc ++ clauses.
Proof.
  induction xs as [| [i x] r IH]; intros acc.
  - exists []. rewrite app_nil_r. reflexivity.
  - cbn [fold_left]. destruct (IH (acc ++ [g i x])) as [clauses ->].
    eexists. rewrite <- app_assoc. reflexivity.
Qed.

(** A non-empty document type is put into the text of the search query as
    it is, between single quotes, right after the Document match: whatever
    the model answered, a query that was built starts with
    [MATCH (d:Document) WHERE d.type = '<document_type>' ]. *)
Theorem search_filter_is_spliced_verbatim (search_params : pyval)
    (document_type cypher_query : string) :
  document_type <> "" ->
  semantic_search_cypher repr search_params (Some document_type) = Ok cypher_query ->
  exists rest,
    cypher_query
    = ("MATCH (d:Document) WHERE d.type = '" ++ document_type ++ "' " ++ rest)%string.
Proof.
  intros Hset H. apply String.eqb_neq in Hset.
  unfold semantic_search_cypher in H. rewrite Hset in H.
  destruct (bind (dict_get search_params "entity_types" (PList [])) iterate)
    as [entity_types |]; [| discriminate H].
  cbn [bind] in H.
  destruct (bind (dict_get search_params "attributes" (PList [])) iterate)
    as [attributes |]; [| discriminate H].
  cbn [bind] in H.
  destruct (fold_result (add_attribute_condition repr) attributes [])
    as [where_conditions |]; [| discriminate H].
  cbn [bind] in H.
  destruct (bind (dict_get search_params "relationships" (PList [])) iterate)
    as [relationships |]; [| discriminate H].
  cbn [bind] in H.
  match type of H with
  | bind (fold_result _ _ ?parts) _ = _ =>
      destruct (fold_result (add_traversal repr) relationships parts)
        as [final |] eqn:Hrels; [| discriminate H]
  end.
  cbn [bind] in H. injection H as <-.
  apply fold_result_traversals in Hrels as [traversals ->].
  match goal with
  | |- context [fold_left ?step (enumerate entity_types) ?acc] =>
      destruct (fold_left_entities_extend
                  (fun i t => ("MATCH (d)-[:CONTAINS]->(" ++ ("e" ++ str_nat i) ++ ":"
                                 ++ format_value repr t ++ ")")%string)
                  (enumerate entity_types) acc) as [matches Hmatches]
  end.
  cbv zeta in Hmatches |- *. rewrite Hmatches.
  match goal with
  | |- context [join " " (?parts ++ [?ret])] =>
      assert (Hshape : exists more,
                 parts ++ [ret]
                 = "MATCH (d:Document)"
                     :: ("WHERE d.type = '" ++ document_type ++ "'")%string
                     :: ret :: more
                 \/ exists clause,
                     parts ++ [ret]
                     = "MATCH (d:Document)"
                         :: ("WHERE d.type = '" ++ document_type ++ "'")%string
                         :: clause :: more)
  end.
  { cbn [app]. destruct where_conditions as [| c cs].
    - destruct matches as [| m ms]; cbn [app].
      + destruct traversals as [| t ts]; cbn [app].
        * exists []. left. reflexivity.
        * eexists. right. eexists. reflexivity.
      + eexists. right. eexists. reflexivity.
    - destruct matches as [| m ms]; cbn [app].
      + eexists. right. eexists. reflexivity.
      + eexists. right. eexists. reflexivity. }
  destruct Hshape as [more [-> | [clause ->]]];
    eexists; rewrite join_three, !string_append_assoc; reflexivity.
Qed.

End DynamicSearch.

Lemma search_without_model_reads_all_documents_witness :
  semantic_search_graph rejects_all (fun _ => "") unit echo_query tt
                        service_unavailable "invoices above 100 USD" (Some "invoice")
  = Ok [[("cypher",
          PStr ("MATCH (d:Document) WHERE d.type = 'invoice' "
                  ++ "RETURN d.id as document_id, d.type as document_type"))]].
Proof.
  apply (eq_trans
           (search_without_model_reads_all_documents rejects_all (fun _ => "") unit
              echo_query tt service_unavailable "invoices above 100 USD"
              (Some "invoice")
              (or_introl (ex_intro _ (Exception "APIConnectionError" "Connection error.")
                                   eq_refl)))).
  reflexivity.
Defined.

Lemma search_answer_must_be_an_object_witness :
  exists e,
    semantic_search_graph (fun _ => Ok (PList [])) (fun _ => "") unit echo_query tt
                          (Ok "[]") "invoices above 100 USD" None
    = Raise e.
Proof.
  apply (search_answer_must_be_an_object (fun _ => Ok (PList [])) (fun _ => "")
           unit echo_query tt "[]" "invoices above 100 USD" (PList []) None
           eq_refl eq_refl).
Defined.

Lemma incomplete_attribute_condition_raises_witness :
  exists e,
    semantic_search_cypher (fun _ => "")
      (PDict [("entity_types", PList [PStr "Invoice"]);
              ("attributes", PList [PDict incomplete_condition])])
      None
    = Raise e.
Proof.
  apply (incomplete_attribute_condition_raises (fun _ => "")
           [("entity_types", PList [PStr "Invoice"]);
            ("attributes", PList [PDict incomplete_condition])]
           incomplete_condition [PDict incomplete_condition] "value" None).
  - reflexivity.
  - left. reflexivity.
  - do 3 right. left. reflexivity.
  - reflexivity.
Defined.

Lemma search_filter_is_spliced_verbatim_witness :
  exists rest,
    "MATCH (d:Document) WHERE d.type = 'invoice' OR '1'='1' RETURN d.id as document_id, d.type as document_type"%string
    = ("MATCH (d:Document) WHERE d.type = '" ++ quoted_filter ++ "' " ++ rest)%string.
Proof.
  apply (search_filter_is_spliced_verbatim (fun _ => "") empty_search_params
           quoted_filter).
  - discriminate.
  - reflexivity.
Defined.

(** ** Structured extraction *)

Section StructuredExtraction.

Variable json_loads : string -> result pyval.
Variable repr : pyval -> string.

(** Once its prompt is built, [extract_structured_information] raises
    nothing and returns an object whose [document_type] is the one of the
    schema ([unknown] when the schema has none): either the object the
    model answered, with that key set, or, when the call failed or the
    answer is no JSON object, the object of the type and the error
    message. *)
Theorem extraction_returns_schema_type (text : string) (document_schema : pydict)
    (completion : result string) (prompt : string) :
  extraction_prompt repr text document_schema = Ok prompt ->
  let schema_type := get document_schema "document_type" (PStr "unknown") in
  exists extracted_data,
    extract_structured_information json_loads repr text document_schema completion
    = Ok (PDict extracted_data)
    /\ lookup extracted_data "document_type" = Some schema_type
    /\ ((exists content answer,
            completion = Ok content /\ json_loads content = Ok (PDict answer)
            /\ extracted_data = setitem answer "document_type" schema_type)
        \/ (exists e,
              extracted_data = [("document_type", schema_type);
                                ("error", PStr (str_exn e))])).
Proof.
  intros Hprompt. cbv zeta. unfold extract_structured_information.
  rewrite Hprompt. cbn [bind].
  destruct completion as [content | e]; cbn [bind try_except].
  - destruct (json_loads content) as [answer | e] eqn:Hparse; cbn [bind try_except].
    + destruct answer as [| | | | | | answer];
        try (eexists; split; [reflexivity |]; split; [reflexivity |];
             right; eexists; reflexivity).
      eexists. split; [reflexivity |]. split; [apply lookup_setitem_eq |].
      left. exists content, answer.
      split; [reflexivity |]. split; [exact Hparse | reflexivity].
    + eexists. split; [reflexivity |]. split; [reflexivity |].
      right. eexists; reflexivity.
  - eexists. split; [reflexivity |]. split; [reflexivity |].
    right. eexists; reflexivity.
Qed.

Lemma map_result_raises {X Y} (body : X -> result Y) (xs : list X) (x : X) :
  (exists e, body x = Raise e) ->
  In x xs ->
  exists e, map_result body xs = Raise e.
Proof.
  intros Hraise. induction xs as [| y r IH]; intros Hin; [destruct Hin |].
  cbn [map_result]. destruct Hin as [-> | Hin].
  - destruct Hraise as [e ->]. exists e. reflexivity.
  - destruct (body y) as [v | e]; cbn [bind]; [| eexists; reflexivity].
    destruct (IH Hin) as [e ->]. exists e. reflexivity.
Qed.

(** The prompt of [extract_structured_information] is built outside its
    [try]: a schema entity that lacks [name], [type] or [attributes] makes
    the function raise, whatever the model would have answered. *)
Theorem incomplete_schema_entity_raises (text : string) (document_schema entity : pydict)
    (entities : list pyval) (key : string) (completion : result string) :
  get document_schema "entities" (PList []) = PList entities ->
  In (PDict entity) entities ->
  In key ["name"; "type"; "attributes"] ->
  lookup entity key = None ->
  exists e,
    extract_structured_information json_loads repr text document_schema completion
    = Raise e.
Proof.
  intros Hentities Hin Hkey Hmissing.
  unfold extract_structured_information, extraction_prompt.
  rewrite Hentities. cbn [iterate bind].
  destruct (map_result_raises (entity_description repr) entities (PDict entity))
    as [e ->]; [| exact Hin | exists e; reflexivity].
  unfold entity_description. cbn [subscript]. unfold getitem.
  cbn [In] in Hkey.
  destruct Hkey as [<- | [<- | [<- | []]]]; rewrite Hmissing;
    repeat (cbn [bind];
            first [eexists; reflexivity | apply bind_raises; intros ? _]).
Qed.

Lemma unknown_schema_extraction (text : string) (completion : result string) :
  exists extracted_data,
    extract_structured_information json_loads repr text
      [("document_type", PStr "unknown"); ("entities", PList []);
       ("primary_identifiers", PList [])] completion
    = Ok (PDict extracted_data)
    /\ lookup extracted_data "document_type" = Some (PStr "unknown").
Proof.
  unfold extract_structured_information, extraction_prompt.
  cbn [get lookup String.eqb Ascii.eqb Bool.eqb iterate bind map_result py_join].
  destruct completion as [content | e]; cbn [bind try_except];
    [| eexists; split; reflexivity].
  destruct (json_loads content) as [answer | e]; cbn [bind try_except];
    [| eexists; split; reflexivity].
  destruct answer; try (eexists; split; reflexivity).
  eexists. split; [reflexivity | apply lookup_setitem_eq].
Qed.

(** The two model steps compose when the first fails: the schema
    [identify_document_type] falls back to is one
    [extract_structured_information] accepts for every text, and the
    extraction then returns an object of document type [unknown], whatever
    the second model call does. *)
Theorem unidentified_document_is_still_extracted (text : string)
    (identification extraction : result string) :
  model_failure json_loads identification ->
  exists document_schema extracted_data,
    identify_document_type json_loads identification = Ok (PDict document_schema)
    /\ extract_structured_information json_loads repr text document_schema extraction
       = Ok (PDict extracted_data)
    /\ lookup extracted_data "document_type" = Some (PStr "unknown").
Proof.
  intros Hfail.
  assert (Hschema : identify_document_type json_loads identification = Ok unknown_schema).
  { unfold identify_document_type.
    destruct Hfail as [[e ->] | (content & e & -> & Hparse)]; cbn [bind];
      try rewrite Hparse; reflexivity. }
  destruct (unknown_schema_extraction text extraction) as (d & Hd & Htype).
  eexists. exists d. split; [exact Hschema |]. split; [exact Hd | exact Htype].
Qed.

End StructuredExtraction.

Lemma extraction_returns_schema_type_witness :
  exists extracted_data,
    extract_structured_information
      (fun _ => Ok (PDict [("invoice", PDict [("invoice_number", PStr "INV-100")]);
                          ("document_type", PStr "receipt")]))
      (fun _ => "") "Invoice INV-100" invoice_schema_object (Ok "{...}")
    = Ok (PDict extracted_data)
    /\ lookup extracted_data "document_type" = Some (PStr "invoice").
Proof.
  destruct (extraction_returns_schema_type
              (fun _ => Ok (PDict [("invoice", PDict [("invoice_number", PStr "INV-100")]);
                                  ("document_type", PStr "receipt")]))
              (fun _ => "") "Invoice INV-100" invoice_schema_object (Ok "{...}")
              _ eq_refl) as (extracted_data & Hok & Htype & _).
  exists extracted_data. split; [exact Hok | exact Htype].
Defined.

Lemma incomplete_schema_entity_raises_witness :
  exists e,
    extract_structured_information rejects_all (fun _ => "") "Invoice INV-100"
      [("document_type", PStr "invoice");
       ("entities", PList [PDict incomplete_entity])]
      service_unavailable
    = Raise e.
Proof.
  apply (incomplete_schema_entity_raises rejects_all (fun _ => "") "Invoice INV-100"
           [("document_type", PStr "invoice");
            ("entities", PList [PDict incomplete_entity])]
           incomplete_entity [PDict incomplete_entity] "attributes"
           service_unavailable).
  - reflexivity.
  - left. reflexivity.
  - do 2 right. left. reflexivity.
  - reflexivity.
Defined.

Lemma unidentified_document_is_still_extracted_witness :
  exists document_schema extracted_data,
    identify_document_type rejects_all service_unavailable = Ok (PDict document_schema)
    /\ extract_structured_information rejects_all (fun _ => "") "Invoice INV-100"
         document_schema service_unavailable
       = Ok (PDict extracted_data)
    /\ lookup extracted_data "document_type" = Some (PStr "unknown").
Proof.
  apply (unidentified_document_is_still_extracted rejects_all (fun _ => "")
           "Invoice INV-100" service_unavailable service_unavailable).
  left. exists (Exception "APIConnectionError" "Connection error."). reflexivity.
Defined.

(** ** The simplified query without a usable model answer *)

Lemma map_result_total {X Y} (body : X -> result Y) (xs : list X) :
  (forall x, exists y, body x = Ok y) ->
  exists ys, map_result body xs = Ok ys /\ length ys = length xs.
Proof.
  intros Hbody. induction xs as [| x r (ys & Hys & Hlen)].
  - exists []. split; reflexivity.
  - destruct (Hbody x) as [y Hy]. exists (y :: ys). cbn [map_result].
    rewrite Hy, Hys. cbn [bind length]. rewrite Hlen. split; reflexivity.
Qed.

Lemma rule_based_fallback_intent (query_lower : string) :
  exists type fields,
    rule_based_fallback query_lower = intent type fields
    /\ In type ["price"; "invoice_number"; "date"; "product_details"; "general"].
Proof.
  unfold rule_based_fallback, default_intent.
  destruct (any_in price_terms query_lower);
    [do 2 eexists; split; [reflexivity | cbn; tauto] |].
  destruct (any_in invoice_number_terms query_lower);
    [do 2 eexists; split; [reflexivity | cbn; tauto] |].
  destruct (any_in date_terms query_lower);
    [do 2 eexists; split; [reflexivity | cbn; tauto] |].
  destruct (any_in product_terms query_lower);
    do 2 eexists; (split; [reflexivity | cbn; tauto]).
Qed.

Section SimplifiedQuery.

Variable json_loads : string -> result pyval.
Variable repr : pyval -> string.
Variable store : Type.
Variable execute : store -> graph_query -> result (list pydict).

(** [simplified_query_kag] does not need the model: when the intent call
    fails or its text is not JSON, and the search succeeds, the route
    answers (for a request that does not ask for text) with the structured
    response, whose query type is one of the five the rules know and whose
    results are as many as the search found. *)
Theorem simplified_query_answers_without_model (graph : store)
    (intent_completion : result string) (request : KagRoutes.KagQueryRequest)
    (found : list pydict) :
  model_failure json_loads intent_completion ->
  search store execute graph (KagRoutes.query request)
         (KagRoutes.document_type request) = Ok found ->
  KagRoutes.format_as_text request <> Some true ->
  exists type items,
    KagRoutes.simplified_query_kag json_loads repr store execute graph
      intent_completion request
    = KagRoutes.Respond
        (KagRoutes.Structured
           {| KagRoutes.query_text := KagRoutes.query request;
              KagRoutes.query_type := PStr type;
              KagRoutes.results := items |})
    /\ In type ["price"; "invoice_number"; "date"; "product_details"; "general"]
    /\ length items = length found.
Proof.
  intros Hfail Hsearch Hformat.
  assert (Hintent : analyze_query_intent json_loads intent_completion
                      (KagRoutes.query request)
                    = Ok (rule_based_fallback (lower (KagRoutes.query request)))).
  { unfold analyze_query_intent.
    destruct Hfail as [[e ->] | (content & e & -> & Hparse)]; cbn [bind];
      try rewrite Hparse; reflexivity. }
  destruct (rule_based_fallback_intent (lower (KagRoutes.query request)))
    as (type & fields & Hfallback & Htype).
  destruct (map_result_total (KagRoutes.project (intent type fields)) found)
    as (items & Hitems & Hlen).
  { intros result. eexists. unfold KagRoutes.project, intent.
    cbn [subscript getitem lookup String.eqb Ascii.eqb Bool.eqb bind iterate].
    reflexivity. }
  exists type, items. split; [| split; assumption].
  unfold KagRoutes.simplified_query_kag.
  rewrite Hsearch, Hintent, Hfallback. cbn [bind].
  unfold KagRoutes.simplify.
  replace (subscript (intent type fields) "type") with (Ok (PStr type))
    by reflexivity.
  cbn [bind]. rewrite Hitems. cbn [bind].
  destruct (KagRoutes.format_as_text request) as [[] |];
    [contradiction Hformat; reflexivity | reflexivity | reflexivity].
Qed.

(** The model's intent is used as it comes: when its answer parses but has
    no [type] (or is no object), [simplified_query_kag] raises an
    [HTTPException] with status 500 and the text of the exception,
    whatever the search found. *)
Theorem intent_without_type_fails_the_query (graph : store)
    (content : string) (query_intent : pyval) (e : exn)
    (request : KagRoutes.KagQueryRequest) (found : list pydict) :
  json_loads content = Ok query_intent ->
  subscript query_intent "type" = Raise e ->
  search store execute graph (KagRoutes.query request)
         (KagRoutes.document_type request) = Ok found ->
  KagRoutes.simplified_query_kag json_loads repr store execute graph
    (Ok content) request
  = KagRoutes.HTTPException 500
      ("Error processing simplified query: " ++ str_exn e).
Proof.
  intros Hparse Htype Hsearch. unfold KagRoutes.simplified_query_kag.
  rewrite Hsearch. cbn [bind]. unfold analyze_query_intent. cbn [bind].
  rewrite Hparse. cbn [try_except bind]. unfold KagRoutes.simplify.
  rewrite Htype. reflexivity.
Qed.

(** [text_query_kag] answers with the rendering of what
    [simplified_query_kag] answers: when the latter returns the structured
    response, the former returns the text [generate_text_response] makes
    of that response, or raises 500 with the exception the rendering
    raised. *)
Theorem text_query_renders_structured_answer (graph : store)
    (intent_completion : result string) (request : KagRoutes.KagQueryRequest)
    (answer : KagRoutes.simplified_response) :
  KagRoutes.simplified_query_kag json_loads repr store execute graph
    intent_completion request
  = KagRoutes.Respond (KagRoutes.Structured answer) ->
  KagRoutes.text_query_kag json_loads repr store execute graph
    intent_completion request
  = match KagRoutes.generate_text_response repr answer with
    | Ok text => KagRoutes.Respond (KagRoutes.PlainText text)
    | Raise e => KagRoutes.HTTPException 500
                   ("Error processing simplified query: " ++ str_exn e)
    end.
Proof.
  unfold KagRoutes.text_query_kag, KagRoutes.simplified_query_kag.
  cbn [KagRoutes.query KagRoutes.document_type KagRoutes.format_as_text].
  destruct (search store execute graph (KagRoutes.query request)
                   (KagRoutes.document_type request)) as [found | e];
    [| discriminate].
  cbn [bind].
  destruct (analyze_query_intent json_loads intent_completion
              (KagRoutes.query request)) as [query_intent | e]; [| discriminate].
  cbn [bind].
  assert (Hsame : forall format,
    KagRoutes.simplify {| KagRoutes.query := KagRoutes.query request;
                          KagRoutes.document_type := KagRoutes.document_type request;
                          KagRoutes.limit := KagRoutes.limit request;
                          KagRoutes.format_as_text := format |} query_intent found
    = KagRoutes.simplify request query_intent found) by reflexivity.
  rewrite Hsame.
  destruct (KagRoutes.simplify request query_intent found) as [simplified | e];
    [| discriminate].
  cbn [bind KagRoutes.or_500].
  destruct (KagRoutes.format_as_text request) as [[] |].
  - destruct (KagRoutes.generate_text_response repr simplified); discriminate.
  - intros H. injection H as <-.
    destruct (KagRoutes.generate_text_response repr simplified); reflexivity.
  - intros H. injection H as <-.
    destruct (KagRoutes.generate_text_response repr simplified); reflexivity.
Qed.

End SimplifiedQuery.

Lemma simplified_query_answers_without_model_witness :
  exists type items,
    KagRoutes.simplified_query_kag rejects_all (fun _ => "") unit
      finds_matched_invoices tt service_unavailable price_request
    = KagRoutes.Respond
        (KagRoutes.Structured
           {| KagRoutes.query_text := "How much does it cost?";
              KagRoutes.query_type := PStr type;
              KagRoutes.results := items |})
    /\ length items = 6.
Proof.
  destruct (simplified_query_answers_without_model rejects_all (fun _ => "") unit
              finds_matched_invoices tt service_unavailable price_request
              matched_invoices)
    as (type & items & Hanswer & _ & Hlength).
  - left. exists (Exception "APIConnectionError" "Connection error."). reflexivity.
  - reflexivity.
  - discriminate.
  - exists type, items. split; [exact Hanswer | exact Hlength].
Defined.

Lemma intent_without_type_fails_the_query_witness :
  KagRoutes.simplified_query_kag (fun _ => Ok intent_without_type) (fun _ => "")
    unit finds_matched_invoices tt (Ok "{...}") price_request
  = KagRoutes.HTTPException 500 "Error processing simplified query: 'type'".
Proof.
  apply (intent_without_type_fails_the_query (fun _ => Ok intent_without_type)
           (fun _ => "") unit finds_matched_invoices tt "{...}" intent_without_type
           (KeyError "type") price_request matched_invoices);
    reflexivity.
Defined.

Lemma text_query_renders_structured_answer_witness :
  KagRoutes.text_query_kag rejects_all (fun _ => "") unit
    (fun _ _ => Ok [priced_invoice]) tt service_unavailable price_request
  = KagRoutes.Respond
      (KagRoutes.PlainText "Invoice INV-100 has a total amount of $10.00.").
Proof.
  apply (eq_trans
           (text_query_renders_structured_answer rejects_all (fun _ => "") unit
              (fun _ _ => Ok [priced_invoice]) tt service_unavailable price_request
              _ eq_refl)).
  reflexivity.
Defined.

(** ** Listing invoice numbers as text *)

Lemma py_eqb_text (s : string) (v : pyval) :
  py_eqb (PStr s) v = true -> exists t, v = PStr t.
Proof.
  destruct v; cbn; try discriminate. intros _. eexists; reflexivity.
Qed.

Lemma py_eqb_not_text (n v : pyval) :
  (forall t, n <> PStr t) -> py_eqb n v = true -> forall t, v <> PStr t.
Proof.
  intros Hn Heq t ->. destruct n; cbn in Heq; try discriminate.
  exact (Hn _ eq_refl).
Qed.

Lemma deduplicate_represents (rest : list pydict) :
  forall (seen : list pyval) (unique out : list pydict),
    KagRoutes.deduplicate rest seen unique = Ok out ->
    (forall k, In k seen ->
       exists u, In u unique
                 /\ (k = KagRoutes.invoice_number_of u
                     \/ py_eqb k (KagRoutes.invoice_number_of u) = true)) ->
    (forall u, In u unique -> In u out)
    /\ forall r, In r rest ->
         exists u, In u out
                   /\ (KagRoutes.invoice_number_of r = KagRoutes.invoice_number_of u
                       \/ py_eqb (KagRoutes.invoice_number_of r)
                                 (KagRoutes.invoice_number_of u) = true).
Proof.
  induction rest as [| r rest IH]; intros seen unique out H Hseen.
  - injection H as <-. split; [auto | intros r []].
  - cbn [KagRoutes.deduplicate] in H.
    destruct (hashable (KagRoutes.invoice_number_of r)); [| discriminate H].
    destruct (existsb (py_eqb (KagRoutes.invoice_number_of r)) seen) eqn:Hknown;
      cbn [negb] in H.
    + destruct (IH _ _ _ H Hseen) as [Hkeep Hrest]. split; [exact Hkeep |].
      intros r' [<- | Hin]; [| apply Hrest; exact Hin].
      apply existsb_exists in Hknown as (k & Hk & Heq).
      destruct (Hseen k Hk) as (u & Hu & [-> | Hku]).
      * exists u. split; [apply Hkeep; exact Hu | right; exact Heq].
      * exists u. split; [apply Hkeep; exact Hu |].
        right. exact (py_eqb_trans _ _ _ Heq Hku).
    + destruct (IH _ _ _ H) as [Hkeep Hrest].
      { intros k [<- | Hk].
        - exists r. split; [apply in_or_app; right; left; reflexivity |].
          left. reflexivity.
        - destruct (Hseen k Hk) as (u & Hu & Hrep).
          exists u. split; [apply in_or_app; left; exact Hu | exact Hrep]. }
      split.
      * intros u Hu. apply Hkeep, in_or_app. left. exact Hu.
      * intros r' [<- | Hin]; [| apply Hrest; exact Hin].
        exists r. split; [| left; reflexivity].
        apply Hkeep, in_or_app. right. left. reflexivity.
Qed.

Lemma map_result_In {X Y} (body : X -> result Y) (xs : list X) (ys : list Y)
    (x : X) (y : Y) :
  map_result body xs = Ok ys -> In x xs -> body x = Ok y -> In y ys.
Proof.
  intros H Hin Hx. apply map_result_Forall2 in H.
  induction H as [| x' y' xs' ys' Hhead _ IH]; [destruct Hin |].
  destruct Hin as [-> | Hin]; [left; congruence | right; apply IH; exact Hin].
Qed.

Lemma py_join_needs_text (sep : string) (items : list pyval) (item : pyval) :
  In item items -> (forall t, item <> PStr t) ->
  exists e, py_join sep (PList items) = Raise e.
Proof.
  intros Hin Hitem. unfold py_join. cbn [iterate bind].
  destruct (map_result_raises
              (fun item => match item with
                           | PStr t => Ok t
                           | _ => Raise (TypeError "sequence item: expected str instance")
                           end) items item) as [e ->];
    [| exact Hin | exists e; reflexivity].
  destruct item; try (eexists; reflexivity). contradiction (Hitem s eq_refl).
Qed.

(** Asked for invoice numbers, [generate_text_response] raises as soon as
    the results carry a number that is a text and a number that is not
    (a missing number, say, which the store returns as [None]): the two are
    distinct, so the numbers are joined, and only texts can be joined. *)
Theorem invoice_number_list_needs_text_numbers (repr : pyval -> string)
    (query_text number : string) (results : list pydict) (named other : pydict) :
  In named results ->
  KagRoutes.invoice_number_of named = PStr number ->
  In other results ->
  (forall t, KagRoutes.invoice_number_of other <> PStr t) ->
  exists e,
    KagRoutes.generate_text_response repr
      {| KagRoutes.query_text := query_text;
         KagRoutes.query_type := PStr "invoice_number";
         KagRoutes.results := results |}
    = Raise e.
Proof.
  intros Hnamed Hnumber Hother Hnot.
  unfold KagRoutes.generate_text_response.
  cbn [KagRoutes.results KagRoutes.query_type].
  destruct results as [| first rest] eqn:Hresults; [destruct Hnamed |].
  rewrite <- Hresults in *. clear Hresults first rest.
  unfold KagRoutes.unique_results.
  destruct (KagRoutes.deduplicate results [] []) as [unique | e] eqn:Hunique;
    [| exists e; reflexivity].
  cbn [bind].
  destruct (deduplicate_represents _ _ _ _ Hunique) as [_ Hrep];
    [intros k [] |].
  destruct (Hrep named Hnamed) as (u1 & Hu1 & Hrep1).
  destruct (Hrep other Hother) as (u2 & Hu2 & Hrep2).
  assert (Htext : exists t, KagRoutes.invoice_number_of u1 = PStr t).
  { destruct Hrep1 as [<- | Heq]; [exists number; exact Hnumber |].
    rewrite Hnumber in Heq. apply py_eqb_text in Heq as [t ->].
    exists t. reflexivity. }
  assert (Hnontext : forall t, KagRoutes.invoice_number_of u2 <> PStr t).
  { destruct Hrep2 as [<- | Heq]; [exact Hnot |].
    exact (py_eqb_not_text _ _ Hnot Heq). }
  assert (Hplural : forall only, unique <> [only]).
  { intros only ->. destruct Hu1 as [<- | []]. destruct Hu2 as [<- | []].
    destruct Htext as [t Ht]. exact (Hnontext t Ht). }
  unfold KagRoutes.render. cbn [is_str String.eqb Ascii.eqb Bool.eqb].
  assert (Hjoin : exists e,
    bind (map_result (fun r => getitem r "invoice_number") unique) (fun numbers =>
    bind (py_join ", " (PList numbers)) (fun invoice_numbers =>
    Ok ("I found the following invoice numbers: " ++ invoice_numbers ++ ".")%string))
    = Raise e).
  { apply bind_raises. intros numbers Hnumbers. apply bind_raises. intros text Htxt.
    exfalso.
    destruct (lookup u2 "invoice_number") as [n |] eqn:Hn.
    - assert (Hin : In n numbers).
      { eapply map_result_In; [exact Hnumbers | exact Hu2 |].
        unfold getitem. rewrite Hn. reflexivity. }
      destruct (py_join_needs_text ", " numbers n Hin) as [e He]; [| congruence].
      intros t ->. apply (Hnontext t).
      unfold KagRoutes.invoice_number_of, get. rewrite Hn. reflexivity.
    - apply (Hnontext ""). unfold KagRoutes.invoice_number_of, get.
      rewrite Hn. reflexivity. }
  destruct unique as [| a [| b more]]; [exact Hjoin | | exact Hjoin].
  contradiction (Hplural a eq_refl).
Qed.

Lemma invoice_number_list_needs_text_numbers_witness :
  exists e,
    KagRoutes.generate_text_response (fun _ => "")
      {| KagRoutes.query_text := "What is the invoice number?";
         KagRoutes.query_type := PStr "invoice_number";
         KagRoutes.results := numbered_and_unnumbered |}
    = Raise e.
Proof.
  apply (invoice_number_list_needs_text_numbers (fun _ => "")
           "What is the invoice number?" "INV-100" numbered_and_unnumbered
           [("invoice_number", PStr "INV-100")] [("invoice_number", PNone)]).
  - left. reflexivity.
  - reflexivity.
  - right. left. reflexivity.
  - intros t H. discriminate H.
Defined.

(* ===================================================================== *)
(** * The dynamic materializer and the store *)
(* ===================================================================== *)

(** ** Transactions *)

Section Transactions.

Variable graph : Type.
Variable write : graph -> graph_query -> result graph.




Lemma for_each_nil_completes {X} (body : X -> Materializer.transaction graph unit)
    (g g' : graph) (log : list graph_query) :
  Materializer.for_each [] body g = (g', log, Ok tt) -> g' = g /\ log = [].
Proof. cbn. intros H. injection H as <- <-. split; reflexivity. Qed.


End Transactions.

(** ** The reference store on the statements of the materializer *)










(** ** The materializer in a store that holds no document of this id *)

Lemma has_node_id_spec (id : string) (n : entity_node) :
  has_node_id id n = true <-> node_id_text n = Some id.
Proof.
  unfold has_node_id, node_id_text.
  destruct (lookup (node_properties n) "node_id") as [[] |];
    try (split; discriminate).
  rewrite String.eqb_eq. split; [intros ->; reflexivity | intros H; injection H; auto].
Qed.


Lemma filter_by_other_node_id (nodes : list entity_node) (ids : list string)
    (id : string) :
  map node_id_text nodes = map Some ids ->
  ~ In id ids ->
  filter (has_node_id id) nodes = [].
Proof.
  revert ids. induction nodes as [| n nodes IH]; intros ids Hids Hout; [reflexivity |].
  destruct ids as [| i ids]; [discriminate Hids |].
  cbn [map] in Hids. injection Hids as Hn Hrest. cbn [filter].
  destruct (has_node_id id n) eqn:Hid.
  - apply has_node_id_spec in Hid. rewrite Hn in Hid. injection Hid as ->.
    contradiction Hout. left. reflexivity.
  - apply (IH ids Hrest). intros H. apply Hout. right. exact H.
Qed.

Section ReferenceStore.

Variable float : string -> result pyfloat.
Variable document_id : string.
Variable g0 : property_graph.
Hypothesis fresh : Forall (fun other => document_key other <> document_id) g0.






















End ReferenceStore.







(** ** One node per instance *)

(** [_create_entity_node] on an object and a text type sends one statement
    to the store and ends as the store ends on it: it returns when the
    store takes the statement and raises what the store raises.  The label
    in the statement is the sanitized entity type, made of identifier
    characters only; the properties carry the given [node_id], and every
    other key of the entity data (its keys being distinct, as those of a
    dict are) with its value normalized, unless the value is [None], in
    which case the key is left out.  Entity data that is no object raises
    before anything is sent. *)
Theorem entity_node_properties (graph : Type)
    (write : graph -> graph_query -> result graph)
    (float : string -> result pyfloat)
    (document_id entity_type node_id : string) (entity_data : pydict) (g : graph) :
  NoDup (map fst entity_data) ->
  exists properties,
    Materializer._create_entity_node graph write float document_id
      (PStr entity_type) (PDict entity_data) node_id g
    = (let statement :=
         Query ("MATCH (d:Document {id: $document_id}) CREATE (e:"
                  ++ sanitize entity_type
                  ++ " $properties) CREATE (d)-[:CONTAINS]->(e)")
               [("document_id", PStr document_id);
                ("properties", PDict properties)] in
       match write g statement with
       | Ok g' => (g', [statement], Ok tt)
       | Raise e => (g, [statement], Raise e)
       end)
    /\ safe_identifier (sanitize entity_type)
    /\ lookup properties "node_id" = Some (PStr node_id)
    /\ (forall k, k <> "node_id" ->
          lookup properties k
          = match lookup entity_data k with
            | Some PNone | None => None
            | Some v => Some (normalize_value float v)
            end)
    /\ (forall other, is_object other = false ->
          exists e,
            Materializer._create_entity_node graph write float document_id
              (PStr entity_type) other node_id g
            = (g, [], Raise e)).
Proof.
  intros Hnodup.
  exists (setitem (normalized float entity_data) "node_id" (PStr node_id)).
  split.
  { cbv zeta.
    unfold Materializer._create_entity_node, Materializer.tbind, Materializer.lift,
      Materializer.run.
    destruct (write g _); reflexivity. }
  split.
  { apply safe_identifier_all_chars, sanitize_all_chars. }
  split; [apply lookup_setitem_eq |]. split.
  - intros k Hk. rewrite lookup_setitem_ne by congruence.
    apply lookup_normalized, Hnodup.
  - intros other Hother.
    destruct other; try discriminate Hother; eexists; reflexivity.
Qed.

Lemma entity_node_properties_witness :
  NoDup (map fst widget_item)
  /\ exists properties,
       Materializer._create_entity_node (list graph_query)
         (fun sent statement => Ok (sent ++ [statement])) decimal_float
         "doc-1" (PStr "Line Item") (PDict widget_item) "line_items_0" []
       = (let statement :=
            Query ("MATCH (d:Document {id: $document_id}) CREATE (e:Line_Item "
                     ++ "$properties) CREATE (d)-[:CONTAINS]->(e)")
                  [("document_id", PStr "doc-1");
                   ("properties", PDict properties)] in
          ([statement], [statement], Ok tt))
       /\ lookup properties "node_id" = Some (PStr "line_items_0")
       /\ lookup properties "total" = Some (PFloat (FFinite 10))
       /\ lookup properties "note" = None.
Proof.
  assert (Hkeys : NoDup (map fst widget_item)).
  { repeat constructor; cbn; intuition discriminate. }
  split; [exact Hkeys |].
  destruct (entity_node_properties (list graph_query)
              (fun sent statement => Ok (sent ++ [statement])) decimal_float
              "doc-1" "Line Item" "line_items_0" widget_item [] Hkeys)
    as (properties & Hrun & _ & Hid & Hrest & _).
  exists properties. split; [exact Hrun |]. split; [exact Hid |]. split.
  - rewrite Hrest by discriminate. reflexivity.
  - rewrite Hrest by discriminate. reflexivity.
Defined.

(** ** Relationships of entities the data does not have *)

(** A declared relationship whose [related_to] and [relationship_type] are
    texts, of an entity whose [name] is a text: when the source or the
    target name is not a key of the extracted data, the relationship step
    sends nothing to the store, leaves it as it is and raises nothing.  The
    fields are read before that test: without its [relationship_type] the
    step raises [KeyError], whatever the data has. *)
Theorem missing_entity_skips_relationship (graph : Type)
    (write : graph -> graph_query -> result graph) (document_id : string)
    (extracted_data entity relationship : pydict) (source target : string)
    (g : graph) :
  lookup entity "name" = Some (PStr source) ->
  lookup relationship "related_to" = Some (PStr target) ->
  (forall relationship_type,
      lookup relationship "relationship_type" = Some (PStr relationship_type) ->
      lookup extracted_data source = None \/ lookup extracted_data target = None ->
      Materializer.create_relationships graph write document_id extracted_data
        (PDict entity) (PDict relationship) g
      = (g, [], Ok tt))
  /\ (lookup relationship "relationship_type" = None ->
      Materializer.create_relationships graph write document_id extracted_data
        (PDict entity) (PDict relationship) g
      = (g, [], Raise (KeyError "relationship_type"))).
Proof.
  intros Hname Hto. unfold Materializer.create_relationships.
  cbn [subscript]. unfold getitem. rewrite Hname, Hto. split.
  - intros relationship_type -> Habsent. cbn.
    destruct Habsent as [-> | Htarget]; [reflexivity |].
    destruct (lookup extracted_data source); [| reflexivity].
    rewrite Htarget. reflexivity.
  - intros ->. reflexivity.
Qed.

Lemma missing_entity_skips_relationship_witness :
  Materializer.create_relationships property_graph reference_run "doc-0"
    [("invoice", PDict [("invoice_number", PStr "INV-100")])]
    (PDict [("name", PStr "invoice"); ("type", PStr "Invoice")])
    (PDict [("related_to", PStr "line_items");
            ("relationship_type", PStr "has item")])
    other_document
  = (other_document, [], Ok tt)
  /\ Materializer.create_relationships property_graph reference_run "doc-0"
       [("invoice", PDict [("invoice_number", PStr "INV-100")])]
       (PDict [("name", PStr "invoice"); ("type", PStr "Invoice")])
       (PDict [("related_to", PStr "line_items")])
       other_document
     = (other_document, [], Raise (KeyError "relationship_type")).
Proof.
  split.
  - apply (proj1 (missing_entity_skips_relationship property_graph reference_run
                    "doc-0" [("invoice", PDict [("invoice_number", PStr "INV-100")])]
                    [("name", PStr "invoice"); ("type", PStr "Invoice")]
                    [("related_to", PStr "line_items");
                     ("relationship_type", PStr "has item")]
                    "invoice" "line_items" other_document eq_refl eq_refl)
                 "has item" eq_refl).
    right. reflexivity.
  - apply (proj2 (missing_entity_skips_relationship property_graph reference_run
                    "doc-0" [("invoice", PDict [("invoice_number", PStr "INV-100")])]
                    [("name", PStr "invoice"); ("type", PStr "Invoice")]
                    [("related_to", PStr "line_items")]
                    "invoice" "line_items" other_document eq_refl eq_refl)).
    reflexivity.
Defined.

(** ** What [process_document] hands back *)

Section IngestionReport.

Variable json_loads : string -> result pyval.
Variable repr : pyval -> string.
Variable fitz_text : string -> result string.
Variable s3_client : option (string -> string -> result unit).

(** [process_document] raises nothing: it returns the dict of an error,
    [{"error": message}], or the dict of a completed ingestion with the
    document id, the key of the upload and the graph structure.  When the
    upload raises, it issues no query and the error is the text of the
    exception.  When no text could be extracted and the upload, if there was
    one, went through, it issues no query and the error is
    "Failed to extract text from PDF", whatever the model would answer. *)
Theorem process_document_reports_errors
    (input_data input_type file_uuid document_uuid : string)
    (completion : result string) :
  let ingestion :=
    process_document json_loads repr fitz_text s3_client
      input_data input_type file_uuid document_uuid completion in
  ((exists message, outcome ingestion = Ok (PDict [("error", PStr message)]))
   \/ (exists s3_key graph_structure,
         outcome ingestion
         = Ok (PDict [("document_id", PStr document_uuid);
                      ("s3_key", s3_key);
                      ("graph_structure", graph_structure)])))
  /\ (forall upload e,
        s3_client = Some upload -> input_type = "pdf" ->
        upload input_data ("documents/" ++ file_uuid ++ ".pdf")%string = Raise e ->
        ingestion = ([], Ok (PDict [("error", PStr (str_exn e))])))
  /\ (preprocess_document fitz_text input_data input_type = Ok "" ->
      (forall upload,
          s3_client = Some upload -> input_type = "pdf" ->
          upload input_data ("documents/" ++ file_uuid ++ ".pdf")%string = Ok tt) ->
      ingestion
      = ([], Ok (PDict [("error", PStr "Failed to extract text from PDF")]))).
Proof.
  cbv zeta. split; [apply process_document_returns_dict |]. split.
  - intros upload e -> -> Hupload. unfold process_document.
    cbn [String.eqb Ascii.eqb Bool.eqb]. rewrite Hupload. reflexivity.
  - intros Htext Hupload. unfold process_document. rewrite Htext.
    destruct s3_client as [upload |]; [| reflexivity].
    destruct (input_type =? "pdf") eqn:Hpdf; [| reflexivity].
    apply String.eqb_eq in Hpdf.
    rewrite (Hupload upload eq_refl Hpdf). reflexivity.
Qed.

End IngestionReport.

Lemma process_document_reports_errors_witness :
  process_document rejects_all (fun _ => "")
    (fun _ => Raise (Exception "FileDataError" "cannot open"))
    (Some (fun _ _ => Ok tt))
    "/tmp/broken.pdf" "pdf" "uuid-1" "uuid-2" service_unavailable
  = ([], Ok (PDict [("error", PStr "Failed to extract text from PDF")])).
Proof.
  apply (proj2 (proj2 (process_document_reports_errors rejects_all (fun _ => "")
                         (fun _ => Raise (Exception "FileDataError" "cannot open"))
                         (Some (fun _ _ => Ok tt))
                         "/tmp/broken.pdf" "pdf" "uuid-1" "uuid-2"
                         service_unavailable))).
  - reflexivity.
  - intros upload Hupload _. injection Hupload as <-. reflexivity.
Defined.

(** ** The scenarios of the materializer, in the reference store *)

(** The relationship type ["has-item"] reaches the store as [HAS-ITEM],
    which is no name: the store raises on the first relationship, after the
    nodes were created. *)
Example dash_relationship_is_refused_by_the_store :
  let '(g, sent, outcome) :=
    materialize decimal_float "doc-1" invoice_data
      (PDict (invoice_schema_json "line_items" "has-item")) [] in
  map (fun d => (length (contained d), related d)) g = [(3, [])]
  /\ nth_error sent 4
     = Some (Query ("MATCH (d:Document {id: $document_id}) "
                      ++ "MATCH (source {node_id: $source_id})<-[:CONTAINS]-(d) "
                      ++ "MATCH (target {node_id: $target_id})<-[:CONTAINS]-(d) "
                      ++ "CREATE (source)-[:HAS-ITEM]->(target)")
                   [("document_id", PStr "doc-1");
                    ("source_id", PStr "invoice");
                    ("target_id", PStr "line_items_0")])
  /\ length sent = 5
  /\ outcome = Raise syntax_error.
Proof. vm_compute. repeat split. Qed.

(** An entity the schema lists twice gets two nodes of each id, and each
    relationship statement then relates every pair of them. *)
Example repeated_entity_multiplies_relationships :
  let invoice :=
    PDict [("name", PStr "invoice"); ("type", PStr "Invoice");
           ("relationships",
            PList [PDict [("related_to", PStr "invoice");
                          ("relationship_type", PStr "same as")]])] in
  let '(g, sent, outcome) :=
    materialize decimal_float "doc-1"
      [("invoice", PDict [("invoice_number", PStr "INV-100")])]
      (PDict [("entities", PList [invoice; invoice])]) [] in
  map (fun d => (length (contained d), length (related d))) g = [(2, 8)]
  /\ length sent = 5
  /\ outcome = Ok tt.
Proof. vm_compute. repeat split. Qed.

(** In a store that holds a document of the same id, the nodes and the
    relationships are created in both. *)
Example reused_document_id_writes_to_both :
  let '(g, sent, outcome) :=
    materialize decimal_float "doc-0" invoice_data
      (PDict (invoice_schema_json "line_items" "has item")) other_document in
  map (fun d => (length (contained d), length (related d))) g = [(4, 4); (3, 2)]
  /\ outcome = Ok tt.
Proof. vm_compute. repeat split. Qed.

(** ** The typed schema and the schema as the model sends it *)

Section TypedSchema.

Variable graph : Type.
Variable write : graph -> graph_query -> result graph.
Variable float : string -> result pyfloat.
Hypothesis accepts : forall g q, exists g', write g q = Ok g'.

Lemma alike_ret {A} (a : A) : alike (Materializer.ret (graph := graph) a) (ret a).
Proof. intros g. exists g. reflexivity. Qed.

Lemma alike_raise {A} (e : exn) :
  alike (Materializer.lift (graph := graph) (A := A) (Raise e)) (raise e).
Proof. intros g. exists g. reflexivity. Qed.

Lemma alike_run (q : graph_query) : alike (Materializer.run graph write q) (run q).
Proof.
  intros g. unfold Materializer.run. destruct (accepts g q) as [g' ->].
  exists g'. reflexivity.
Qed.

Lemma alike_then {A B} (m : Materializer.transaction graph A) (s : session A)
    (k : A -> Materializer.transaction graph B) (k' : A -> session B) :
  alike m s -> (forall a, alike (k a) (k' a)) ->
  alike (Materializer.tbind m k) (sbind s k').
Proof.
  intros Hm Hk g. unfold Materializer.tbind. destruct (Hm g) as [g1 ->].
  destruct s as [log [a | e]]; cbn [issued outcome fst snd sbind].
  - destruct (Hk a g1) as [g2 ->]. exists g2.
    destruct (k' a) as [log' r]. reflexivity.
  - exists g1. reflexivity.
Qed.

Lemma alike_lift_ok {A B} (a : A) (k : A -> Materializer.transaction graph B)
    (s : session B) :
  alike (k a) s -> alike (Materializer.tbind (Materializer.lift (Ok a)) k) s.
Proof.
  intros Hk g. unfold Materializer.tbind, Materializer.lift.
  destruct (Hk g) as [g' ->]. exists g'. rewrite app_nil_l. reflexivity.
Qed.

Lemma alike_lift_raise {A B} (e : exn) (k : A -> Materializer.transaction graph B) :
  alike (Materializer.tbind (Materializer.lift (Raise e)) k) (raise e).
Proof. intros g. exists g. reflexivity. Qed.

Lemma alike_for_each {X Y} (f : X -> Y) (xs : list X)
    (body : Y -> Materializer.transaction graph unit) (body' : X -> session unit) :
  (forall x, alike (body (f x)) (body' x)) ->
  alike (Materializer.for_each (map f xs) body) (for_each xs body').
Proof.
  intros Hbody. induction xs as [| x r IH]; [apply alike_ret |].
  cbn [map Materializer.for_each for_each].
  apply alike_then; [apply Hbody | intros _; exact IH].
Qed.

Lemma _create_entity_node_alike (document_id entity_type node_id : string)
    (entity_data : pyval) :
  alike (Materializer._create_entity_node graph write float document_id
           (PStr entity_type) entity_data node_id)
        (_create_entity_node float document_id entity_type entity_data node_id).
Proof.
  unfold Materializer._create_entity_node, _create_entity_node.
  destruct entity_data; try apply alike_lift_raise.
  apply alike_lift_ok, alike_lift_ok, alike_run.
Qed.

Lemma create_entity_nodes_alike (document_id : string) (extracted_data : pydict)
    (entity : entity_schema) :
  alike (Materializer.create_entity_nodes graph write float document_id
           extracted_data (entity_json entity))
        (create_entity_nodes float document_id extracted_data entity).
Proof.
  unfold Materializer.create_entity_nodes, create_entity_nodes, entity_json.
  cbn [subscript getitem lookup String.eqb Ascii.eqb Bool.eqb].
  apply alike_lift_ok, alike_lift_ok.
  destruct (lookup extracted_data (name entity)) as [value |]; [| apply alike_ret].
  destruct value; try apply _create_entity_node_alike.
  unfold enumerate.
  rewrite <- (map_id (combine (seq 0 (length l)) l)) at 1.
  apply alike_for_each. intros [i item]. apply _create_entity_node_alike.
Qed.

Lemma _create_relationship_alike (document_id source_id target_id type : string) :
  alike (Materializer._create_relationship graph write document_id
           source_id target_id type)
        (_create_relationship document_id source_id target_id type).
Proof. apply alike_run. Qed.

Lemma for_each_range_alike (n : nat)
    (body : nat -> Materializer.transaction graph unit) (body' : nat -> session unit) :
  (forall i, alike (body i) (body' i)) ->
  alike (Materializer.for_each (range n) body) (for_each (range n) body').
Proof.
  intros Hbody. rewrite <- (map_id (range n)) at 1.
  apply alike_for_each. exact Hbody.
Qed.

Lemma create_relationships_alike (document_id : string) (extracted_data : pydict)
    (entity : entity_schema) (rel : relationship) :
  alike (Materializer.create_relationships graph write document_id extracted_data
           (entity_json entity) (relationship_json rel))
        (create_relationships document_id extracted_data entity rel).
Proof.
  unfold Materializer.create_relationships, create_relationships,
    entity_json, relationship_json, relationship_identifier.
  cbn [subscript getitem lookup String.eqb Ascii.eqb Bool.eqb bind].
  apply alike_lift_ok, alike_lift_ok, alike_lift_ok.
  destruct (lookup extracted_data (name entity)) as [source_data |];
    [| apply alike_ret].
  destruct (lookup extracted_data (related_to rel)) as [target_data |];
    [| apply alike_ret].
  destruct source_data, target_data;
    first [ apply _create_relationship_alike
          | apply for_each_range_alike; intros i;
            first [ apply _create_relationship_alike
                  | apply for_each_range_alike; intros j;
                    apply _create_relationship_alike ] ].
Qed.

(** On a schema whose fields all have their types, and in a store that takes
    every statement, the materializer sends the statements of the typed
    materializer, in their order, and ends as it ends. *)
Theorem typed_schema_materializes_alike (document_id : string)
    (extracted_data : pydict) (schema : document_schema) (g : graph) :
  exists g',
    Materializer.create_dynamic_knowledge_graph graph write float document_id
      extracted_data (schema_json schema) g
    = (g',
       issued (create_dynamic_knowledge_graph float document_id extracted_data schema),
       outcome (create_dynamic_knowledge_graph float document_id extracted_data schema)).
Proof.
  revert g.
  change (alike (Materializer.create_dynamic_knowledge_graph graph write float
                   document_id extracted_data (schema_json schema))
                (create_dynamic_knowledge_graph float document_id extracted_data
                   schema)).
  unfold Materializer.create_dynamic_knowledge_graph, create_dynamic_knowledge_graph,
    schema_json.
  cbn [dict_get get lookup String.eqb Ascii.eqb Bool.eqb bind iterate].
  apply alike_then; [apply alike_run | intros _].
  apply alike_lift_ok.
  apply alike_then.
  { apply alike_for_each. intros entity. apply create_entity_nodes_alike. }
  intros _. apply alike_lift_ok.
  apply alike_for_each. intros entity.
  unfold entity_json at 1.
  cbn [dict_get get lookup String.eqb Ascii.eqb Bool.eqb bind iterate].
  apply alike_lift_ok.
  apply alike_for_each. intros rel. apply create_relationships_alike.
Qed.

End TypedSchema.

Lemma typed_schema_materializes_alike_witness :
  Materializer.create_dynamic_knowledge_graph (list graph_query)
    (fun sent statement => Ok (sent ++ [statement])) decimal_float "doc-1"
    invoice_data (schema_json (invoice_schema has_dash_item)) []
  = (issued (create_dynamic_knowledge_graph decimal_float "doc-1" invoice_data
               (invoice_schema has_dash_item)),
     issued (create_dynamic_knowledge_graph decimal_float "doc-1" invoice_data
               (invoice_schema has_dash_item)),
     Ok tt).
Proof.
  destruct (typed_schema_materializes_alike (list graph_query)
              (fun sent statement => Ok (sent ++ [statement])) decimal_float
              (fun g q => ex_intro _ (g ++ [q]) eq_refl)
              "doc-1" invoice_data (invoice_schema has_dash_item) [])
    as [g' Hrun].
  rewrite Hrun. vm_compute in Hrun. injection Hrun as <-. reflexivity.
Defined.
